(** * Run orchestration and metrics aggregation: a shallow embedding

    This development embeds the experiment harness of
    [run_multiple_experiments.py] (together with the sibling entry point
    [run_bargain_match.py]) and proves the properties its specification
    states about it.

    Conventions of the embedding.

    - A Python value read from or written to a JSON artifact is a [value].
      Python's [int] and [float] are both rendered as exact rationals
      ([VNum]); rounding, infinities and NaN are outside the model.
    - A Python [dict] is an association list in insertion order with the
      update-in-place behaviour of [d[k] = v] ([Dict.set]).
    - A raised exception is a value of [exn]; a computation that may raise
      returns a [result].  State that survives a raised exception (files,
      the engine module's attributes, the captured streams) is threaded
      explicitly.
    - The simulation engine (the module [main], which is not part of the
      harness) is a parameter of the development. *)

From Stdlib Require Import List String Ascii Bool Arith ZArith QArith Lia.
From Stdlib Require Import DecimalString DecimalNat.
Import ListNotations.

Set Warnings "-register-all".
Local Open Scope list_scope.
Local Open Scope string_scope.

(* ================================================================== *)
(** ** Python values and dictionaries *)

Inductive value : Type :=
| VNone
| VBool (b : bool)
| VNum (q : Q)
| VStr (s : string)
| VList (l : list value)
| VDict (d : list (string * value)).

(** A result record: the [dict] the harness passes around. *)
Definition record := list (string * value).

Module Dict.

Section Ops.
Context {V : Type}.

(** [d.get(k)] / [d[k]] *)
Fixpoint get (k : string) (d : list (string * V)) : option V :=
  match d with
  | [] => None
  | (k', v) :: d' => if String.eqb k k' then Some v else get k d'
  end.

(** [k in d] *)
Definition mem (k : string) (d : list (string * V)) : bool :=
  match get k d with Some _ => true | None => false end.

(** [d[k] = v]: an existing key keeps its position, a new key goes last. *)
Fixpoint set (k : string) (v : V) (d : list (string * V)) : list (string * V) :=
  match d with
  | [] => [(k, v)]
  | (k', v') :: d' =>
      if String.eqb k k' then (k, v) :: d' else (k', v') :: set k v d'
  end.

(** [list(d.keys())] *)
Definition keys (d : list (string * V)) : list string := map fst d.

End Ops.

End Dict.

(** Python's numeric tower as far as the harness uses it: [bool] is a
    subtype of [int], everything else that is not a number has no numeric
    reading. *)
Definition as_num (v : value) : option Q :=
  match v with
  | VNum q => Some q
  | VBool true => Some 1%Q
  | VBool false => Some 0%Q
  | _ => None
  end.

Definition VInt (z : Z) : value := VNum (inject_Z z).
Definition VNat (n : nat) : value := VInt (Z.of_nat n).

(* ================================================================== *)
(** ** Exceptions *)

(** An exception: its class name and [str(e)]. *)
Inductive exn : Type := Exn (kind : string) (msg : string).

Definition exn_kind (e : exn) : string := let 'Exn k _ := e in k.
Definition str_exn (e : exn) : string := let 'Exn _ m := e in m.

(** [traceback.format_exc()] inside a handler for [e]; the stack frames
    are not modelled, the last line is Python's. *)
Definition format_exc (e : exn) : string :=
  "Traceback (most recent call last):" ++ "
" ++ exn_kind e ++ ": " ++ str_exn e ++ "
".

Inductive result (A : Type) : Type :=
| Ok (a : A)
| Raise (e : exn).
Arguments Ok {A} a.
Arguments Raise {A} e.

Definition is_ok {A} (r : result A) : bool :=
  match r with Ok _ => true | Raise _ => false end.

Definition rbind {A B} (r : result A) (k : A -> result B) : result B :=
  match r with
  | Ok a => k a
  | Raise e => Raise e
  end.

Declare Scope result_scope.
Delimit Scope result_scope with res.
Notation "x <- r ;; k" := (rbind r (fun x => k))
  (at level 61, r at next level, right associativity) : result_scope.

Definition TypeError (m : string) : exn := Exn "TypeError" m.

(** [d[k]] on a dict. *)
Definition py_getitem (d : record) (k : string) : result value :=
  match Dict.get k d with
  | Some v => Ok v
  | None => Raise (Exn "KeyError" k)
  end.

(** [v > 0] *)
Definition py_gt0 (v : value) : result bool :=
  match as_num v with
  | Some q => Ok (if Qlt_le_dec 0 q then true else false)
  | None => Raise (TypeError "'>' not supported between these operands")
  end.

(** [a / b] (true division) *)
Definition py_div (a b : value) : result value :=
  match as_num a, as_num b with
  | Some x, Some y =>
      if Qeq_bool y 0 then Raise (Exn "ZeroDivisionError" "division by zero")
      else Ok (VNum (x / y))
  | _, _ => Raise (TypeError "unsupported operand type(s) for /")
  end.

(* ================================================================== *)
(** ** The metric table *)

(** [METRICS_TO_COLLECT]: display name to record key, in source order. *)
Definition METRICS_TO_COLLECT : list (string * string) :=
  [ ("长期平均系统成本", "C_mean");
    ("平均端到端时延", "avg_delay_mean");
    ("队列稳定性", "Avg_queue");
    ("单时隙决策时延", "DecisionTime_ms_mean");
    ("成本-时延权衡指标", "C_mean_avg_delay_ratio") ].

Definition metric_keys : list string := map snd METRICS_TO_COLLECT.

(* ================================================================== *)
(** ** Batch coordinator: derived ratio (main, lines 458-467) *)

(** The body of [if run_result:] up to the append.  The only mutation of
    [run_result] is the final assignment, so a raise leaves it as it was. *)
Definition inject_ratio (run_result : record) : result record :=
  if Dict.mem "C_mean" run_result && Dict.mem "avg_delay_mean" run_result then
    (delay <- py_getitem run_result "avg_delay_mean" ;;
     positive <- py_gt0 delay ;;
     if (positive : bool) then
       (cost <- py_getitem run_result "C_mean" ;;
        ratio <- py_div cost delay ;;
        Ok (Dict.set "C_mean_avg_delay_ratio" ratio run_result))
     else
       Ok (Dict.set "C_mean_avg_delay_ratio" (VInt 0) run_result))%res
  else
    Ok run_result.

(* ================================================================== *)
(** ** Text helpers *)

Definition nl : string := String (ascii_of_nat 10) EmptyString.

(** Decimal rendering of the integers that appear in f-strings. *)
Definition str_nat (n : nat) : string := NilEmpty.string_of_uint (Nat.to_uint n).
Definition str_Z (z : Z) : string := NilEmpty.string_of_int (Z.to_int z).

(** [sub in s] on strings. *)
Fixpoint str_contains (sub s : string) : bool :=
  String.prefix sub s
  || match s with
     | EmptyString => false
     | String _ s' => str_contains sub s'
     end.

(** [s.split('.')[-1]]: what follows the last dot, the whole string when
    there is none. *)
Fixpoint split_last (acc s : string) : string :=
  match s with
  | EmptyString => acc
  | String c s' =>
      if Ascii.eqb c "." then split_last EmptyString s'
      else split_last (acc ++ String c EmptyString) s'
  end.

Definition simple_name (solver_name : string) : string :=
  split_last EmptyString solver_name.

(** [s.replace(".", "_")] *)
Fixpoint replace_dots (s : string) : string :=
  match s with
  | EmptyString => EmptyString
  | String c s' =>
      String (if Ascii.eqb c "." then "_"%char else c) (replace_dots s')
  end.

Fixpoint ends_with_slash (s : string) : bool :=
  match s with
  | EmptyString => false
  | String c EmptyString => Ascii.eqb c "/"
  | String _ s' => ends_with_slash s'
  end.

(** [os.path.join(a, b)] (POSIX). *)
Definition path_join (a b : string) : string :=
  if String.prefix "/" b then b
  else if String.eqb a EmptyString || ends_with_slash a then a ++ b
  else a ++ "/" ++ b.

(** [f"{simple_solver_name}_run_{run_idx + 1}"] *)
Definition run_dir_name (simple : string) (run_idx : nat) : string :=
  simple ++ "_run_" ++ str_nat (run_idx + 1).

(* ================================================================== *)
(** ** Files *)

(** One line of [metrics_summary.txt]; the [.4f] rendering of the numbers
    is not modelled. *)
Inductive report_line : Type :=
| ReportTitle
| MetricHeading (metric_name : string)
| SolverStats (solver : string) (mean min_val max_val : Q) (count : nat)
| SolverNoData (solver : string).

(** What a file holds.  [json.dump] followed by [json.load] is the
    identity on [value]; a CSV file is kept as its header and rows. *)
Inductive content : Type :=
| Text (s : string)
| Json (v : value)
| Table (header : list string) (rows : list (list value))
| Report (lines : list report_line).

(** A directory lists its entries in the order they were created. *)
Inductive node : Type :=
| File (c : content)
| Dir (es : list (string * node)).

Definition entries := list (string * node).

Definition OSError (kind path : string) : exn := Exn kind path.

(** [open(name, "w")] followed by the writes, in the directory [es]. *)
Definition write_file (name : string) (c : content) (es : entries) : result entries :=
  match Dict.get name es with
  | Some (Dir _) => Raise (OSError "IsADirectoryError" name)
  | _ => Ok (Dict.set name (File c) es)
  end.

Definition append_text (c : content) (t : string) : content :=
  match c with
  | Text s => Text (s ++ t)
  | _ => Text t
  end.

(** [open(name, "a")] followed by the writes. *)
Definition append_file (name : string) (t : string) (es : entries) : result entries :=
  match Dict.get name es with
  | Some (Dir _) => Raise (OSError "IsADirectoryError" name)
  | Some (File c) => Ok (Dict.set name (File (append_text c t)) es)
  | None => Ok (Dict.set name (File (Text t)) es)
  end.

(** [os.makedirs(name, exist_ok=True)] for a direct child of [es]. *)
Definition makedirs (name : string) (es : entries) : result entries :=
  match Dict.get name es with
  | Some (File _) => Raise (OSError "FileExistsError" name)
  | Some (Dir _) => Ok es
  | None => Ok (Dict.set name (Dir []) es)
  end.

Definition subdir (name : string) (es : entries) : entries :=
  match Dict.get name es with
  | Some (Dir d) => d
  | _ => []
  end.

Fixpoint lookup_dir (comps : list string) (es : entries) : option entries :=
  match comps with
  | [] => Some es
  | c :: cs =>
      match Dict.get c es with
      | Some (Dir d) => lookup_dir cs d
      | _ => None
      end
  end.

(** [open(path, "r")] for the file [name] in the sub-directory [comps]. *)
Definition open_read (comps : list string) (name : string) (es : entries) : result content :=
  match lookup_dir comps es with
  | Some d =>
      match Dict.get name d with
      | Some (File c) => Ok c
      | Some (Dir _) => Raise (OSError "IsADirectoryError" name)
      | None => Raise (OSError "FileNotFoundError" name)
      end
  | None => Raise (OSError "FileNotFoundError" name)
  end.

(** [shutil.copy2(src, dst)] for a source file holding [c] and a
    destination [dst_name] at the top of [es]: an existing directory
    [dst_name] receives the file under the source's own name. *)
Definition copy2 (c : content) (src_comps : list string) (src_name dst_name : string)
           (es : entries) : result entries :=
  match Dict.get dst_name es with
  | Some (Dir d) =>
      match src_comps with
      | [only] =>
          if String.eqb only dst_name
          then Raise (OSError "SameFileError" src_name)
          else match write_file src_name c d with
               | Ok d' => Ok (Dict.set dst_name (Dir d') es)
               | Raise e => Raise e
               end
      | _ =>
          match write_file src_name c d with
          | Ok d' => Ok (Dict.set dst_name (Dir d') es)
          | Raise e => Raise e
          end
      end
  | _ => Ok (Dict.set dst_name (File c) es)
  end.

Definition json_load (c : content) : result value :=
  match c with
  | Json v => Ok v
  | _ => Raise (Exn "JSONDecodeError" "Expecting value")
  end.

(** A file met by [os.walk]: the components of its directory below the
    top, the [root] string [os.walk] reports, and the file name. *)
Record walked := { w_comps : list string; w_root : string; w_file : string }.

Definition files_here (comps : list string) (root : string) (es : entries) : list walked :=
  flat_map (fun e : string * node =>
              match snd e with
              | File _ => [ {| w_comps := comps; w_root := root; w_file := fst e |} ]
              | Dir _ => []
              end) es.

(** [os.walk(top)], top-down: the files of a directory, then its
    sub-directories in listing order. *)
Fixpoint walk (comps : list string) (root : string) (n : node) : list walked :=
  match n with
  | File _ => []
  | Dir es =>
      (files_here comps root es
       ++ flat_map (fun e : string * node =>
                      walk (comps ++ [fst e]) (path_join root (fst e)) (snd e)) es)%list
  end.

Definition walked_path (f : walked) : string := path_join (w_root f) (w_file f).

(* ================================================================== *)
(** ** Stateful computations that may raise *)

(** A Python statement sequence over a state [S]: it ends normally with a
    value or raises, and in both cases leaves a state behind. *)
Definition M (S A : Type) : Type := S -> result A * S.

Section Monad.
Context {S : Type}.

Definition ret {A} (a : A) : M S A := fun s => (Ok a, s).

Definition raise {A} (e : exn) : M S A := fun s => (Raise e, s).

Definition bind {A B} (m : M S A) (k : A -> M S B) : M S B :=
  fun s =>
    match m s with
    | (Ok a, s') => k a s'
    | (Raise e, s') => (Raise e, s')
    end.

(** [try: body / except Exception as e: handler e] *)
Definition try_except {A} (body : M S A) (handler : exn -> M S A) : M S A :=
  fun s =>
    match body s with
    | (Ok a, s') => (Ok a, s')
    | (Raise e, s') => handler e s'
    end.

(** [try: body / finally: final] *)
Definition try_finally {A} (body : M S A) (final : M S unit) : M S A :=
  fun s =>
    let (r, s') := body s in
    match final s' with
    | (Ok _, s'') => (r, s'')
    | (Raise e, s'') => (Raise e, s'')
    end.

Definition gets {A} (f : S -> A) : M S A := fun s => (Ok (f s), s).

Definition modify (f : S -> S) : M S unit := fun s => (Ok tt, f s).

End Monad.

Declare Scope monad_scope.
Delimit Scope monad_scope with M.
Notation "x <- m ;; k" := (bind m (fun x => k))
  (at level 61, m at next level, right associativity) : monad_scope.
Notation "m ;; k" := (bind m (fun _ => k))
  (at level 61, right associativity) : monad_scope.
Local Open Scope monad_scope.

(* ================================================================== *)
(** ** The engine module and the state of one run *)

(** The attributes of the imported module [main]. *)
Definition namespace := list (string * value).

(** [getattr(main_module, k, default)] *)
Definition getattr (ns : namespace) (k : string) (default : value) : value :=
  match Dict.get k ns with
  | Some v => v
  | None => default
  end.

(** What one call of [main.main()] does: the new content of the directory
    it was configured to write to, the module's attributes afterwards,
    what it printed, and the exception it raised, if any. *)
Record engine_result := {
  er_dir : entries;
  er_ns : namespace;
  er_out : string;
  er_err : string;
  er_raised : option exn
}.

(** While one run executes: the content of the run directory, the module
    [main] when it can be imported, and the buffers [sys.stdout] and
    [sys.stderr] are redirected to, when they are.  Text printed while the
    streams are not redirected goes to the terminal, which is not part of
    the state. *)
Record run_state := {
  rs_dir : entries;
  rs_mod : option namespace;
  rs_capture : option (string * string)
}.

Definition set_dir (es : entries) (st : run_state) : run_state :=
  {| rs_dir := es; rs_mod := rs_mod st; rs_capture := rs_capture st |}.

Definition set_mod (m : option namespace) (st : run_state) : run_state :=
  {| rs_dir := rs_dir st; rs_mod := m; rs_capture := rs_capture st |}.

Definition set_capture (c : option (string * string)) (st : run_state) : run_state :=
  {| rs_dir := rs_dir st; rs_mod := rs_mod st; rs_capture := c |}.

(** A file operation in the run directory. *)
Definition fs_op (op : entries -> result entries) : M run_state unit :=
  fun st =>
    match op (rs_dir st) with
    | Ok es => (Ok tt, set_dir es st)
    | Raise e => (Raise e, st)
    end.

(** [import main as main_module] *)
Definition import_main : M run_state namespace :=
  fun st =>
    match rs_mod st with
    | Some ns => (Ok ns, st)
    | None => (Raise (Exn "ModuleNotFoundError" "No module named 'main'"), st)
    end.

(** [main_module.k = v] *)
Definition setattr (k : string) (v : value) : M run_state unit :=
  fun st =>
    match rs_mod st with
    | Some ns => (Ok tt, set_mod (Some (Dict.set k v ns)) st)
    | None => (Raise (Exn "NameError" "main_module"), st)
    end.

(** [main_module.k] *)
Definition readattr (k : string) : M run_state value :=
  fun st =>
    match rs_mod st with
    | Some ns =>
        match Dict.get k ns with
        | Some v => (Ok v, st)
        | None => (Raise (Exn "AttributeError" k), st)
        end
    | None => (Raise (Exn "NameError" "main_module"), st)
    end.

(** [print(t)]: into the capture buffer when [sys.stdout] is redirected. *)
Definition print (t : string) : M run_state unit :=
  modify (fun st =>
            match rs_capture st with
            | Some (out, err) => set_capture (Some (out ++ t ++ nl, err)) st
            | None => st
            end).

(** The world between runs: the content of the output directory and the
    module [main]. *)
Record world := {
  fs : entries;
  emod : option namespace
}.

Definition set_fs (es : entries) (w : world) : world :=
  {| fs := es; emod := emod w |}.

(** A file operation in the output directory. *)
Definition top_op (op : entries -> result entries) : M world unit :=
  fun w =>
    match op (fs w) with
    | Ok es => (Ok tt, set_fs es w)
    | Raise e => (Raise e, w)
    end.

(* ================================================================== *)
(** ** The run executor: [run_experiment_for_solver] *)

Section Harness.

(** The engine's entry point [main.main()].  It is not part of the
    harness: it reads the module's attributes and the directory the
    harness configured as [OUT_DIR], and may write below that directory,
    change the module's attributes, print, and raise. *)
Variable engine_main : namespace -> entries -> engine_result.

(** [str(v)] as it appears in log lines, and the clock reading of
    [time.strftime]. *)
Variable py_str : value -> string.
Variable now : string.

(** [main_module.main()] *)
Definition call_engine : M run_state unit :=
  fun st =>
    match rs_mod st with
    | None => (Raise (Exn "NameError" "main_module"), st)
    | Some ns =>
        let r := engine_main ns (rs_dir st) in
        let cap :=
          match rs_capture st with
          | Some (out, err) => Some (out ++ er_out r, err ++ er_err r)
          | None => None
          end in
        (match er_raised r with
         | None => Ok tt
         | Some e => Raise e
         end,
         {| rs_dir := er_dir r; rs_mod := Some (er_ns r); rs_capture := cap |})
    end.

Definition log_append (t : string) : M run_state unit :=
  fs_op (append_file "experiment_log.txt" t).

(** Lines 123-128: a snapshot that reads [None] is not written back. *)
Definition restore_unless_none (k : string) (original : value) : M run_state unit :=
  match original with
  | VNone => ret tt
  | _ => setattr k original
  end.

(** Lines 96-128: snapshot, overwrite, guarded call, restore. *)
Definition engine_session (run_dir : string) (num_slots : Z) (solver_name : string)
  : M run_state unit :=
  (ns <- import_main ;;
   let original_out_dir := getattr ns "OUT_DIR" VNone in
   let original_slots := getattr ns "SLOTS" VNone in
   let original_solvers := getattr ns "SOLVERS_TO_RUN" VNone in
   setattr "OUT_DIR" (VStr run_dir) ;;
   setattr "SLOTS" (VInt num_slots) ;;
   setattr "SOLVERS_TO_RUN" (VList [VStr solver_name]) ;;
   try_finally
     (try_except
        (call_engine ;;
         log_append ("main函数执行成功完成" ++ nl))
        (fun main_error =>
           log_append ("main函数执行出错: " ++ str_exn main_error ++ nl
                       ++ nl ++ "Traceback:" ++ nl ++ format_exc main_error)))
     (restore_unless_none "OUT_DIR" original_out_dir ;;
      restore_unless_none "SLOTS" original_slots ;;
      restore_unless_none "SOLVERS_TO_RUN" original_solvers))%M.

(** Lines 132-142: the loop keeps the last file whose name contains
    ["summary.json"] and lists every file it meets. *)
Definition artifact_match (file : string) : bool :=
  str_contains "summary.json" file.

Definition find_summary (files : list walked) : option walked :=
  fold_left (fun found f => if artifact_match (w_file f) then Some f else found)
            files None.

Definition all_files_of (files : list walked) : list string :=
  map walked_path files.

(** Lines 180-187 *)
Definition error_summary (solver_name : string) (run_idx : nat) (num_slots : Z)
           (all_files : list string) : record :=
  [ ("solver", VStr solver_name);
    ("run", VNat (run_idx + 1));
    ("num_slots", VInt num_slots);
    ("error", VStr "No summary.json generated");
    ("available_files", VList (map VStr all_files));
    ("timestamp", VStr now) ].

(** Lines 190-200 *)
Definition partial_summary (solver_name : string) (num_slots : Z) : record :=
  [ ("solver", VStr solver_name);
    ("num_slots", VInt num_slots);
    ("C_mean", VNum 0);
    ("avg_delay_mean", VNum 0);
    ("Avg_queue", VNum 0);
    ("DecisionTime_ms_mean", VNum 0);
    ("C_mean_avg_delay_ratio", VNum 0);
    ("status", VStr "partial_results");
    ("error_message", VStr "Experiment completed but no full summary available") ].

(** Lines 230-241 *)
Definition failed_summary (solver_name : string) (run_idx : nat) (num_slots : Z)
           (e : exn) : record :=
  [ ("solver", VStr solver_name);
    ("run", VNat (run_idx + 1));
    ("num_slots", VInt num_slots);
    ("C_mean", VNum 0);
    ("avg_delay_mean", VNum 0);
    ("Avg_queue", VNum 0);
    ("DecisionTime_ms_mean", VNum 0);
    ("C_mean_avg_delay_ratio", VNum 0);
    ("status", VStr "error");
    ("error_message", VStr (str_exn e)) ].

(** Lines 151-169: load the artifact, stamp it, copy it to the top of
    the run directory. *)
Definition load_artifact (run_dir solver_name : string) (run_idx : nat) (found : walked)
  : M run_state record :=
  (es <- gets rs_dir ;;
   c <- (fun st => (open_read (w_comps found) (w_file found) es, st)) ;;
   v <- (fun st => (json_load c, st)) ;;
   match v with
   | VDict d =>
       let summary := Dict.set "run" (VNat (run_idx + 1))
                        (Dict.set "solver" (VStr solver_name) d) in
       (if String.eqb (walked_path found) (path_join run_dir "summary.json")
        then ret tt
        else fs_op (copy2 c (w_comps found) (w_file found) "summary.json")) ;;
       log_append ("成功读取并处理summary.json" ++ nl) ;;
       ret summary
   | _ => raise (TypeError "object does not support item assignment")
   end)%M.

(** Lines 130-211: search the run directory, return the stamped
    artifact, or write and return the fallback. *)
Definition resolve (run_dir solver_name : string) (num_slots : Z) (run_idx : nat)
  : M run_state record :=
  es <- gets rs_dir ;;
  let files := walk [] run_dir (Dir es) in
  let summary_path := find_summary files in
  let all_files := all_files_of files in
  log_append (nl ++ "找到的文件列表:" ++ nl
              ++ String.concat "" (map (fun f => "  " ++ f ++ nl) all_files)) ;;
  loaded <- match summary_path with
            | Some found =>
                try_except
                  (summary <- load_artifact run_dir solver_name run_idx found ;;
                   ret (Some summary))
                  (fun json_error =>
                     log_append ("读取summary.json出错: " ++ str_exn json_error ++ nl) ;;
                     ret None)
            | None =>
                log_append ("警告: 未找到summary.json文件" ++ nl) ;;
                ret None
            end ;;
  match loaded with
  | Some summary => ret summary
  | None =>
      let summary := error_summary solver_name run_idx num_slots all_files in
      let basic_summary := partial_summary solver_name num_slots in
      fs_op (write_file "basic_summary.json" (Json (VDict basic_summary))) ;;
      fs_op (write_file "error_summary.json" (Json (VDict summary))) ;;
      ret basic_summary
  end.

(** Lines 213-248: the handler of the outer [try]. *)
Definition on_error (solver_name : string) (num_slots : Z) (run_idx : nat) (e : exn)
  : M run_state record :=
  fs_op (write_file "error.txt"
           (Text ("Error: " ++ str_exn e ++ nl
                  ++ nl ++ "Traceback:" ++ nl ++ format_exc e))) ;;
  log_append ("运行出错: " ++ str_exn e ++ nl
              ++ nl ++ "Traceback:" ++ nl ++ format_exc e) ;;
  let basic_summary := failed_summary solver_name run_idx num_slots e in
  fs_op (write_file "basic_summary.json" (Json (VDict basic_summary))) ;;
  ret basic_summary.

(** Lines 70-93: import, configuration snapshot file, log of the
    module's current configuration. *)
Definition setup (run_dir solver_name : string) (num_slots : Z) : M run_state unit :=
  ns <- import_main ;;
  let cfg := VDict [ ("OUT_DIR", VStr run_dir);
                     ("SLOTS", VInt num_slots);
                     ("SOLVERS_TO_RUN", VList [VStr solver_name]) ] in
  fs_op (write_file "experiment_config.json" (Json cfg)) ;;
  log_append ("main模块当前配置:" ++ nl
              ++ "  OUT_DIR: " ++ py_str (getattr ns "OUT_DIR" (VStr "None")) ++ nl
              ++ "  SLOTS: " ++ py_str (getattr ns "SLOTS" (VStr "None")) ++ nl
              ++ "  SOLVERS_TO_RUN: "
              ++ py_str (getattr ns "SOLVERS_TO_RUN" (VStr "None")) ++ nl).

(** The body of [run_experiment_for_solver] below the creation of the
    run directory (lines 62-248). *)
Definition run_body (solver_name : string) (num_slots : Z) (output_dir : string)
           (run_idx : nat) : M run_state record :=
  let simple_solver_name := simple_name solver_name in
  let run_dir := path_join output_dir (run_dir_name simple_solver_name run_idx) in
  fs_op (write_file "experiment_log.txt"
           (Text ("开始运行求解器: " ++ solver_name ++ nl
                  ++ "运行索引: " ++ str_nat (run_idx + 1) ++ nl
                  ++ "时隙数量: " ++ str_Z num_slots ++ nl
                  ++ "开始时间: " ++ now ++ nl))) ;;
  try_except
    (setup run_dir solver_name num_slots ;;
     engine_session run_dir num_slots solver_name ;;
     resolve run_dir solver_name num_slots run_idx)
    (on_error solver_name num_slots run_idx).

(** [run_experiment_for_solver(solver_name, num_slots, output_dir, run_idx)]:
    the run directory is created in the output directory, the body runs
    on its content. *)
Definition run_experiment_for_solver (solver_name : string) (num_slots : Z)
           (output_dir : string) (run_idx : nat) : M world record :=
  fun w =>
    let run_name := run_dir_name (simple_name solver_name) run_idx in
    match makedirs run_name (fs w) with
    | Raise e => (Raise e, w)
    | Ok fs1 =>
        let st := {| rs_dir := subdir run_name fs1;
                     rs_mod := emod w;
                     rs_capture := None |} in
        let (r, st') := run_body solver_name num_slots output_dir run_idx st in
        (r, {| fs := Dict.set run_name (Dir (rs_dir st')) fs1;
               emod := rs_mod st' |})
    end.

End Harness.

(* ================================================================== *)
(** ** The metrics aggregator: [collect_and_save_metrics] *)

(** [all_results]: solver short name to the records of its runs, in
    insertion order. *)
Definition corpus := list (string * list record).

(** Lines 279-286 and 356-358: the values of the runs whose record has the
    key, in run order. *)
Fixpoint metric_values (metric_key : string) (run_results : list record) : list value :=
  match run_results with
  | [] => []
  | run_result :: rest =>
      match Dict.get metric_key run_result with
      | Some v => v :: metric_values metric_key rest
      | None => metric_values metric_key rest
      end
  end.

Definition is_nil {A} (l : list A) : bool :=
  match l with [] => true | _ => false end.

(** Lines 273-289: [metric_data], one entry per solver with a value. *)
Definition collect_metric (metric_key : string) (all_results : corpus)
  : list (string * list value) :=
  fold_left
    (fun metric_data (sr : string * list record) =>
       let solver_metric_values := metric_values metric_key (snd sr) in
       if is_nil solver_metric_values then metric_data
       else Dict.set (fst sr) solver_metric_values metric_data)
    all_results [].

(** Lines 272, 284: [has_data]. *)
Definition has_data (metric_key : string) (all_results : corpus) : bool :=
  existsb (fun sr : string * list record =>
             negb (is_nil (metric_values metric_key (snd sr))))
          all_results.

Definition run_count_column : string := "运行次数".

(** Lines 316-326: one CSV row. *)
Definition csv_row (metric_data : list (string * list value)) (solver_names : list string)
           (run_idx : nat) : list value :=
  VNat (run_idx + 1)
  :: map (fun solver_name =>
            match Dict.get solver_name metric_data with
            | Some values =>
                match nth_error values run_idx with
                | Some v => v
                | None => VStr ""
                end
            | None => VStr ""
            end) solver_names.

(** Lines 291-326: the table written to [<metric_name>.csv]. *)
Definition metric_table (metric_key : string) (all_results : corpus) : content :=
  if has_data metric_key all_results then
    let metric_data := collect_metric metric_key all_results in
    let solver_names := Dict.keys metric_data in
    let max_runs := list_max (map (fun sv : string * list value => List.length (snd sv))
                                  metric_data) in
    Table (run_count_column :: solver_names)
          (map (csv_row metric_data solver_names) (seq 0 max_runs))
  else
    Table (run_count_column :: Dict.keys all_results) [].

(** [sum(values)]: the first value that is not a number raises. *)
Fixpoint numeric_values (values : list value) : result (list Q) :=
  match values with
  | [] => Ok []
  | v :: rest =>
      match as_num v with
      | Some q => (qs <- numeric_values rest ;; Ok (q :: qs))%res
      | None => Raise (TypeError "unsupported operand type(s) for +")
      end
  end.

Definition Qsum (qs : list Q) : Q := fold_left Qplus qs 0%Q.

(** [min(values)] and [max(values)]: the first least (greatest) element. *)
Definition Qmin_list (q0 : Q) (qs : list Q) : Q :=
  fold_left (fun m x => if Qlt_le_dec x m then x else m) qs q0.

Definition Qmax_list (q0 : Q) (qs : list Q) : Q :=
  fold_left (fun m x => if Qlt_le_dec m x then x else m) qs q0.

(** Lines 355-370: the report line of one solver for one metric. *)
Definition stats_line (metric_key solver_name : string) (run_results : list record)
  : result report_line :=
  let values := metric_values metric_key run_results in
  if is_nil values then Ok (SolverNoData solver_name)
  else
    (qs <- numeric_values values ;;
     match qs with
     | [] => Ok (SolverNoData solver_name)
     | q0 :: rest =>
         let mean_val := (Qsum qs / inject_Z (Z.of_nat (List.length qs)))%Q in
         Ok (SolverStats solver_name mean_val (Qmin_list q0 rest) (Qmax_list q0 rest)
                         (List.length qs))
     end)%res.

(** Lines 353-370: the lines of one metric, up to the first raise. *)
Fixpoint solver_lines (metric_key : string) (all_results : corpus)
  : list report_line * option exn :=
  match all_results with
  | [] => ([], None)
  | (solver_name, run_results) :: rest =>
      match stats_line metric_key solver_name run_results with
      | Raise e => ([], Some e)
      | Ok line =>
          let (lines, raised) := solver_lines metric_key rest in
          (line :: lines, raised)
      end
  end.

(** Lines 348-370: what reaches [metrics_summary.txt] and the exception
    that cut the report short, if any. *)
Fixpoint metric_sections (metrics : list (string * string)) (all_results : corpus)
  : list report_line * option exn :=
  match metrics with
  | [] => ([], None)
  | (metric_name, metric_key) :: rest =>
      match solver_lines metric_key all_results with
      | (lines, Some e) => (MetricHeading metric_name :: lines, Some e)
      | (lines, None) =>
          let (more, raised) := metric_sections rest all_results in
          (MetricHeading metric_name :: (lines ++ more)%list, raised)
      end
  end.

Definition summary_report (all_results : corpus) : list report_line * option exn :=
  let (lines, raised) := metric_sections METRICS_TO_COLLECT all_results in
  (ReportTitle :: lines, raised).

(** A file operation inside the sub-directory [name]. *)
Definition in_subdir (name : string) (op : entries -> result entries) (es : entries)
  : result entries :=
  match Dict.get name es with
  | Some (Dir d) =>
      match op d with
      | Ok d' => Ok (Dict.set name (Dir d') es)
      | Raise e => Raise e
      end
  | _ => Raise (OSError "FileNotFoundError" name)
  end.

Fixpoint for_each {S A} (l : list A) (body : A -> M S unit) : M S unit :=
  match l with
  | [] => ret tt
  | a :: l' => (body a ;; for_each l' body)%M
  end.

Section Aggregator.

Variable now : string.

(** Lines 266-342: the files of one metric. *)
Definition save_metric (all_results : corpus) (metric : string * string) : M world unit :=
  let (metric_name, metric_key) := metric in
  if has_data metric_key all_results then
    try_except
      (top_op (in_subdir "metrics"
                 (write_file (metric_name ++ ".csv")
                    (metric_table metric_key all_results))) ;;
       top_op (in_subdir "metrics"
                 (write_file (metric_name ++ ".json")
                    (Json (VDict (map (fun sv : string * list value =>
                                         (fst sv, VList (snd sv)))
                                      (collect_metric metric_key all_results)))))))
      (fun e =>
         top_op (append_file "error_log.txt"
                   (now ++ " - 保存指标 '" ++ metric_name ++ "' 时出错: "
                        ++ str_exn e ++ nl)))%M
  else
    top_op (in_subdir "metrics"
              (write_file (metric_name ++ ".csv")
                 (metric_table metric_key all_results))).

(** [collect_and_save_metrics(all_results, output_dir)] *)
Definition collect_and_save_metrics (all_results : corpus) : M world unit :=
  (top_op (makedirs "metrics") ;;
   for_each METRICS_TO_COLLECT (save_metric all_results) ;;
   try_except
     (top_op (in_subdir "metrics"
                (write_file "metrics_summary.txt"
                   (Report (fst (summary_report all_results))))))
     (fun _ => ret tt))%M.

End Aggregator.

(* ================================================================== *)
(** ** The batch coordinator: [main] *)

(** The state of a batch: the world, [all_results], and whether the local
    name [traceback] of [main] has been bound by one of its
    [import traceback] statements. *)
Record batch_state := {
  bs_world : world;
  bs_results : corpus;
  bs_traceback : bool
}.

Definition set_world (w : world) (bs : batch_state) : batch_state :=
  {| bs_world := w; bs_results := bs_results bs; bs_traceback := bs_traceback bs |}.

Definition set_results (c : corpus) (bs : batch_state) : batch_state :=
  {| bs_world := bs_world bs; bs_results := c; bs_traceback := bs_traceback bs |}.

Definition bind_traceback (bs : batch_state) : batch_state :=
  {| bs_world := bs_world bs; bs_results := bs_results bs; bs_traceback := true |}.

Definition lift_world {A} (m : M world A) : M batch_state A :=
  fun bs => let (r, w) := m (bs_world bs) in (r, set_world w bs).

Definition lift_result {S A} (r : result A) : M S A := fun s => (r, s).

(** [all_results[simple_name].append(r)] *)
Definition append_result (simple : string) (r : record) : M batch_state unit :=
  fun bs =>
    match Dict.get simple (bs_results bs) with
    | Some runs => (Ok tt, set_results (Dict.set simple (runs ++ [r])%list (bs_results bs)) bs)
    | None => (Raise (Exn "KeyError" simple), bs)
    end.

(** Line 436: [{solver_name.split('.')[-1]: [] for solver_name in solvers}] *)
Definition init_results (solvers : list string) : corpus :=
  fold_left (fun d solver_name => Dict.set (simple_name solver_name) [] d) solvers [].

(** Lines 478-487 *)
Definition run_error_result (solver_name : string) (run_idx : nat) (num_slots : Z)
           (run_error : exn) : record :=
  [ ("solver", VStr solver_name);
    ("run", VNat (run_idx + 1));
    ("num_slots", VInt num_slots);
    ("status", VStr "error");
    ("error_message", VStr (str_exn run_error));
    ("C_mean", VNum 0);
    ("avg_delay_mean", VNum 0);
    ("DecisionTime_ms_mean", VNum 0) ].

(** Lines 508-517 *)
Definition critical_error_result (solver_name : string) (num_slots : Z)
           (solver_error : exn) : record :=
  [ ("solver", VStr solver_name);
    ("run", VInt 0);
    ("num_slots", VInt num_slots);
    ("status", VStr "critical_error");
    ("error_message", VStr (str_exn solver_error));
    ("C_mean", VNum 0);
    ("avg_delay_mean", VNum 0);
    ("DecisionTime_ms_mean", VNum 0) ].

(** Lines 537-542: some entry of the output directory named like a run
    directory of the solver has a [summary.json] directly inside. *)
Definition solver_executed (solver_short_name : string) (es : entries) : bool :=
  existsb (fun e : string * node =>
             String.prefix solver_short_name (fst e)
             && str_contains "_run_" (fst e)
             && match snd e with
                | Dir d => Dict.mem "summary.json" d
                | File _ => false
                end) es.

Definition capture_text (captured : option (string * string)) : string :=
  match captured with
  | Some (out, err) =>
      "=== STDOUT ===" ++ nl ++ out ++ nl ++ nl ++ "=== STDERR ===" ++ nl ++ err
  | None =>
      "=== STDOUT ===" ++ nl ++ nl ++ nl ++ "=== STDERR ===" ++ nl
  end.

Section Coordinator.

Variable engine_main : namespace -> entries -> engine_result.
Variable py_str : value -> string.
Variable now : string.

(** The run executor the coordinator calls; [main] below is the
    coordinator over [run_experiment_for_solver]. *)
Variable execute : string -> Z -> string -> nat -> M world record.

(** Lines 475-497: the handler of the run loop's [try]. *)
Definition on_run_error (solver_name simple : string) (num_slots : Z)
           (solver_results : list record) (run_idx : nat) (run_error : exn)
  : M batch_state (list record) :=
  let error_result := run_error_result solver_name run_idx num_slots run_error in
  append_result simple error_result ;;
  lift_world
    (top_op (write_file (simple ++ "_run_" ++ str_nat (run_idx + 1) ++ "_error.log")
               (Text (now ++ " - 运行出错: " ++ str_exn run_error ++ nl
                      ++ nl ++ "Traceback:" ++ nl ++ format_exc run_error)))) ;;
  modify bind_traceback ;;
  ret (solver_results ++ [error_result])%list.

(** Lines 451-497: one iteration of the run loop. *)
Definition run_once (solver_name simple : string) (num_slots : Z) (output_dir : string)
           (solver_results : list record) (run_idx : nat)
  : M batch_state (list record) :=
  try_except
    (run_result <- lift_world (execute solver_name num_slots output_dir run_idx) ;;
     if is_nil run_result then ret solver_results
     else
       run_result' <- lift_result (inject_ratio run_result) ;;
       append_result simple run_result' ;;
       ret (solver_results ++ [run_result'])%list)
    (on_run_error solver_name simple num_slots solver_results run_idx).

Fixpoint run_loop (solver_name simple : string) (num_slots : Z) (output_dir : string)
         (runs : list nat) (solver_results : list record)
  : M batch_state (list record) :=
  match runs with
  | [] => ret solver_results
  | run_idx :: rest =>
      solver_results' <- run_once solver_name simple num_slots output_dir
                                  solver_results run_idx ;;
      run_loop solver_name simple num_slots output_dir rest solver_results'
  end.

(** Lines 505-529: the handler of the solver loop's [try]. *)
Definition on_solver_error (solver_name simple : string) (num_slots : Z)
           (solver_error : exn) : M batch_state unit :=
  append_result simple (critical_error_result solver_name num_slots solver_error) ;;
  lift_world
    (top_op (write_file (simple ++ "_critical_error.log")
               (Text (now ++ " - 求解器处理出错: " ++ str_exn solver_error ++ nl
                      ++ nl ++ "Traceback:" ++ nl ++ format_exc solver_error)))) ;;
  modify bind_traceback.

(** Lines 441-529: one iteration of the solver loop. *)
Definition run_solver_block (num_runs : nat) (num_slots : Z) (output_dir : string)
           (solver_name : string) : M batch_state unit :=
  let simple := simple_name solver_name in
  try_except
    (solver_results <- run_loop solver_name simple num_slots output_dir
                                (seq 0 num_runs) [] ;;
     if is_nil solver_results then ret tt
     else lift_world
            (top_op (write_file (simple ++ "_summary.json")
                       (Json (VList (map VDict solver_results))))))
    (on_solver_error solver_name simple num_slots).

(** Lines 563-569: the re-execution reads the three attributes
    directly and overwrites them. *)
Definition acquire_direct (run_dir : string) (num_slots : Z) (solver_name : string)
  : M run_state (value * value * value) :=
  original_out_dir <- readattr "OUT_DIR" ;;
  original_slots <- readattr "SLOTS" ;;
  original_solvers <- readattr "SOLVERS_TO_RUN" ;;
  setattr "OUT_DIR" (VStr run_dir) ;;
  setattr "SLOTS" (VInt num_slots) ;;
  setattr "SOLVERS_TO_RUN" (VList [VStr solver_name]) ;;
  ret (original_out_dir, original_slots, original_solvers).

(** Lines 578-617: capture, guarded call, restore, save the capture. *)
Definition direct_session (solver_name : string) (traceback_bound : bool)
           (originals : value * value * value) : M run_state unit :=
  let solver_short_name := simple_name solver_name in
  let '(original_out_dir, original_slots, original_solvers) := originals in
  modify (set_capture (Some ("", ""))) ;;
  try_finally
    (try_except
       (call_engine engine_main ;;
        print ("  " ++ solver_short_name ++ " 执行成功") ;;
        fs_op (append_file "direct_execution_log.txt" ("执行成功完成" ++ nl)))
       (fun e =>
          print ("错误: " ++ str_exn e) ;;
          if traceback_bound then
            fs_op (append_file "direct_execution_log.txt"
                     ("错误: " ++ str_exn e ++ nl ++ "Traceback:" ++ nl ++ format_exc e))
          else
            fs_op (append_file "direct_execution_log.txt"
                     ("错误: " ++ str_exn e ++ nl ++ "Traceback:" ++ nl)) ;;
            raise (Exn "UnboundLocalError" "traceback")))
    (captured <- gets rs_capture ;;
     modify (set_capture None) ;;
     setattr "OUT_DIR" original_out_dir ;;
     setattr "SLOTS" original_slots ;;
     setattr "SOLVERS_TO_RUN" original_solvers ;;
     try_except
       (fs_op (in_subdir (replace_dots solver_name)
                 (write_file (solver_short_name ++ "_output.txt")
                    (Text (capture_text captured)))))
       (fun _ => ret tt)).

(** Lines 619-637: the first directory of the walk that holds a file
    named [summary.json] gives the artifact, which is re-dumped at the
    top of the run directory. *)
Definition copy_first_summary : M run_state unit :=
  es <- gets rs_dir ;;
  match find (fun f => String.eqb (w_file f) "summary.json") (walk [] "" (Dir es)) with
  | Some found =>
      try_except
        (c <- lift_result (open_read (w_comps found) (w_file found) es) ;;
         summary_data <- lift_result (json_load c) ;;
         fs_op (write_file "summary.json" (Json summary_data)))
        (fun _ => ret tt)
  | None => ret tt
  end.

(** Lines 554-637, below the creation of the run directory. *)
Definition direct_body (solver_name : string) (num_slots : Z) (output_dir : string)
           (traceback_bound : bool) : M run_state unit :=
  let solver_short_name := simple_name solver_name in
  let run_dir := path_join output_dir (solver_short_name ++ "_run_1") in
  fs_op (write_file "direct_execution_log.txt"
           (Text ("直接执行 " ++ solver_name ++ " 开始于 " ++ now ++ nl))) ;;
  _ <- import_main ;;
  originals <- acquire_direct run_dir num_slots solver_name ;;
  fs_op (makedirs (replace_dots solver_name)) ;;
  direct_session solver_name traceback_bound originals ;;
  copy_first_summary.

(** Lines 532-643: the reconciliation of one solver. *)
Definition reconcile (num_slots : Z) (output_dir : string) (solver_name : string)
  : M batch_state unit :=
  fun bs =>
    let w := bs_world bs in
    let solver_short_name := simple_name solver_name in
    if solver_executed solver_short_name (fs w) then (Ok tt, bs)
    else
      let run_name := solver_short_name ++ "_run_1" in
      match makedirs run_name (fs w) with
      | Raise _ => (Ok tt, bind_traceback bs)
      | Ok fs1 =>
          let st := {| rs_dir := subdir run_name fs1;
                       rs_mod := emod w;
                       rs_capture := None |} in
          let (r, st') := direct_body solver_name num_slots output_dir
                                      (bs_traceback bs) st in
          let w' := {| fs := Dict.set run_name (Dir (rs_dir st')) fs1;
                       emod := rs_mod st' |} in
          match r with
          | Ok _ => (Ok tt, set_world w' bs)
          | Raise _ => (Ok tt, bind_traceback (set_world w' bs))
          end
      end.

Definition total_results (all_results : corpus) : nat :=
  fold_left (fun n (sr : string * list record) => n + List.length (snd sr))%nat
            all_results 0%nat.

(** Lines 669-680 *)
Definition experiment_config (solvers : list string) (num_runs : Z) (num_slots : Z)
           (output_dir : string) (total : nat) : value :=
  VDict [ ("num_solvers", VNat (List.length solvers));
          ("solvers", VList (map VStr solvers));
          ("num_runs_per_solver", VInt num_runs);
          ("num_slots_per_experiment", VInt num_slots);
          ("total_runs", VInt (Z.of_nat (List.length solvers) * num_runs));
          ("total_results_collected", VNat total);
          ("output_dir", VStr output_dir);
          ("metrics_collected", VList (map VStr (Dict.keys METRICS_TO_COLLECT)));
          ("timestamp", VStr now) ].

(** Lines 436-529: the solver loop. *)
Definition solver_loop (solvers : list string) (num_runs : Z) (num_slots : Z)
           (output_dir : string) : M batch_state unit :=
  for_each solvers (run_solver_block (Z.to_nat num_runs) num_slots output_dir).

(** Lines 653-667 *)
Definition export_metrics : M batch_state unit :=
  all_results <- gets bs_results ;;
  if Nat.eqb (total_results all_results) 0 then ret tt
  else
    try_except
      (lift_world (collect_and_save_metrics now all_results))
      (fun e =>
         lift_world
           (top_op (write_file "error_log.txt"
                      (Text (now ++ " - 收集指标时出错: " ++ str_exn e ++ nl))))).

(** [main()] from line 436 on, for the parsed arguments; the output
    directory has been created and [fs] is its content. *)
Definition main_with (solvers : list string) (num_runs : Z) (num_slots : Z)
           (output_dir : string) : M batch_state unit :=
  modify (set_results (init_results solvers)) ;;
  solver_loop solvers num_runs num_slots output_dir ;;
  for_each solvers (reconcile num_slots output_dir) ;;
  export_metrics ;;
  all_results <- gets bs_results ;;
  lift_world
    (top_op (write_file "experiment_config.json"
               (Json (experiment_config solvers num_runs num_slots output_dir
                        (total_results all_results))))).

End Coordinator.

(** [main()] of [run_multiple_experiments.py]. *)
Definition main (engine_main : namespace -> entries -> engine_result)
           (py_str : value -> string) (now : string)
           (solvers : list string) (num_runs num_slots : Z) (output_dir : string)
  : M batch_state unit :=
  main_with engine_main now (run_experiment_for_solver engine_main py_str now)
            solvers num_runs num_slots output_dir.

(** A batch starts with no results and [traceback] unbound. *)
Definition start (w : world) : batch_state :=
  {| bs_world := w; bs_results := []; bs_traceback := false |}.

(* ================================================================== *)
(** ** The sibling entry point: [run_solver] of [run_bargain_match.py] *)

Section Bargain.

Variable engine_main : namespace -> entries -> engine_result.
Variable py_str : value -> string.
Variable now : string.

(** [time.time() - start_time] *)
Variable elapsed : Q.

(** Lines 79-125: capture, guarded call, save the capture. *)
Definition capture_session (solver_name : string) : M run_state unit :=
  let simple := simple_name solver_name in
  modify (set_capture (Some ("", ""))) ;;
  try_finally
    (try_except
       (call_engine engine_main ;;
        print "  Main function executed successfully")
       (fun e =>
          let error_msg := "  Error executing main function: " ++ str_exn e in
          print error_msg ;;
          log_append (nl ++ now ++ " - " ++ error_msg ++ nl
                      ++ nl ++ "Traceback:" ++ nl ++ format_exc e)))
    (captured <- gets rs_capture ;;
     modify (set_capture None) ;;
     try_except
       (fs_op (in_subdir (replace_dots solver_name)
                 (write_file (simple ++ "_output.txt")
                    (Text (capture_text captured)))))
       (fun _ => ret tt)).

(** Lines 34-182, below the creation of the run directory. *)
Definition run_solver_body (solver_name : string) (num_slots : Z) (output_dir : string)
           (run_idx : nat) : M run_state value :=
  let simple := simple_name solver_name in
  let run_dir := path_join output_dir (run_dir_name simple run_idx) in
  try_except
    (ns <- import_main ;;
     let main_config := VDict [ ("OUT_DIR", getattr ns "OUT_DIR" (VStr "logs"));
                                ("SLOTS", getattr ns "SLOTS" (VInt num_slots));
                                ("SOLVERS_TO_RUN", getattr ns "SOLVERS_TO_RUN" (VList [])) ] in
     let config := VDict [ ("solver", VStr solver_name);
                           ("num_slots", VInt num_slots);
                           ("run_idx", VNat run_idx);
                           ("start_time", VStr now);
                           ("main_config", main_config) ] in
     fs_op (write_file "experiment_config.json" (Json config)) ;;
     fs_op (write_file "experiment_log.txt"
              (Text (now ++ " - Starting solver " ++ solver_name ++ nl
                     ++ "Run index: " ++ str_nat (run_idx + 1) ++ nl
                     ++ "Number of slots: " ++ str_Z num_slots ++ nl
                     ++ "Main module config: " ++ py_str main_config ++ nl))) ;;
     setattr "OUT_DIR" (VStr run_dir) ;;
     setattr "SLOTS" (VInt num_slots) ;;
     setattr "SOLVERS_TO_RUN" (VList [VStr solver_name]) ;;
     fs_op (makedirs (replace_dots solver_name)) ;;
     capture_session solver_name ;;
     es <- gets rs_dir ;;
     match find (fun f => String.eqb (w_file f) "summary.json")
                (walk [] run_dir (Dir es)) with
     | Some found =>
         c <- lift_result (open_read (w_comps found) (w_file found) es) ;;
         summary_data <- lift_result (json_load c) ;;
         fs_op (write_file "summary.json" (Json summary_data)) ;;
         ret summary_data
     | None =>
         let basic_summary :=
           VDict [ ("solver", VStr solver_name);
                   ("run", VNat (run_idx + 1));
                   ("num_slots", VInt num_slots);
                   ("status", VStr "completed");
                   ("message", VStr "No detailed results generated, but solver executed");
                   ("execution_time_s", VNum elapsed) ] in
         fs_op (write_file "summary.json" (Json basic_summary)) ;;
         ret basic_summary
     end)
    (fun e =>
       fs_op (write_file "error.txt"
                (Text (now ++ " - " ++ "  Critical error running solver: " ++ str_exn e ++ nl
                       ++ nl ++ "Traceback:" ++ nl ++ format_exc e))) ;;
       ret (VDict [ ("solver", VStr solver_name);
                    ("run", VNat (run_idx + 1));
                    ("num_slots", VInt num_slots);
                    ("status", VStr "error");
                    ("error_message", VStr (str_exn e));
                    ("execution_time_s", VNum elapsed) ])).

(** [run_solver(solver_name, num_slots, output_dir, run_idx)] *)
Definition run_solver (solver_name : string) (num_slots : Z) (output_dir : string)
           (run_idx : nat) : M world value :=
  fun w =>
    let run_name := run_dir_name (simple_name solver_name) run_idx in
    match makedirs run_name (fs w) with
    | Raise e => (Raise e, w)
    | Ok fs1 =>
        let st := {| rs_dir := subdir run_name fs1;
                     rs_mod := emod w;
                     rs_capture := None |} in
        let (r, st') := run_solver_body solver_name num_slots output_dir run_idx st in
        (r, {| fs := Dict.set run_name (Dir (rs_dir st')) fs1;
               emod := rs_mod st' |})
    end.

End Bargain.

(* ================================================================== *)
(** ** The entry point of [run_bargain_match.py]: [main] *)

(** [bool(v)], as [if result:] reads a value. *)
Definition py_truthy (v : value) : bool :=
  match v with
  | VNone => false
  | VBool b => b
  | VNum q => negb (Qeq_bool q 0)
  | VStr s => negb (String.eqb s "")
  | VList l => negb (is_nil l)
  | VDict d => negb (is_nil d)
  end.

Section BargainMain.

Variable engine_main : namespace -> entries -> engine_result.
Variable py_str : value -> string.
Variable now : string.
Variable elapsed : Q.

Definition bargain_solver : string :=
  "solvers.BARGAIN_MATCH_Solver.BARGAIN_MATCH_Solver".

(** Lines 196-200: the run loop; a result that reads false is dropped. *)
Fixpoint bargain_runs (runs : list nat) (all_results : list value)
  : M world (list value) :=
  match runs with
  | [] => ret all_results
  | run_idx :: rest =>
      result <- run_solver engine_main py_str now elapsed bargain_solver 5
                           "test_results" run_idx ;;
      bargain_runs rest
                   (if py_truthy result then (all_results ++ [result])%list
                    else all_results)
  end.

(** [main()], lines 184-209; the output directory [test_results] has
    been created and [fs] is its content. *)
Definition bargain_main : M world unit :=
  let num_runs := 1%nat in
  all_results <- bargain_runs (seq 0 num_runs) [] ;;
  if is_nil all_results then ret tt
  else top_op (write_file "BARGAIN_MATCH_Solver_summary.json"
                 (Json (VList all_results))).

End BargainMain.

(* ================================================================== *)
(** ** The entry point of [run_ooraa_solver.py]: [main] *)

(** [os.makedirs(run_dir, exist_ok=True)] in the output directory,
    followed by a body that works on the content of the run directory. *)
Definition in_run_dir {A} (run_name : string) (body : M run_state A) : M world A :=
  fun w =>
    match makedirs run_name (fs w) with
    | Raise e => (Raise e, w)
    | Ok fs1 =>
        let st := {| rs_dir := subdir run_name fs1;
                     rs_mod := emod w;
                     rs_capture := None |} in
        let (r, st') := body st in
        (r, {| fs := Dict.set run_name (Dir (rs_dir st')) fs1;
               emod := rs_mod st' |})
    end.

(** The loop [for root, dirs, files in os.walk(run_dir)] that stops at
    the first directory with a file named [summary.json]. *)
Definition first_summary (run_dir : string) (es : entries) : option walked :=
  find (fun f => String.eqb (w_file f) "summary.json") (walk [] run_dir (Dir es)).

(** [json.load] of the file found, [json.dump] at the top of the run
    directory, inside [try ... except Exception]. *)
Definition redump_summary (found : walked) : M run_state unit :=
  es <- gets rs_dir ;;
  try_except
    (c <- lift_result (open_read (w_comps found) (w_file found) es) ;;
     summary_data <- lift_result (json_load c) ;;
     fs_op (write_file "summary.json" (Json summary_data)))
    (fun _ => ret tt).

Section Ooraa.

Variable engine_main : namespace -> entries -> engine_result.
Variable now : string.

Definition ooraa_solver : string := "solvers.OORAA_Solver.OORAA_Solver".
Definition ooraa_simple : string := "OORAA_Solver".
Definition ooraa_solver_dir : string := "solvers_OORAA_Solver_OORAA_Solver".

(** Lines 78-117: capture, guarded call, save the capture, restore the
    three attributes whatever the snapshot reads. *)
Definition ooraa_session (run_dir : string) (originals : value * value * value)
  : M run_state unit :=
  let '(original_out_dir, original_slots, original_solvers) := originals in
  modify (set_capture (Some ("", ""))) ;;
  try_finally
    (try_except
       (print "Executing main_module.main()..." ;;
        call_engine engine_main ;;
        print "main_module.main() executed successfully")
       (fun e =>
          print ("Error during execution: " ++ str_exn e) ;;
          let error_msg := format_exc e in
          print ("Traceback: " ++ error_msg) ;;
          fs_op (write_file "error.txt"
                   (Text ("Error: " ++ str_exn e ++ nl
                          ++ "Traceback:" ++ nl ++ error_msg ++ nl))) ;;
          print ("Saved error to: " ++ path_join run_dir "error.txt")))
    (captured <- gets rs_capture ;;
     modify (set_capture None) ;;
     try_except
       (fs_op (in_subdir ooraa_solver_dir
                 (write_file (ooraa_simple ++ "_output.txt")
                    (Text (capture_text captured)))))
       (fun _ => ret tt) ;;
     setattr "OUT_DIR" original_out_dir ;;
     setattr "SLOTS" original_slots ;;
     setattr "SOLVERS_TO_RUN" original_solvers).

(** Lines 57-121: the outer [try], which swallows what escapes. *)
Definition ooraa_guarded (run_dir : string) : M run_state unit :=
  try_except
    (ns <- import_main ;;
     let originals := (getattr ns "OUT_DIR" VNone,
                       getattr ns "SLOTS" VNone,
                       getattr ns "SOLVERS_TO_RUN" VNone) in
     setattr "OUT_DIR" (VStr run_dir) ;;
     setattr "SLOTS" (VInt 5) ;;
     setattr "SOLVERS_TO_RUN" (VList [VStr ooraa_solver]) ;;
     ooraa_session run_dir originals)
    (fun _ => ret tt).

(** Lines 141-151 *)
Definition ooraa_basic_summary : value :=
  VDict [ ("solver", VStr ooraa_simple);
          ("run", VInt 1);
          ("num_slots", VInt 5);
          ("C_mean", VNum 0);
          ("avg_delay_mean", VNum 0);
          ("DecisionTime_ms_mean", VNum 0);
          ("status", VStr "completed") ].

(** Lines 39-155, below the creation of the run directory. *)
Definition ooraa_body : M run_state unit :=
  let run_dir := path_join "test_results" (ooraa_simple ++ "_run_1") in
  fs_op (makedirs ooraa_solver_dir) ;;
  fs_op (write_file "experiment_config.json"
           (Json (VDict [ ("solver", VStr ooraa_solver);
                          ("run", VInt 1);
                          ("slots", VInt 5);
                          ("output_dir", VStr run_dir);
                          ("timestamp", VStr now) ]))) ;;
  ooraa_guarded run_dir ;;
  es <- gets rs_dir ;;
  match first_summary run_dir es with
  | Some found => redump_summary found
  | None => fs_op (write_file "summary.json" (Json ooraa_basic_summary))
  end.

(** [main()] of [run_ooraa_solver.py]; the output directory
    [test_results] has been created and [fs] is its content. *)
Definition ooraa_main : M world unit :=
  in_run_dir (ooraa_simple ++ "_run_1") ooraa_body.

End Ooraa.

(* ================================================================== *)
(** ** The entry point of [test_bargain_match.py]: [main] *)

(** The state of the test script: the run in progress and the local
    names [main_module], [original_out_dir], [original_slots] and
    [original_solvers], which are bound together once [import main] has
    succeeded. *)
Record test_state := {
  ts_run : run_state;
  ts_originals : option (value * value * value)
}.

Definition lift_run {A} (m : M run_state A) : M test_state A :=
  fun ts =>
    let (r, st) := m (ts_run ts) in
    (r, {| ts_run := st; ts_originals := ts_originals ts |}).

Definition bind_originals (originals : value * value * value) : M test_state unit :=
  modify (fun ts => {| ts_run := ts_run ts; ts_originals := Some originals |}).

Section TestBargain.

Variable engine_main : namespace -> entries -> engine_result.
Variable now : string.

(** [importlib.import_module("solvers.BARGAIN_MATCH_Solver")]: the
    attributes of the solver module, or the exception of the import. *)
Variable solver_module : result namespace.

Definition test_solver : string :=
  "solvers.BARGAIN_MATCH_Solver.BARGAIN_MATCH_Solver".
Definition test_simple : string := "BARGAIN_MATCH_Solver".
Definition test_solver_dir : string :=
  "solvers_BARGAIN_MATCH_Solver_BARGAIN_MATCH_Solver".

Definition debug_append (t : string) : M run_state unit :=
  fs_op (append_file "debug_log.txt" t).

(** Lines 50-65: the check of the solver module; [false] stands for the
    [return] of the two failing branches. *)
Definition test_check_solver : M run_state bool :=
  try_except
    (attrs <- lift_result solver_module ;;
     if Dict.mem test_simple attrs then ret true
     else
       debug_append ("ERROR: " ++ test_simple ++ " class not found" ++ nl) ;;
       ret false)
    (fun import_error =>
       debug_append ("Import error: " ++ str_exn import_error ++ nl) ;;
       ret false).

(** Lines 113-128: the first directory with [summary.json] ends the
    walk, whether the copy succeeds or not. *)
Definition test_copy_summary (run_dir : string) : M run_state unit :=
  es <- gets rs_dir ;;
  match first_summary run_dir es with
  | Some found => redump_summary found
  | None => ret tt
  end.

(** Lines 68-128: from [import main] to the end of the [try] block. *)
Definition test_run_engine (run_dir : string) : M test_state unit :=
  ns <- lift_run import_main ;;
  bind_originals (getattr ns "OUT_DIR" VNone,
                  getattr ns "SLOTS" VNone,
                  getattr ns "SOLVERS_TO_RUN" VNone) ;;
  lift_run (setattr "OUT_DIR" (VStr run_dir)) ;;
  lift_run (setattr "SLOTS" (VInt 5)) ;;
  lift_run (setattr "SOLVERS_TO_RUN" (VList [VStr test_solver])) ;;
  lift_run (fs_op (makedirs test_solver_dir)) ;;
  lift_run (call_engine engine_main) ;;
  lift_run (test_copy_summary run_dir).

(** Lines 140-146: the [finally] block restores the three attributes
    when [main_module] is among the local names. *)
Definition test_restore : M test_state unit :=
  bound <- gets ts_originals ;;
  match bound with
  | Some (original_out_dir, original_slots, original_solvers) =>
      lift_run (setattr "OUT_DIR" original_out_dir) ;;
      lift_run (setattr "SLOTS" original_slots) ;;
      lift_run (setattr "SOLVERS_TO_RUN" original_solvers)
  | None => ret tt
  end.

(** Lines 38-148, below the creation of the run directory. *)
Definition test_body : M test_state unit :=
  let run_dir := path_join "test_results" (test_simple ++ "_run_1") in
  lift_run (fs_op (write_file "debug_log.txt"
                     (Text ("Testing " ++ test_solver ++ nl
                            ++ "Start time: " ++ now ++ nl)))) ;;
  try_finally
    (try_except
       (proceed <- lift_run test_check_solver ;;
        if (proceed : bool) then test_run_engine run_dir else ret tt)
       (fun e =>
          lift_run (debug_append (nl ++ "Critical error: " ++ str_exn e ++ nl
                                  ++ "Traceback:" ++ nl ++ format_exc e ++ nl))))
    test_restore.

(** [main()] of [test_bargain_match.py]; the output directory
    [test_results] has been created and [fs] is its content. *)
Definition test_main : M world unit :=
  in_run_dir (test_simple ++ "_run_1")
             (fun st =>
                let (r, ts) := test_body {| ts_run := st; ts_originals := None |} in
                (r, ts_run ts)).

End TestBargain.

(* ================================================================== *)
(** ** Sample engines and worlds *)

Module Samples.

(** An engine that prints and returns without writing anything. *)
Definition quiet_engine (ns : namespace) (es : entries) : engine_result :=
  {| er_dir := es; er_ns := ns; er_out := "hello"; er_err := "";
     er_raised := None |}.

(** An engine that raises without writing anything. *)
Definition raising_engine (ns : namespace) (es : entries) : engine_result :=
  {| er_dir := es; er_ns := ns; er_out := "hello"; er_err := "oops";
     er_raised := Some (Exn "RuntimeError" "boom") |}.

(** An engine that writes a valid artifact below its output directory. *)
Definition good_engine (ns : namespace) (es : entries) : engine_result :=
  {| er_dir := Dict.set "solvers_A_A"
                 (Dir [("summary.json",
                        File (Json (VDict [("C_mean", VNum (25 # 2));
                                           ("avg_delay_mean", VNum (5 # 2))])))])
                 es;
     er_ns := ns; er_out := ""; er_err := ""; er_raised := None |}.

Definition plain_str (v : value) : string := "<value>".

Definition clock : string := "2024-01-01 00:00:00".

(** A configured engine module and an empty output directory. *)
Definition configured : namespace :=
  [ ("OUT_DIR", VStr "logs"); ("SLOTS", VInt 50);
    ("SOLVERS_TO_RUN", VList [VStr "solvers.A.A"; VStr "solvers.B.B"]) ].

Definition fresh_world : world := {| fs := []; emod := Some configured |}.

(** The module defines none of the three attributes. *)
Definition bare_world : world := {| fs := []; emod := Some [] |}.

(** The module [main] cannot be imported. *)
Definition no_engine_world : world := {| fs := []; emod := None |}.

(** A regular file sits where the first run directory of solver [A]
    would go. *)
Definition blocked_world : world :=
  {| fs := [("A_run_1", File (Text "stale"))]; emod := Some configured |}.

(** Three runs of one solver with cost values 10, 20, 30. *)
Definition three_runs : corpus :=
  [ ("A", [ [("C_mean", VNum 10)]; [("C_mean", VNum 20)]; [("C_mean", VNum 30)] ]) ].

(** Three runs of one solver, the second without the cost key. *)
Definition gap_runs : corpus :=
  [ ("A", [ [("run", VInt 1); ("C_mean", VNum 10)];
            [("run", VInt 2)];
            [("run", VInt 3); ("C_mean", VNum 30)] ]) ].

(** Regular files sit where both run directories of solver [A] would
    go. *)
Definition blocked_runs_world : world :=
  {| fs := [("A_run_1", File (Text "stale")); ("A_run_2", File (Text "stale"))];
     emod := Some configured |}.

(** An executor under which solver [B] raises on every call and every
    other solver returns a record with a cost and a delay. *)
Definition flaky_execute (solver_name : string) (num_slots : Z) (output_dir : string)
           (run_idx : nat) : M world record :=
  if String.eqb solver_name "solvers.B.B"
  then raise (Exn "RuntimeError" "boom")
  else ret [("C_mean", VNum 10); ("avg_delay_mean", VNum 4)].

End Samples.

(* ================================================================== *)
(** ** Notions used to state the properties *)

(** The runs of a solver that contribute to a metric: those whose record
    contains the metric's key. *)
Definition contributing (metric_key : string) (run_results : list record) : list record :=
  filter (fun r => Dict.mem metric_key r) run_results.

(** Their numeric values, in run order. *)
Definition readings (metric_key : string) (run_results : list record) : list Q :=
  flat_map (fun r =>
              match Dict.get metric_key r with
              | Some v => match as_num v with Some q => [q] | None => [] end
              | None => []
              end) run_results.

(** Every value a metric of the table finds in the corpus is a number. *)
Definition is_number (v : value) : bool :=
  match as_num v with Some _ => true | None => false end.

Definition numeric_for (metric_key : string) (all_results : corpus) : bool :=
  forallb (fun sr : string * list record =>
             forallb is_number (metric_values metric_key (snd sr)))
          all_results.

Definition numeric_corpus (all_results : corpus) : bool :=
  forallb (fun metric : string * string => numeric_for (snd metric) all_results)
          METRICS_TO_COLLECT.

(** A loaded artifact with the run's identifying fields written over it
    (lines 157-158). *)
Definition stamped (solver_name : string) (run_idx : nat) (d : record) : record :=
  Dict.set "run" (VNat (run_idx + 1)) (Dict.set "solver" (VStr solver_name) d).

(** The three configuration fields of the engine module. *)
Definition config_fields : list string := ["OUT_DIR"; "SLOTS"; "SOLVERS_TO_RUN"].

(** The module's attributes once a session has overwritten the three
    fields (lines 102-104 and 567-569). *)
Definition acquired (run_dir : string) (num_slots : Z) (solver_name : string)
           (ns : namespace) : namespace :=
  Dict.set "SOLVERS_TO_RUN" (VList [VStr solver_name])
    (Dict.set "SLOTS" (VInt num_slots)
       (Dict.set "OUT_DIR" (VStr run_dir) ns)).

(** Writing a snapshot back unless it reads [None]. *)
Definition put_back (k : string) (original : value) (ns : namespace) : namespace :=
  match original with
  | VNone => ns
  | _ => Dict.set k original ns
  end.

(** The module's attributes after the run executor's release, from the
    attributes [before] the acquisition and those the call left [after]. *)
Definition released (before after : namespace) : namespace :=
  put_back "SOLVERS_TO_RUN" (getattr before "SOLVERS_TO_RUN" VNone)
    (put_back "SLOTS" (getattr before "SLOTS" VNone)
       (put_back "OUT_DIR" (getattr before "OUT_DIR" VNone) after)).

(** Every configuration field that held a value other than [None]
    [before] holds the same value [after]. *)
Definition restores_config (before after : namespace) : Prop :=
  forall k v,
    In k config_fields ->
    Dict.get k before = Some v -> v <> VNone -> Dict.get k after = Some v.

(** A computation after which the engine module, seen through [proj], has
    its configuration back. *)
Definition restoring {S A} (proj : S -> option namespace) (m : M S A) : Prop :=
  forall s ns,
    proj s = Some ns ->
    exists ns', proj (snd (m s)) = Some ns' /\ restores_config ns ns'.

(** The engine module as a batch sees it. *)
Definition batch_mod (bs : batch_state) : option namespace := emod (bs_world bs).

(** [name] is a directory in [es]. *)
Definition is_dir (name : string) (es : entries) : bool :=
  match Dict.get name es with
  | Some (Dir _) => true
  | _ => false
  end.

(** The files the run executor writes at the top of a run directory. *)
Definition harness_files : list string :=
  [ "experiment_log.txt"; "experiment_config.json"; "basic_summary.json";
    "error_summary.json"; "error.txt" ].

(** None of them is occupied by a directory. *)
Definition harness_writable (es : entries) : bool :=
  forallb (fun name => negb (is_dir name es)) harness_files.

(** The names of all files below a node. *)
Fixpoint file_names (n : node) : list string :=
  match n with
  | File _ => []
  | Dir es =>
      (flat_map (fun e : string * node =>
                   match snd e with File _ => [fst e] | Dir _ => [] end) es
       ++ flat_map (fun e : string * node => file_names (snd e)) es)%list
  end.

(** No file below [es] has a name the artifact search accepts. *)
Definition no_artifact (es : entries) : bool :=
  forallb (fun name => negb (artifact_match name)) (file_names (Dir es)).

(** The file the search picked does not hold a JSON object. *)
Definition not_json_object (found : walked) (es : entries) : Prop :=
  forall d,
    rbind (open_read (w_comps found) (w_file found) es) json_load <> Ok (VDict d).

Definition mentions (t sub : string) : Prop :=
  exists pre post, t = pre ++ sub ++ post.

(** The run log is a text file in which [sub] occurs. *)
Definition log_mentions (es : entries) (sub : string) : Prop :=
  exists t, Dict.get "experiment_log.txt" es = Some (File (Text t)) /\ mentions t sub.

(** What the handler of lines 114-120 appends to the run log. *)
Definition engine_error_text (e : exn) : string :=
  "main函数执行出错: " ++ str_exn e ++ nl ++ nl ++ "Traceback:" ++ nl ++ format_exc e.

(** What the handler of lines 213-221 writes to [error.txt]. *)
Definition error_file_text (e : exn) : string :=
  "Error: " ++ str_exn e ++ nl ++ nl ++ "Traceback:" ++ nl ++ format_exc e.

(** What a run finds in its run directory: nothing when the directory is
    new, its content when it exists; no run directory can be had where a
    regular file has the name. *)
Definition run_dir_state (run_name : string) (es : entries) : option entries :=
  match Dict.get run_name es with
  | None => Some []
  | Some (Dir d) => Some d
  | Some (File _) => None
  end.

(** A computation that keeps a property of the state, whether it ends
    normally or raises. *)
Definition preserves {S A} (P : S -> Prop) (m : M S A) : Prop :=
  forall s, P s -> P (snd (m s)).

(** The streams are not redirected. *)
Definition uncaptured (st : run_state) : Prop := rs_capture st = None.

Fixpoint last_char (s : string) : option ascii :=
  match s with
  | EmptyString => None
  | String c s' =>
      match last_char s' with
      | None => Some c
      | found => found
      end
  end.

Definition is_digit (c : ascii) : bool :=
  (48 <=? nat_of_ascii c)%nat && (nat_of_ascii c <=? 57)%nat.

Fixpoint all_digits (s : string) : bool :=
  match s with
  | EmptyString => true
  | String c s' => is_digit c && all_digits s'
  end.

(** The name ends in a decimal digit, as every run directory's does. *)
Definition ends_digit (s : string) : bool :=
  match last_char s with
  | Some c => is_digit c
  | None => false
  end.

(** A directory that holds files only. *)
Definition flat (d : entries) : bool :=
  forallb (fun e : string * node =>
             match snd e with File _ => true | Dir _ => false end) d.

(** An output directory in which the coordinator can write its own files:
    its only sub-directories are named like run directories, apart from a
    [metrics] directory that holds files only. *)
Definition batch_dir_ok (es : entries) : bool :=
  forallb (fun e : string * node =>
             match snd e with
             | Dir d => ends_digit (fst e) || (String.eqb (fst e) "metrics" && flat d)
             | File _ => negb (String.eqb (fst e) "metrics")
             end) es.

(** How a record of the corpus relates to run [run_idx] of a solver: it is
    what the executor returned, with the ratio injected, or it is the
    coordinator's error record for the exception the run raised. *)
Inductive run_record (execute : string -> Z -> string -> nat -> M world record)
          (solver_name : string) (num_slots : Z) (output_dir : string) (run_idx : nat)
  : record -> Prop :=
| run_genuine (w w' : world) (r0 r : record) :
    execute solver_name num_slots output_dir run_idx w = (Ok r0, w') ->
    inject_ratio r0 = Ok r ->
    run_record execute solver_name num_slots output_dir run_idx r
| run_raised (w w' : world) (e : exn) :
    execute solver_name num_slots output_dir run_idx w = (Raise e, w') ->
    run_record execute solver_name num_slots output_dir run_idx
               (run_error_result solver_name run_idx num_slots e)
| run_post_raised (w w' : world) (r0 : record) (e : exn) :
    execute solver_name num_slots output_dir run_idx w = (Ok r0, w') ->
    inject_ratio r0 = Raise e ->
    run_record execute solver_name num_slots output_dir run_idx
               (run_error_result solver_name run_idx num_slots e).

(** The result set of a solver in the corpus: filed under the solver's
    short name, one record per run index, in run order. *)
Definition solver_set (execute : string -> Z -> string -> nat -> M world record)
           (num_slots : Z) (output_dir : string) (num_runs : nat)
           (solver_name : string) (sr : string * list record) : Prop :=
  fst sr = simple_name solver_name
  /\ Forall2 (run_record execute solver_name num_slots output_dir)
             (seq 0 num_runs) (snd sr).

(** A record the coordinator synthesized for a failed run. *)
Definition error_tagged (r : record) : Prop :=
  Dict.get "status" r = Some (VStr "error")
  /\ Dict.get "C_mean" r = Some (VNum 0)
  /\ Dict.get "avg_delay_mean" r = Some (VNum 0)
  /\ Dict.get "DecisionTime_ms_mean" r = Some (VNum 0).

(** The metrics directory exists and holds files only. *)
Definition metrics_ready (w : world) : Prop :=
  batch_dir_ok (fs w) = true
  /\ exists d, Dict.get "metrics" (fs w) = Some (Dir d) /\ flat d = true.

(** The files of the metrics directory. *)
Definition metrics_dir (w : world) : entries := subdir "metrics" (fs w).

(** Every call of the executor for the solver raises. *)
Definition always_raises (execute : string -> Z -> string -> nat -> M world record)
           (solver_name : string) (num_slots : Z) (output_dir : string) : Prop :=
  forall run_idx w,
    exists e w', execute solver_name num_slots output_dir run_idx w = (Raise e, w').

(** Every call of the executor for the solver returns a record the ratio
    can be injected into. *)
Definition never_fails (execute : string -> Z -> string -> nat -> M world record)
           (solver_name : string) (num_slots : Z) (output_dir : string) : Prop :=
  forall run_idx w,
    exists r0 r w',
      execute solver_name num_slots output_dir run_idx w = (Ok r0, w')
      /\ inject_ratio r0 = Ok r.

(** A record the executor returned for the solver, with the ratio
    injected. *)
Definition genuine (execute : string -> Z -> string -> nat -> M world record)
           (solver_name : string) (num_slots : Z) (output_dir : string)
           (r : record) : Prop :=
  exists run_idx w w' r0,
    execute solver_name num_slots output_dir run_idx w = (Ok r0, w')
    /\ inject_ratio r0 = Ok r.

(** The result set of a batch in which solver [failing] always raises:
    one record per run, error-tagged for [failing], genuine for any other
    solver. *)
Definition degraded_set (execute : string -> Z -> string -> nat -> M world record)
           (num_slots : Z) (output_dir : string) (num_runs : nat)
           (failing solver_name : string) (sr : string * list record) : Prop :=
  fst sr = simple_name solver_name
  /\ List.length (snd sr) = num_runs
  /\ if String.eqb solver_name failing
     then Forall error_tagged (snd sr)
     else Forall (genuine execute solver_name num_slots output_dir) (snd sr).

(** The export file of every collected metric is in the metrics directory
    and holds the metric's table over the corpus. *)
Definition metrics_exported (all_results : corpus) (w : world) : Prop :=
  forall metric,
    In metric METRICS_TO_COLLECT ->
    Dict.get (fst metric ++ ".csv") (metrics_dir w)
    = Some (File (metric_table (snd metric) all_results)).

(** No dot occurs in the string. *)
Fixpoint dot_free (s : string) : bool :=
  match s with
  | EmptyString => true
  | String c s' => negb (Ascii.eqb c ".") && dot_free s'
  end.

(** Whatever exception escapes the computation satisfies [Q]. *)
Definition raises_only {S A} (Q : exn -> Prop) (m : M S A) : Prop :=
  forall s e s', m s = (Raise e, s') -> Q e.

(** The exception of a write to one of [names] where a directory has
    that name. *)
Definition blocked_by_dir (names : list string) (e : exn) : Prop :=
  exists name, In name names /\ e = OSError "IsADirectoryError" name.

(** The run directory of a run in progress is one in which the executor
    can write its own files. *)
Definition run_dir_writable (st : run_state) : Prop :=
  harness_writable (rs_dir st) = true.

(** The position of a column in the header of a table. *)
Fixpoint index_of (x : string) (l : list string) : option nat :=
  match l with
  | [] => None
  | y :: l' => if String.eqb x y then Some 0%nat else option_map S (index_of x l')
  end.

(** The cell of a table under the column named [column], in the data row
    with index [row] (counted from 0). *)
Definition table_cell (t : content) (column : string) (row : nat) : option value :=
  match t with
  | Table header rows =>
      match index_of column header, nth_error rows row with
      | Some j, Some cells => nth_error cells j
      | _, _ => None
      end
  | _ => None
  end.

(** The number of data rows of a table. *)
Definition table_rows (t : content) : nat :=
  match t with
  | Table _ rows => List.length rows
  | _ => 0%nat
  end.

(** The output directory as a batch sees it. *)
Definition batch_fs (bs : batch_state) : entries := fs (bs_world bs).

(** A computation that leaves the entry [name] of a directory of its
    state as it is, whether it ends normally or raises. *)
Definition keeps_entry {S A} (dir : S -> entries) (name : string) (m : M S A) : Prop :=
  forall s, Dict.get name (dir (snd (m s))) = Dict.get name (dir s).

(** The summary artifact of a solver holds the records [rs]. *)
Definition summary_file_holds (solver_name : string) (rs : list record) (es : entries)
  : Prop :=
  Dict.get (simple_name solver_name ++ "_summary.json") es
  = Some (File (Json (VList (map VDict rs)))).

(** The files the coordinator writes for a solver at the top of the
    output directory: its summary and its error logs. *)
Definition coordinator_file (simple name : string) : Prop :=
  name = simple ++ "_summary.json"
  \/ name = simple ++ "_critical_error.log"
  \/ exists n, name = simple ++ "_run_" ++ str_nat n ++ "_error.log".

(** What a batch leaves for one solver: its result set in the corpus, one
    record per run, and, unless the set is empty, the summary artifact
    with the same records. *)
Definition solver_artifacts (num_runs : nat) (es : entries)
           (solver_name : string) (sr : string * list record) : Prop :=
  fst sr = simple_name solver_name
  /\ List.length (snd sr) = num_runs
  /\ (snd sr <> [] -> summary_file_holds solver_name (snd sr) es).

(** The line [run_solver] prints after the engine's call, into the
    redirected output (lines 91 and 93-94 of [run_bargain_match.py]). *)
Definition run_solver_line (res : engine_result) : string :=
  match er_raised res with
  | None => "  Main function executed successfully" ++ nl
  | Some e => "  Error executing main function: " ++ str_exn e ++ nl
  end.

(** Every configuration field is [after] what it was [before], where a
    field that did not exist before may now exist with the value [None]. *)
Definition config_given_back (before after : namespace) : Prop :=
  forall k,
    In k config_fields ->
    Dict.get k after = Dict.get k before
    \/ (Dict.get k before = None /\ Dict.get k after = Some VNone).

(** The module's attributes after the three unconditional assignments of
    a [finally] block (lines 115-117 of [run_ooraa_solver.py], 142-144 of
    [test_bargain_match.py]). *)
Definition written_back (originals : value * value * value) (ns : namespace)
  : namespace :=
  let '(original_out_dir, original_slots, original_solvers) := originals in
  Dict.set "SOLVERS_TO_RUN" original_solvers
    (Dict.set "SLOTS" original_slots
       (Dict.set "OUT_DIR" original_out_dir ns)).

(** The snapshot [getattr(main_module, k, None)] of the three fields. *)
Definition snapshot (ns : namespace) : value * value * value :=
  (getattr ns "OUT_DIR" VNone, getattr ns "SLOTS" VNone,
   getattr ns "SOLVERS_TO_RUN" VNone).

(** The engine module is imported. *)
Definition has_module (st : run_state) : Prop := exists ns, rs_mod st = Some ns.

(** The local names of the test script read [bound] and the run in
    progress satisfies [P]. *)
Definition test_inv (bound : option (value * value * value)) (P : run_state -> Prop)
           (ts : test_state) : Prop :=
  ts_originals ts = bound /\ P (ts_run ts).

(** The engine module has the attributes [ns]. *)
Definition module_is (ns : namespace) (st : run_state) : Prop := rs_mod st = Some ns.

(** The import of the engine module gives [m]: its attributes, or
    nothing when it cannot be imported. *)
Definition module_reads (m : option namespace) (st : run_state) : Prop := rs_mod st = m.

(** The solver module cannot be imported or does not define the class. *)
Definition solver_unusable (solver_module : result namespace) : Prop :=
  match solver_module with
  | Ok attrs => Dict.mem test_simple attrs = false
  | Raise _ => True
  end.

(** The line the test script appends to its log when it gives up on the
    solver module (lines 60 and 64 of [test_bargain_match.py]). *)
Definition solver_unusable_line (solver_module : result namespace) : string :=
  match solver_module with
  | Ok _ => "ERROR: " ++ test_simple ++ " class not found" ++ nl
  | Raise import_error => "Import error: " ++ str_exn import_error ++ nl
  end.

(** The header of a table. *)
Definition table_header (t : content) : list string :=
  match t with
  | Table header _ => header
  | _ => []
  end.

(** A computation that leaves the engine module alone. *)
Definition keeps_mod {A} (m : M run_state A) : Prop :=
  forall st, rs_mod (snd (m st)) = rs_mod st.

Definition is_heading (l : report_line) : bool :=
  match l with MetricHeading _ => true | _ => false end.

Fixpoint until_heading (lines : list report_line) : list report_line :=
  match lines with
  | [] => []
  | l :: rest => if is_heading l then [] else l :: until_heading rest
  end.

(** The lines of the report under the heading of [metric_name]. *)
Fixpoint section_lines (metric_name : string) (lines : list report_line)
  : list report_line :=
  match lines with
  | [] => []
  | MetricHeading m :: rest =>
      if String.eqb m metric_name then until_heading rest
      else section_lines metric_name rest
  | _ :: rest => section_lines metric_name rest
  end.

(** What the report must say about one solver for one metric: no valid
    data when no run contributes, otherwise the count of the contributing
    runs with the mean, the least and the greatest of their values. *)
Definition line_describes (metric_key : string) (sr : string * list record)
           (line : report_line) : Prop :=
  let qs := readings metric_key (snd sr) in
  let n := List.length (contributing metric_key (snd sr)) in
  (n = 0%nat /\ line = SolverNoData (fst sr))
  \/ (n <> 0%nat
      /\ exists mean lo hi,
          line = SolverStats (fst sr) mean lo hi n
          /\ (mean * inject_Z (Z.of_nat n) == Qsum qs)%Q
          /\ In lo qs /\ Forall (fun q => (lo <= q)%Q) qs
          /\ In hi qs /\ Forall (fun q => (q <= hi)%Q) qs).

(* ================================================================== *)
(** * Properties *)

(** ** Dictionaries *)

Lemma dict_get_set_same {V} (k : string) (v : V) (d : list (string * V)) :
  Dict.get k (Dict.set k v d) = Some v.
Proof.
  induction d as [|[k' v'] d IH]; simpl.
  - now rewrite String.eqb_refl.
  - destruct (String.eqb k k') eqn:E; simpl.
    + now rewrite String.eqb_refl.
    + now rewrite E.
Qed.

Lemma dict_get_set_other {V} (k k' : string) (v : V) (d : list (string * V)) :
  k <> k' -> Dict.get k' (Dict.set k v d) = Dict.get k' d.
Proof.
  intros Hne.
  induction d as [|[k0 v0] d IH]; simpl.
  - destruct (String.eqb k' k) eqn:E; [|reflexivity].
    apply String.eqb_eq in E. congruence.
  - destruct (String.eqb k k0) eqn:E; simpl.
    + apply String.eqb_eq in E. subst k0.
      destruct (String.eqb k' k) eqn:E'; [|reflexivity].
      apply String.eqb_eq in E'. congruence.
    + now rewrite IH.
Qed.

Lemma dict_set_set_same {V} (k : string) (v1 v2 : V) (d : list (string * V)) :
  Dict.set k v2 (Dict.set k v1 d) = Dict.set k v2 d.
Proof.
  induction d as [|[k' v'] d IH]; simpl.
  - now rewrite String.eqb_refl.
  - destruct (String.eqb k k') eqn:E; simpl.
    + now rewrite String.eqb_refl.
    + now rewrite E, IH.
Qed.

Lemma dict_mem_set_same {V} (k : string) (v : V) (d : list (string * V)) :
  Dict.mem k (Dict.set k v d) = true.
Proof. unfold Dict.mem. now rewrite dict_get_set_same. Qed.

Lemma dict_mem_set_other {V} (k k' : string) (v : V) (d : list (string * V)) :
  k <> k' -> Dict.mem k' (Dict.set k v d) = Dict.mem k' d.
Proof. intros. unfold Dict.mem. now rewrite dict_get_set_other. Qed.

Lemma dict_keys_set_present {V} (k : string) (v : V) (d : list (string * V)) :
  Dict.mem k d = true -> Dict.keys (Dict.set k v d) = Dict.keys d.
Proof.
  unfold Dict.mem, Dict.keys.
  induction d as [|[k' v'] d IH]; simpl; [discriminate|].
  destruct (String.eqb k k') eqn:E; simpl; intros H.
  - apply String.eqb_eq in E. now subst.
  - now rewrite IH.
Qed.

Lemma dict_keys_set_absent {V} (k : string) (v : V) (d : list (string * V)) :
  Dict.mem k d = false -> Dict.keys (Dict.set k v d) = (Dict.keys d ++ [k])%list.
Proof.
  unfold Dict.mem, Dict.keys.
  induction d as [|[k' v'] d IH]; simpl; [reflexivity|].
  destruct (String.eqb k k') eqn:E; simpl; intros H; [discriminate|].
  now rewrite IH.
Qed.

Lemma dict_mem_in_keys {V} (k : string) (d : list (string * V)) :
  Dict.mem k d = true <-> In k (Dict.keys d).
Proof.
  unfold Dict.mem, Dict.keys.
  induction d as [|[k' v'] d IH]; simpl.
  - split; [discriminate|tauto].
  - destruct (String.eqb k k') eqn:E.
    + apply String.eqb_eq in E. subst. split; auto.
    + rewrite IH. split; [auto|].
      intros [H|H]; [|exact H].
      subst. rewrite String.eqb_refl in E. discriminate.
Qed.

(** ** Derived ratio *)



(** ** Summary statistics *)

Lemma metric_values_length (key : string) (rs : list record) :
  List.length (metric_values key rs) = List.length (contributing key rs).
Proof.
  unfold contributing, Dict.mem.
  induction rs as [|r rs IH]; simpl; [reflexivity|].
  destruct (Dict.get key r); simpl; now rewrite IH.
Qed.

Lemma numeric_values_readings (key : string) (rs : list record) :
  (forall v, In v (metric_values key rs) -> as_num v <> None) ->
  numeric_values (metric_values key rs) = Ok (readings key rs)
  /\ List.length (readings key rs) = List.length (contributing key rs).
Proof.
  unfold contributing, Dict.mem.
  induction rs as [|r rs IH]; simpl; intros H; [auto|].
  destruct (Dict.get key r) as [v|] eqn:E; simpl.
  - destruct (as_num v) as [q|] eqn:Eq.
    + destruct IH as [IH1 IH2]; [intros; apply H; now right|].
      rewrite IH1. simpl. now rewrite IH2.
    + exfalso. apply (H v); [now left|exact Eq].
  - apply IH. intros. now apply H.
Qed.

Lemma Qmin_list_spec (qs : list Q) :
  forall q0, In (Qmin_list q0 qs) (q0 :: qs)
             /\ Forall (fun q => (Qmin_list q0 qs <= q)%Q) (q0 :: qs).
Proof.
  unfold Qmin_list.
  induction qs as [|x qs IH]; intros q0; simpl.
  - split; [now left|]. constructor; [apply Qle_refl|constructor].
  - destruct (Qlt_le_dec x q0) as [Hlt|Hle].
    + destruct (IH x) as [Hin Hall]. split.
      * simpl in Hin. tauto.
      * inversion Hall as [|? ? Hx Hrest]; subst.
        constructor; [|constructor; assumption].
        eapply Qle_trans; [exact Hx|]. now apply Qlt_le_weak.
    + destruct (IH q0) as [Hin Hall]. split.
      * simpl in Hin. simpl. tauto.
      * inversion Hall as [|? ? Hq Hrest]; subst.
        constructor; [assumption|].
        constructor; [|assumption].
        eapply Qle_trans; eauto.
Qed.

Lemma Qmax_list_spec (qs : list Q) :
  forall q0, In (Qmax_list q0 qs) (q0 :: qs)
             /\ Forall (fun q => (q <= Qmax_list q0 qs)%Q) (q0 :: qs).
Proof.
  unfold Qmax_list.
  induction qs as [|x qs IH]; intros q0; simpl.
  - split; [now left|]. constructor; [apply Qle_refl|constructor].
  - destruct (Qlt_le_dec q0 x) as [Hlt|Hle].
    + destruct (IH x) as [Hin Hall]. split.
      * simpl in Hin. tauto.
      * inversion Hall as [|? ? Hx Hrest]; subst.
        constructor; [|constructor; assumption].
        eapply Qle_trans; [|exact Hx]. now apply Qlt_le_weak.
    + destruct (IH q0) as [Hin Hall]. split.
      * simpl in Hin. simpl. tauto.
      * inversion Hall as [|? ? Hq Hrest]; subst.
        constructor; [assumption|].
        constructor; [|assumption].
        eapply Qle_trans; eauto.
Qed.

Lemma stats_line_describes (key solver : string) (rs : list record) :
  (forall v, In v (metric_values key rs) -> as_num v <> None) ->
  exists line, stats_line key solver rs = Ok line
               /\ line_describes key (solver, rs) line
               /\ is_heading line = false.
Proof.
  intros Hnum.
  destruct (numeric_values_readings key rs Hnum) as [Hvals Hlen].
  unfold stats_line, line_describes. simpl fst; simpl snd.
  pose proof (metric_values_length key rs) as Hmv.
  destruct (metric_values key rs) as [|v vs] eqn:Emv.
  - simpl. eexists. split; [reflexivity|]. split; [|reflexivity].
    left. simpl in Hmv. now rewrite <- Hmv.
  - simpl is_nil. cbv iota. rewrite Hvals. simpl rbind.
    destruct (readings key rs) as [|q0 rest] eqn:Er.
    + simpl in Hlen, Hmv. rewrite <- Hmv in Hlen. discriminate.
    + rewrite <- Hlen.
      eexists. split; [reflexivity|]. split; [|reflexivity].
      right. split; [simpl; discriminate|].
      exists (Qsum (q0 :: rest) / inject_Z (Z.of_nat (List.length (q0 :: rest))))%Q,
             (Qmin_list q0 rest), (Qmax_list q0 rest).
      split; [reflexivity|].
      split.
      * apply Qdiv_mult_l. simpl List.length.
        intros H. unfold Qeq in H. simpl in H. lia.
      * destruct (Qmin_list_spec rest q0) as [? ?].
        destruct (Qmax_list_spec rest q0) as [? ?]. auto.
Qed.

Lemma numeric_for_spec (key : string) (all_results : corpus) :
  numeric_for key all_results = true ->
  forall solver rs v,
    In (solver, rs) all_results -> In v (metric_values key rs) -> as_num v <> None.
Proof.
  unfold numeric_for. intros H solver rs v Hin Hv.
  rewrite forallb_forall in H. specialize (H _ Hin). simpl in H.
  rewrite forallb_forall in H. specialize (H _ Hv).
  unfold is_number in H. destruct (as_num v); [discriminate|discriminate].
Qed.

Lemma solver_lines_numeric (key : string) (all_results : corpus) :
  numeric_for key all_results = true ->
  exists lines,
    solver_lines key all_results = (lines, None)
    /\ Forall2 (line_describes key) all_results lines
    /\ Forall (fun l => is_heading l = false) lines.
Proof.
  induction all_results as [|[solver rs] rest IH]; intros Hnum.
  - exists []. simpl. repeat split; constructor.
  - pose proof (numeric_for_spec _ _ Hnum) as Hall.
    unfold numeric_for in Hnum. simpl in Hnum.
    apply andb_true_iff in Hnum. destruct Hnum as [_ Hrest].
    destruct (IH Hrest) as (lines & Hl & Hd & Hh).
    destruct (stats_line_describes key solver rs) as (line & Hs & Hline & Hnh).
    { intros v Hv. apply (Hall solver rs v); [now left|exact Hv]. }
    exists (line :: lines). simpl. rewrite Hs, Hl.
    repeat split; constructor; assumption.
Qed.

Lemma until_heading_app (lines more : list report_line) :
  Forall (fun l => is_heading l = false) lines ->
  until_heading (lines ++ more) = (lines ++ until_heading more)%list.
Proof.
  induction 1 as [|l lines Hl _ IH]; simpl; [reflexivity|].
  now rewrite Hl, IH.
Qed.

Lemma section_lines_app (name : string) (lines more : list report_line) :
  Forall (fun l => is_heading l = false) lines ->
  section_lines name (lines ++ more) = section_lines name more.
Proof.
  induction 1 as [|l lines Hl _ IH]; simpl; [reflexivity|].
  destruct l; simpl in Hl; try discriminate; exact IH.
Qed.

Lemma metric_sections_numeric (metrics : list (string * string)) (all_results : corpus) :
  NoDup (map fst metrics) ->
  forallb (fun m : string * string => numeric_for (snd m) all_results) metrics = true ->
  exists lines,
    metric_sections metrics all_results = (lines, None)
    /\ until_heading lines = []
    /\ forall name key,
        In (name, key) metrics ->
        Forall2 (line_describes key) all_results (section_lines name lines).
Proof.
  induction metrics as [|[n k] rest IH]; intros Hnd Hnum.
  - exists []. simpl. repeat split. intros ? ? [].
  - simpl in Hnd, Hnum. inversion Hnd as [|? ? Hnotin Hnd']; subst.
    apply andb_true_iff in Hnum. destruct Hnum as [Hk Hrest].
    destruct (IH Hnd' Hrest) as (more & Hm & Hu & Hsec).
    destruct (solver_lines_numeric k all_results Hk) as (lines & Hl & Hd & Hh).
    exists (MetricHeading n :: (lines ++ more)%list).
    simpl. rewrite Hl, Hm. repeat split.
    intros name key [Heq|Hin].
    + inversion Heq; subst. rewrite String.eqb_refl.
      rewrite until_heading_app, Hu, app_nil_r by assumption. exact Hd.
    + destruct (String.eqb n name) eqn:E.
      * apply String.eqb_eq in E. subst.
        exfalso. apply Hnotin. apply (in_map fst) in Hin. exact Hin.
      * rewrite section_lines_app by assumption. now apply Hsec.
Qed.

Lemma metric_names_nodup : NoDup (map fst METRICS_TO_COLLECT).
Proof.
  simpl. repeat constructor; simpl; intuition discriminate.
Qed.



(** ** Table shape *)

(** C8 (the defect).  Three runs of which the second has no [C_mean]: the
    table has the run-index column and the solver's column, but only two
    rows, and the row of run 2 holds the value of run 3 instead of a
    blank; no row is left for run 3. *)
Theorem metric_table_shifts_later_runs :
  metric_table "C_mean" Samples.gap_runs
  = Table [run_count_column; "A"] [ [VInt 1; VNum 10]; [VInt 2; VNum 30] ]
  /\ nth_error (snd (hd ("", []) Samples.gap_runs)) 1 = Some [("run", VInt 2)].
Proof. split; reflexivity. Qed.

(** ** Synthesized records *)

(** C5 (the defect).  A run whose directory cannot be created reaches the
    corpus as the coordinator's error record, which has no [Avg_queue]
    and no [C_mean_avg_delay_ratio] entry; the same holds for every error
    and critical-error record of the coordinator, while both fallback
    records of the run executor carry all five metric keys. *)
Theorem coordinator_error_records_incomplete :
  forall (engine_main : namespace -> entries -> engine_result) (py_str : value -> string),
    bs_results (snd (main engine_main py_str Samples.clock ["solvers.A.A"] 1 5 "out"
                          (start Samples.blocked_world)))
    = [("A", [run_error_result "solvers.A.A" 0 5 (Exn "FileExistsError" "A_run_1")])]
    /\ (forall solver_name run_idx num_slots e,
           Dict.mem "Avg_queue" (run_error_result solver_name run_idx num_slots e) = false
           /\ Dict.mem "C_mean_avg_delay_ratio"
                (run_error_result solver_name run_idx num_slots e) = false
           /\ Dict.mem "Avg_queue" (critical_error_result solver_name num_slots e) = false
           /\ Dict.mem "C_mean_avg_delay_ratio"
                (critical_error_result solver_name num_slots e) = false)
    /\ (forall solver_name run_idx num_slots e,
           forallb (fun k => Dict.mem k (partial_summary solver_name num_slots))
                   metric_keys = true
           /\ forallb (fun k => Dict.mem k (failed_summary solver_name run_idx num_slots e))
                      metric_keys = true).
Proof.
  intros engine_main py_str. split; [|split].
  - vm_compute. reflexivity.
  - intros. repeat split.
  - intros. split; reflexivity.
Qed.

(** C6 (the defect).  When the engine returns without leaving an artifact
    the executor returns the [partial_results] fallback, which carries the
    solver identifier but no [run] entry. *)
Theorem fallback_record_lacks_run_index :
  forall (py_str : value -> string),
    fst (run_experiment_for_solver Samples.quiet_engine py_str Samples.clock
           "solvers.A.A" 5 "out" 0 Samples.fresh_world)
    = Ok (partial_summary "solvers.A.A" 5)
    /\ (forall solver_name num_slots,
           Dict.mem "run" (partial_summary solver_name num_slots) = false
           /\ Dict.get "solver" (partial_summary solver_name num_slots)
              = Some (VStr solver_name)).
Proof.
  intros py_str. split.
  - vm_compute. reflexivity.
  - intros. split; reflexivity.
Qed.

(** ** Inversion of monadic steps *)

Section MonadFacts.
Context {S : Type}.

Lemma bind_ok {A B} (m : M S A) (k : A -> M S B) (s s' : S) (b : B) :
  bind m k s = (Ok b, s') ->
  exists a s1, m s = (Ok a, s1) /\ k a s1 = (Ok b, s').
Proof.
  unfold bind. destruct (m s) as [[a|e] s1]; intros H; [eauto|discriminate].
Qed.

Lemma bind_raise {A B} (m : M S A) (k : A -> M S B) (s s' : S) (e : exn) :
  bind m k s = (Raise e, s') ->
  m s = (Raise e, s') \/ exists a s1, m s = (Ok a, s1) /\ k a s1 = (Raise e, s').
Proof.
  unfold bind. destruct (m s) as [[a|e0] s1]; intros H.
  - right. eauto.
  - left. inversion H. reflexivity.
Qed.

Lemma try_except_ok {A} (m : M S A) (h : exn -> M S A) (s s' : S) (a : A) :
  try_except m h s = (Ok a, s') ->
  m s = (Ok a, s') \/ exists e s1, m s = (Raise e, s1) /\ h e s1 = (Ok a, s').
Proof.
  unfold try_except. destruct (m s) as [[a0|e] s1]; intros H; [left; exact H|eauto].
Qed.

Lemma try_except_raise {A} (m : M S A) (h : exn -> M S A) (s s' : S) (e : exn) :
  try_except m h s = (Raise e, s') ->
  exists e0 s1, m s = (Raise e0, s1) /\ h e0 s1 = (Raise e, s').
Proof.
  unfold try_except. destruct (m s) as [[a0|e0] s1]; intros H; [discriminate|eauto].
Qed.

Lemma ret_ok {A} (a b : A) (s s' : S) :
  ret a s = (Ok b, s') -> a = b /\ s = s'.
Proof. unfold ret. intros H. inversion H. auto. Qed.

End MonadFacts.

(** ** The shape of what the run executor returns *)

Section ExecutorShape.

Variable engine_main : namespace -> entries -> engine_result.
Variable py_str : value -> string.
Variable now : string.

Lemma load_artifact_shape run_dir solver_name run_idx found st r st' :
  load_artifact run_dir solver_name run_idx found st = (Ok r, st') ->
  exists d, r = stamped solver_name run_idx d.
Proof.
  unfold load_artifact. intros H.
  apply bind_ok in H. destruct H as (es & s1 & _ & H).
  apply bind_ok in H. destruct H as (c & s2 & _ & H).
  apply bind_ok in H. destruct H as (v & s3 & _ & H).
  destruct v; try discriminate.
  apply bind_ok in H. destruct H as (? & s4 & _ & H).
  apply bind_ok in H. destruct H as (? & s5 & _ & H).
  apply ret_ok in H. destruct H as [H _]. eexists. symmetry. exact H.
Qed.

Lemma resolve_shape run_dir solver_name num_slots run_idx st r st' :
  resolve now run_dir solver_name num_slots run_idx st = (Ok r, st') ->
  (exists d, r = stamped solver_name run_idx d)
  \/ r = partial_summary solver_name num_slots.
Proof.
  unfold resolve. intros H.
  apply bind_ok in H. destruct H as (es & s1 & _ & H).
  apply bind_ok in H. destruct H as (? & s2 & _ & H).
  apply bind_ok in H. destruct H as (loaded & s3 & Hload & H).
  destruct loaded as [summary|].
  - apply ret_ok in H. destruct H as [<- _]. left.
    destruct (find_summary _) as [found|].
    + apply try_except_ok in Hload. destruct Hload as [Hl|(e & s4 & _ & Hl)].
      * apply bind_ok in Hl. destruct Hl as (r0 & s4 & Hl & Hr).
        apply ret_ok in Hr. destruct Hr as [Hr _]. inversion Hr; subst.
        eapply load_artifact_shape; eauto.
      * apply bind_ok in Hl. destruct Hl as (? & ? & _ & Hr).
        apply ret_ok in Hr. destruct Hr as [Hr _]. discriminate.
    + apply bind_ok in Hload. destruct Hload as (? & ? & _ & Hr).
      apply ret_ok in Hr. destruct Hr as [Hr _]. discriminate.
  - right.
    apply bind_ok in H. destruct H as (? & s4 & _ & H).
    apply bind_ok in H. destruct H as (? & s5 & _ & H).
    apply ret_ok in H. destruct H as [H _]. now symmetry.
Qed.

Lemma on_error_shape solver_name num_slots run_idx e st r st' :
  on_error solver_name num_slots run_idx e st = (Ok r, st') ->
  r = failed_summary solver_name run_idx num_slots e.
Proof.
  unfold on_error. intros H.
  apply bind_ok in H. destruct H as (? & s1 & _ & H).
  apply bind_ok in H. destruct H as (? & s2 & _ & H).
  apply bind_ok in H. destruct H as (? & s3 & _ & H).
  apply ret_ok in H. destruct H as [H _]. now symmetry.
Qed.

Lemma run_body_shape solver_name num_slots output_dir run_idx st r st' :
  run_body engine_main py_str now solver_name num_slots output_dir run_idx st = (Ok r, st') ->
  (exists d, r = stamped solver_name run_idx d)
  \/ r = partial_summary solver_name num_slots
  \/ exists e, r = failed_summary solver_name run_idx num_slots e.
Proof.
  unfold run_body. intros H.
  apply bind_ok in H. destruct H as (? & s1 & _ & H).
  apply try_except_ok in H. destruct H as [H|(e & s2 & _ & H)].
  - apply bind_ok in H. destruct H as (? & s2 & _ & H).
    apply bind_ok in H. destruct H as (? & s3 & _ & H).
    apply resolve_shape in H. tauto.
  - apply on_error_shape in H. eauto.
Qed.

Lemma run_experiment_shape solver_name num_slots output_dir run_idx w r w' :
  run_experiment_for_solver engine_main py_str now solver_name num_slots output_dir
                            run_idx w = (Ok r, w') ->
  (exists d, r = stamped solver_name run_idx d)
  \/ r = partial_summary solver_name num_slots
  \/ exists e, r = failed_summary solver_name run_idx num_slots e.
Proof.
  unfold run_experiment_for_solver.
  destruct (makedirs _ _) as [fs1|e]; [|discriminate].
  destruct (run_body _ _ _ _ _ _ _ _) as [r0 st'] eqn:E.
  intros H. inversion H; subst. eapply run_body_shape; eauto.
Qed.

End ExecutorShape.

(** ** Steps that leave the engine module alone *)

Lemma keeps_mod_ret {A} (a : A) : keeps_mod (ret a).
Proof. intros st. reflexivity. Qed.

Lemma keeps_mod_raise {A} (e : exn) : keeps_mod (@raise run_state A e).
Proof. intros st. reflexivity. Qed.

Lemma keeps_mod_lift_result {A} (r : result A) : keeps_mod (@lift_result run_state A r).
Proof. intros st. reflexivity. Qed.

Lemma keeps_mod_gets {A} (f : run_state -> A) : keeps_mod (gets f).
Proof. intros st. reflexivity. Qed.

Lemma keeps_mod_pure {A} (r : result A) : keeps_mod (fun st : run_state => (r, st)).
Proof. intros st. reflexivity. Qed.

Lemma keeps_mod_bind {A B} (m : M run_state A) (k : A -> M run_state B) :
  keeps_mod m -> (forall a, keeps_mod (k a)) -> keeps_mod (bind m k).
Proof.
  intros Hm Hk st. unfold bind. specialize (Hm st).
  destruct (m st) as [[a|e] s1]; simpl in *; [|exact Hm].
  rewrite Hk. exact Hm.
Qed.

Lemma keeps_mod_try_except {A} (m : M run_state A) (h : exn -> M run_state A) :
  keeps_mod m -> (forall e, keeps_mod (h e)) -> keeps_mod (try_except m h).
Proof.
  intros Hm Hh st. unfold try_except. specialize (Hm st).
  destruct (m st) as [[a|e] s1]; simpl in *; [exact Hm|].
  rewrite Hh. exact Hm.
Qed.

Lemma keeps_mod_fs_op (op : entries -> result entries) : keeps_mod (fs_op op).
Proof. intros st. unfold fs_op. destruct (op (rs_dir st)); reflexivity. Qed.

Lemma keeps_mod_log_append (t : string) : keeps_mod (log_append t).
Proof. apply keeps_mod_fs_op. Qed.

Lemma keeps_mod_import : keeps_mod import_main.
Proof.
  intros st. unfold import_main.
  destruct (rs_mod st) eqn:E; simpl; rewrite E; reflexivity.
Qed.

Lemma keeps_mod_print (t : string) : keeps_mod (print t).
Proof.
  intros st. unfold print, modify. simpl.
  destruct (rs_capture st) as [[? ?]|]; reflexivity.
Qed.

Lemma keeps_mod_set_capture (c : option (string * string)) :
  keeps_mod (modify (set_capture c)).
Proof. intros st. reflexivity. Qed.

Ltac keeps_mod_step :=
  lazymatch goal with
  | |- keeps_mod (bind _ _) => apply keeps_mod_bind; [|intros ?]
  | |- keeps_mod (try_except _ _) => apply keeps_mod_try_except; [|intros ?]
  | |- keeps_mod (fs_op _) => apply keeps_mod_fs_op
  | |- keeps_mod (log_append _) => apply keeps_mod_log_append
  | |- keeps_mod import_main => apply keeps_mod_import
  | |- keeps_mod (print _) => apply keeps_mod_print
  | |- keeps_mod (modify (set_capture _)) => apply keeps_mod_set_capture
  | |- keeps_mod (ret _) => apply keeps_mod_ret
  | |- keeps_mod (raise _) => apply keeps_mod_raise
  | |- keeps_mod (lift_result _) => apply keeps_mod_lift_result
  | |- keeps_mod (gets _) => apply keeps_mod_gets
  | |- keeps_mod (fun st => (_, st)) => apply keeps_mod_pure
  | |- keeps_mod (match ?x with _ => _ end) => destruct x
  | |- keeps_mod (if ?x then _ else _) => destruct x
  | |- keeps_mod (let _ := _ in _) => cbv zeta
  end.

Ltac keeps_mod := repeat keeps_mod_step.

Lemma keeps_mod_load_artifact run_dir solver_name run_idx found :
  keeps_mod (load_artifact run_dir solver_name run_idx found).
Proof. unfold load_artifact. keeps_mod. Qed.

Lemma keeps_mod_resolve now run_dir solver_name num_slots run_idx :
  keeps_mod (resolve now run_dir solver_name num_slots run_idx).
Proof.
  unfold resolve. keeps_mod. apply keeps_mod_load_artifact.
Qed.

Lemma keeps_mod_on_error solver_name num_slots run_idx e :
  keeps_mod (on_error solver_name num_slots run_idx e).
Proof. unfold on_error. keeps_mod. Qed.

Lemma keeps_mod_setup py_str run_dir solver_name num_slots :
  keeps_mod (setup py_str run_dir solver_name num_slots).
Proof. unfold setup. keeps_mod. Qed.

(** ** Engine session *)

Lemma setattr_eq k v st ns :
  rs_mod st = Some ns ->
  setattr k v st = (Ok tt, set_mod (Some (Dict.set k v ns)) st).
Proof. intros H. unfold setattr. now rewrite H. Qed.

Lemma restore_unless_none_eq k v st ns :
  rs_mod st = Some ns ->
  restore_unless_none k v st = (Ok tt, set_mod (Some (put_back k v ns)) st).
Proof.
  intros H. unfold restore_unless_none, put_back.
  destruct v; try (now apply setattr_eq).
  unfold ret. destruct st; simpl in *; now subst.
Qed.

Section Session.

Variable engine_main : namespace -> entries -> engine_result.

Lemma engine_session_released run_dir num_slots solver_name st ns :
  rs_mod st = Some ns ->
  rs_mod (snd (engine_session engine_main run_dir num_slots solver_name st))
  = Some (released ns (er_ns (engine_main (acquired run_dir num_slots solver_name ns)
                                          (rs_dir st)))).
Proof.
  intros Hmod. unfold engine_session.
  unfold bind at 1. unfold import_main. rewrite Hmod.
  unfold bind at 1. rewrite (setattr_eq _ _ _ _ Hmod).
  unfold bind at 1. rewrite (setattr_eq _ _ _ (Dict.set "OUT_DIR" (VStr run_dir) ns))
    by reflexivity.
  unfold bind at 1. rewrite (setattr_eq _ _ _ (Dict.set "SLOTS" (VInt num_slots)
                                             (Dict.set "OUT_DIR" (VStr run_dir) ns)))
    by reflexivity.
  fold (acquired run_dir num_slots solver_name ns).
  unfold try_finally.
  set (res := engine_main (acquired run_dir num_slots solver_name ns) (rs_dir st)).
  match goal with
  | |- context [try_except ?b ?h ?s] =>
      assert (Hbody : rs_mod (snd (try_except b h s)) = Some (er_ns res))
  end.
  { unfold try_except, bind, call_engine. simpl. fold res.
    destruct (er_raised res); simpl.
    - unfold log_append, fs_op. simpl.
      destruct (append_file _ _ _); reflexivity.
    - unfold log_append, fs_op. simpl.
      destruct (append_file _ _ _); simpl; [reflexivity|].
      destruct (append_file _ _ _); reflexivity. }
  match goal with
  | |- context [try_except ?b ?h ?s] => destruct (try_except b h s) as [r s1]
  end.
  simpl in Hbody.
  unfold bind.
  rewrite (restore_unless_none_eq _ _ _ _ Hbody).
  rewrite (restore_unless_none_eq _ _ _
             (put_back "OUT_DIR" (getattr ns "OUT_DIR" VNone) (er_ns res)))
    by reflexivity.
  rewrite (restore_unless_none_eq _ _ _
             (put_back "SLOTS" (getattr ns "SLOTS" VNone)
                (put_back "OUT_DIR" (getattr ns "OUT_DIR" VNone) (er_ns res))))
    by reflexivity.
  reflexivity.
Qed.

End Session.

Lemma restores_config_refl ns : restores_config ns ns.
Proof. intros k v _ H _. exact H. Qed.

Lemma restores_config_trans a b c :
  restores_config a b -> restores_config b c -> restores_config a c.
Proof.
  intros Hab Hbc k v Hk Ha Hv. apply Hbc; auto.
Qed.

Lemma put_back_get k k' v ns :
  Dict.get k' (put_back k v ns)
  = if String.eqb k k'
    then match v with VNone => Dict.get k' ns | _ => Some v end
    else Dict.get k' ns.
Proof.
  unfold put_back.
  destruct (String.eqb k k') eqn:E.
  - apply String.eqb_eq in E. subst k'.
    destruct v; try apply dict_get_set_same; reflexivity.
  - apply String.eqb_neq in E.
    destruct v; try (now apply dict_get_set_other); reflexivity.
Qed.

Lemma released_get before after k :
  In k config_fields ->
  Dict.get k (released before after)
  = match Dict.get k before with
    | Some VNone | None => Dict.get k after
    | Some v => Some v
    end.
Proof.
  unfold config_fields, released, getattr. intros Hk.
  rewrite !put_back_get.
  destruct Hk as [<-|[<-|[<-|[]]]]; simpl;
    match goal with
    | |- context [Dict.get ?f before] => destruct (Dict.get f before) as [[]|]; reflexivity
    end.
Qed.

Lemma released_restores before after : restores_config before (released before after).
Proof.
  intros k v Hk Hget Hv. rewrite released_get by assumption.
  rewrite Hget. destruct v; try reflexivity. congruence.
Qed.

Section Restoring.

Context {S : Type} (proj : S -> option namespace).

Lemma restoring_keeps {A} (m : M S A) :
  (forall s, proj (snd (m s)) = proj s) -> restoring proj m.
Proof.
  intros H s ns Hs. exists ns. rewrite H. split; [exact Hs|apply restores_config_refl].
Qed.

Lemma restoring_bind {A B} (m : M S A) (k : A -> M S B) :
  restoring proj m -> (forall a, restoring proj (k a)) -> restoring proj (bind m k).
Proof.
  intros Hm Hk s ns Hs. unfold bind.
  destruct (Hm s ns Hs) as (ns1 & H1 & R1).
  destruct (m s) as [[a|e] s1]; simpl in *.
  - destruct (Hk a s1 ns1 H1) as (ns2 & H2 & R2).
    exists ns2. split; [exact H2|]. eapply restores_config_trans; eauto.
  - eauto.
Qed.

Lemma restoring_try_except {A} (m : M S A) (h : exn -> M S A) :
  restoring proj m -> (forall e, restoring proj (h e)) -> restoring proj (try_except m h).
Proof.
  intros Hm Hh s ns Hs. unfold try_except.
  destruct (Hm s ns Hs) as (ns1 & H1 & R1).
  destruct (m s) as [[a|e] s1]; simpl in *.
  - eauto.
  - destruct (Hh e s1 ns1 H1) as (ns2 & H2 & R2).
    exists ns2. split; [exact H2|]. eapply restores_config_trans; eauto.
Qed.

Lemma restoring_for_each {A} (l : list A) (body : A -> M S unit) :
  (forall a, restoring proj (body a)) -> restoring proj (for_each l body).
Proof.
  intros Hb. induction l as [|a l IH]; simpl.
  - apply restoring_keeps. reflexivity.
  - apply restoring_bind; auto.
Qed.

End Restoring.

Section RunRestores.

Variable engine_main : namespace -> entries -> engine_result.
Variable py_str : value -> string.
Variable now : string.

Lemma restoring_engine_session run_dir num_slots solver_name :
  restoring rs_mod (engine_session engine_main run_dir num_slots solver_name).
Proof.
  intros st ns Hmod. eexists. split.
  - apply engine_session_released. exact Hmod.
  - apply released_restores.
Qed.

Lemma restoring_run_body solver_name num_slots output_dir run_idx :
  restoring rs_mod (run_body engine_main py_str now solver_name num_slots output_dir run_idx).
Proof.
  unfold run_body.
  apply restoring_bind; [apply restoring_keeps, keeps_mod_fs_op|intros _].
  apply restoring_try_except.
  - apply restoring_bind; [apply restoring_keeps, keeps_mod_setup|intros _].
    apply restoring_bind; [apply restoring_engine_session|intros _].
    apply restoring_keeps, keeps_mod_resolve.
  - intros e. apply restoring_keeps, keeps_mod_on_error.
Qed.

Lemma restoring_run_experiment solver_name num_slots output_dir run_idx :
  restoring emod (run_experiment_for_solver engine_main py_str now solver_name
                                             num_slots output_dir run_idx).
Proof.
  intros w ns Hw. unfold run_experiment_for_solver.
  destruct (makedirs _ _) as [fs1|e]; simpl.
  - match goal with
    | |- context [run_body ?a ?b ?c ?d ?e ?f ?g ?st] =>
        destruct (restoring_run_body d e f g st ns Hw) as (ns' & H & R);
        destruct (run_body a b c d e f g st) as [r st']
    end.
    simpl in *. eauto.
  - exists ns. split; [exact Hw|apply restores_config_refl].
Qed.

End RunRestores.

Section BatchRestores.

Variable now : string.
Variable execute : string -> Z -> string -> nat -> M world record.
Hypothesis execute_restoring :
  forall solver_name num_slots output_dir run_idx,
    restoring emod (execute solver_name num_slots output_dir run_idx).

Lemma restoring_lift_world {A} (m : M world A) :
  restoring emod m -> restoring batch_mod (lift_world m).
Proof.
  intros Hm bs ns Hbs. unfold lift_world, batch_mod in *.
  destruct (Hm (bs_world bs) ns Hbs) as (ns' & H & R).
  destruct (m (bs_world bs)) as [r w]. simpl in *. eauto.
Qed.

Lemma keeps_emod_top_op (op : entries -> result entries) :
  restoring emod (top_op op).
Proof.
  apply restoring_keeps. intros w. unfold top_op.
  destruct (op (fs w)); reflexivity.
Qed.

Lemma restoring_append_result simple r :
  restoring batch_mod (append_result simple r).
Proof.
  apply restoring_keeps. intros bs. unfold append_result.
  destruct (Dict.get simple (bs_results bs)); reflexivity.
Qed.

Lemma restoring_run_once solver_name simple num_slots output_dir solver_results run_idx :
  restoring batch_mod
            (run_once now execute solver_name simple num_slots output_dir
                      solver_results run_idx).
Proof.
  unfold run_once. apply restoring_try_except.
  - apply restoring_bind; [apply restoring_lift_world, execute_restoring|intros r].
    destruct (is_nil r); [apply restoring_keeps; reflexivity|].
    apply restoring_bind; [apply restoring_keeps; reflexivity|intros r'].
    apply restoring_bind; [apply restoring_append_result|intros _].
    apply restoring_keeps; reflexivity.
  - intros e.
    apply restoring_bind; [apply restoring_append_result|intros _].
    apply restoring_bind; [apply restoring_lift_world, keeps_emod_top_op|intros _].
    apply restoring_bind; [apply restoring_keeps; reflexivity|intros _].
    apply restoring_keeps; reflexivity.
Qed.

Lemma restoring_run_loop solver_name simple num_slots output_dir runs :
  forall solver_results,
    restoring batch_mod
              (run_loop now execute solver_name simple num_slots output_dir
                        runs solver_results).
Proof.
  induction runs as [|i runs IH]; intros solver_results; simpl.
  - apply restoring_keeps; reflexivity.
  - apply restoring_bind; [apply restoring_run_once|intros sr]. apply IH.
Qed.

Lemma restoring_run_solver_block num_runs num_slots output_dir solver_name :
  restoring batch_mod
            (run_solver_block now execute num_runs num_slots output_dir solver_name).
Proof.
  unfold run_solver_block. apply restoring_try_except.
  - apply restoring_bind; [apply restoring_run_loop|intros sr].
    destruct (is_nil sr); [apply restoring_keeps; reflexivity|].
    apply restoring_lift_world, keeps_emod_top_op.
  - intros e.
    apply restoring_bind; [apply restoring_append_result|intros _].
    apply restoring_bind; [apply restoring_lift_world, keeps_emod_top_op|intros _].
    apply restoring_keeps; reflexivity.
Qed.

Lemma restoring_solver_loop solvers num_runs num_slots output_dir :
  restoring batch_mod (solver_loop now execute solvers num_runs num_slots output_dir).
Proof.
  unfold solver_loop. apply restoring_for_each.
  intros s. apply restoring_run_solver_block.
Qed.

End BatchRestores.

Section DirectSession.

Variable engine_main : namespace -> entries -> engine_result.

Lemma readattr_ok k st ns v s1 :
  rs_mod st = Some ns ->
  readattr k st = (Ok v, s1) ->
  Dict.get k ns = Some v /\ s1 = st.
Proof.
  intros Hmod. unfold readattr. rewrite Hmod.
  destruct (Dict.get k ns); intros H; inversion H; auto.
Qed.

Lemma acquire_direct_ok run_dir num_slots solver_name st ns originals st1 :
  rs_mod st = Some ns ->
  acquire_direct run_dir num_slots solver_name st = (Ok originals, st1) ->
  Dict.get "OUT_DIR" ns = Some (fst (fst originals))
  /\ Dict.get "SLOTS" ns = Some (snd (fst originals))
  /\ Dict.get "SOLVERS_TO_RUN" ns = Some (snd originals)
  /\ rs_mod st1 = Some (acquired run_dir num_slots solver_name ns)
  /\ rs_dir st1 = rs_dir st.
Proof.
  intros Hmod H. unfold acquire_direct in H.
  apply bind_ok in H. destruct H as (v1 & s1 & H1 & H).
  apply (readattr_ok _ _ _ _ _ Hmod) in H1. destruct H1 as [G1 ->].
  apply bind_ok in H. destruct H as (v2 & s2 & H2 & H).
  apply (readattr_ok _ _ _ _ _ Hmod) in H2. destruct H2 as [G2 ->].
  apply bind_ok in H. destruct H as (v3 & s3 & H3 & H).
  apply (readattr_ok _ _ _ _ _ Hmod) in H3. destruct H3 as [G3 ->].
  unfold bind in H.
  rewrite (setattr_eq _ _ _ _ Hmod) in H.
  rewrite (setattr_eq _ _ _ (Dict.set "OUT_DIR" (VStr run_dir) ns)) in H by reflexivity.
  rewrite (setattr_eq _ _ _ (Dict.set "SLOTS" (VInt num_slots)
                               (Dict.set "OUT_DIR" (VStr run_dir) ns))) in H
    by reflexivity.
  unfold ret in H. inversion H; subst. simpl. auto.
Qed.

Lemma direct_session_released solver_name traceback_bound v1 v2 v3 st ns :
  rs_mod st = Some ns ->
  rs_mod (snd (direct_session engine_main solver_name traceback_bound (v1, v2, v3) st))
  = Some (Dict.set "SOLVERS_TO_RUN" v3
            (Dict.set "SLOTS" v2
               (Dict.set "OUT_DIR" v1 (er_ns (engine_main ns (rs_dir st)))))).
Proof.
  intros Hmod. unfold direct_session.
  unfold bind at 1. unfold modify at 1.
  unfold try_finally.
  set (res := engine_main ns (rs_dir st)).
  match goal with
  | |- context [try_except ?b ?h ?s] =>
      assert (Hbody : rs_mod (snd (try_except b h s)) = Some (er_ns res))
  end.
  { unfold try_except, bind, call_engine. simpl. rewrite Hmod. fold res.
    destruct (er_raised res); simpl.
    - destruct traceback_bound; unfold bind, fs_op; simpl;
        destruct (append_file _ _ _); reflexivity.
    - unfold fs_op; simpl.
      destruct (append_file _ _ _); simpl; [reflexivity|].
      destruct traceback_bound; unfold bind, fs_op; simpl;
        destruct (append_file _ _ _); reflexivity. }
  match goal with
  | |- context [try_except ?b ?h ?s] => destruct (try_except b h s) as [r s1]
  end.
  simpl in Hbody.
  unfold bind, gets, modify. simpl.
  rewrite (setattr_eq _ _ _ (er_ns res)) by exact Hbody.
  rewrite (setattr_eq _ _ _ (Dict.set "OUT_DIR" v1 (er_ns res))) by reflexivity.
  rewrite (setattr_eq _ _ _ (Dict.set "SLOTS" v2 (Dict.set "OUT_DIR" v1 (er_ns res))))
    by reflexivity.
  unfold try_except, fs_op. simpl.
  destruct (in_subdir _ _ _); reflexivity.
Qed.

End DirectSession.

(** C1 (amended).  Whatever the engine's entry point does (return or
    raise), after the run executor's session each of [OUT_DIR], [SLOTS]
    and [SOLVERS_TO_RUN] that held a value other than [None] before the
    acquisition holds that value again, while a field that was absent or
    [None] is not written back and keeps what the call left in it; the
    same restoration holds for a whole run of the executor, whatever its
    outcome, and for the runs of the solver loop in sequence.  The
    re-execution of the reconciliation pass reads the three fields
    directly and writes all three back unconditionally. *)
Theorem engine_session_restoration :
  forall (engine_main : namespace -> entries -> engine_result)
         (py_str : value -> string) (now : string),
    (forall run_dir num_slots solver_name st ns,
        rs_mod st = Some ns ->
        exists ns',
          rs_mod (snd (engine_session engine_main run_dir num_slots solver_name st))
          = Some ns'
          /\ forall k,
              In k config_fields ->
              Dict.get k ns'
              = match Dict.get k ns with
                | Some VNone | None =>
                    Dict.get k (er_ns (engine_main
                                         (acquired run_dir num_slots solver_name ns)
                                         (rs_dir st)))
                | Some v => Some v
                end)
    /\ (forall solver_name num_slots output_dir run_idx w ns,
           emod w = Some ns ->
           exists ns',
             emod (snd (run_experiment_for_solver engine_main py_str now solver_name
                          num_slots output_dir run_idx w)) = Some ns'
             /\ restores_config ns ns')
    /\ (forall solvers num_runs num_slots output_dir bs ns,
           batch_mod bs = Some ns ->
           exists ns',
             batch_mod (snd (solver_loop now
                               (run_experiment_for_solver engine_main py_str now)
                               solvers num_runs num_slots output_dir bs)) = Some ns'
             /\ restores_config ns ns')
    /\ (forall run_dir num_slots solver_name traceback_bound st ns originals st1,
           rs_mod st = Some ns ->
           acquire_direct run_dir num_slots solver_name st = (Ok originals, st1) ->
           exists ns',
             rs_mod (snd (direct_session engine_main solver_name traceback_bound
                            originals st1)) = Some ns'
             /\ forall k, In k config_fields -> Dict.get k ns' = Dict.get k ns).
Proof.
  intros engine_main py_str now. split; [|split; [|split]].
  - intros run_dir num_slots solver_name st ns Hmod. eexists. split.
    + apply engine_session_released. exact Hmod.
    + intros k Hk. now apply released_get.
  - intros. now apply restoring_run_experiment.
  - intros solvers num_runs num_slots output_dir bs ns Hmod.
    apply restoring_solver_loop; [|exact Hmod].
    intros. apply restoring_run_experiment.
  - intros run_dir num_slots solver_name tb st ns [[v1 v2] v3] st1 Hmod Hacq.
    destruct (acquire_direct_ok _ _ _ _ _ _ _ Hmod Hacq) as (G1 & G2 & G3 & Hm1 & _).
    simpl in G1, G2, G3.
    eexists. split.
    + apply direct_session_released. exact Hm1.
    + intros k [<-|[<-|[<-|[]]]].
      * rewrite dict_get_set_other, dict_get_set_other, dict_get_set_same
          by discriminate. now symmetry.
      * rewrite dict_get_set_other, dict_get_set_same by discriminate. now symmetry.
      * rewrite dict_get_set_same. now symmetry.
Qed.

Lemma engine_session_restoration_witness :
  emod Samples.fresh_world = Some Samples.configured
  /\ exists ns',
      emod (snd (run_experiment_for_solver Samples.raising_engine Samples.plain_str
                   Samples.clock "solvers.A.A" 5 "out" 0 Samples.fresh_world))
      = Some ns'
      /\ restores_config Samples.configured ns'.
Proof.
  split; [reflexivity|].
  apply (proj1 (proj2 (engine_session_restoration Samples.raising_engine
                         Samples.plain_str Samples.clock))).
  reflexivity.
Defined.

(** C1 as stated fails: with a module that defines none of the three
    fields, after the run they hold the values of the run. *)
Lemma session_restoration_counterexample :
  emod Samples.bare_world = Some []
  /\ emod (snd (run_experiment_for_solver Samples.quiet_engine Samples.plain_str
                  Samples.clock "solvers.A.A" 5 "out" 0 Samples.bare_world))
     = Some [ ("OUT_DIR", VStr "out/A_run_1"); ("SLOTS", VInt 5);
              ("SOLVERS_TO_RUN", VList [VStr "solvers.A.A"]) ]
  /\ ~ (forall k,
           In k config_fields ->
           Dict.get k [ ("OUT_DIR", VStr "out/A_run_1"); ("SLOTS", VInt 5);
                        ("SOLVERS_TO_RUN", VList [VStr "solvers.A.A"]) ]
           = Dict.get k (@nil (string * value))).
Proof.
  split; [reflexivity|]. split; [vm_compute; reflexivity|].
  intros H. specialize (H "OUT_DIR" (or_introl eq_refl)). discriminate.
Qed.

(** ** Strings *)

Lemma string_app_nil_r (s : string) : s ++ "" = s.
Proof. induction s as [|c s IH]; simpl; [reflexivity|now rewrite IH]. Qed.

Lemma string_app_assoc (a b c : string) : (a ++ b) ++ c = a ++ (b ++ c).
Proof. induction a as [|x a IH]; simpl; [reflexivity|now rewrite IH]. Qed.

Lemma string_app_inv_head (a x y : string) : a ++ x = a ++ y -> x = y.
Proof.
  induction a as [|c a IH]; simpl; intros H; [exact H|].
  inversion H. auto.
Qed.

Lemma mentions_app_r (t sub more : string) : mentions t sub -> mentions (t ++ more) sub.
Proof.
  intros (pre & post & ->). exists pre, (post ++ more).
  now rewrite !string_app_assoc.
Qed.

Lemma mentions_self_suffix (t0 sub : string) : mentions (t0 ++ sub) sub.
Proof. exists t0, "". now rewrite string_app_nil_r. Qed.

(** ** Files of a run directory *)

Lemma node_ind' (P : node -> Prop) :
  (forall c, P (File c)) ->
  (forall es, Forall (fun e : string * node => P (snd e)) es -> P (Dir es)) ->
  forall n, P n.
Proof.
  intros HF HD. fix IH 1. intros [c|es].
  - apply HF.
  - apply HD. induction es as [|[k v] es IHes]; constructor.
    + simpl. apply IH.
    + exact IHes.
Qed.

Lemma walk_file_names (n : node) :
  forall comps root, map w_file (walk comps root n) = file_names n.
Proof.
  induction n as [c|es IH] using node_ind'; intros comps root; simpl; [reflexivity|].
  rewrite map_app. f_equal.
  - unfold files_here. clear IH.
    induction es as [|[k v] es IHes]; simpl; [reflexivity|].
    rewrite map_app, IHes. destruct v; reflexivity.
  - induction es as [|[k v] es IHes]; simpl; [reflexivity|].
    inversion IH as [|? ? Hv Hrest]; subst.
    rewrite map_app, IHes by assumption. simpl in Hv. now rewrite Hv.
Qed.

Lemma find_summary_none (files : list walked) :
  forallb (fun name => negb (artifact_match name)) (map w_file files) = true ->
  find_summary files = None.
Proof.
  unfold find_summary.
  induction files as [|f files IH]; simpl; [reflexivity|].
  intros H. apply andb_true_iff in H. destruct H as [Hf Hrest].
  apply negb_true_iff in Hf. rewrite Hf. auto.
Qed.

Lemma no_artifact_find_summary es root :
  no_artifact es = true -> find_summary (walk [] root (Dir es)) = None.
Proof.
  unfold no_artifact. intros H. apply find_summary_none.
  now rewrite walk_file_names.
Qed.

Lemma is_dir_set_file k name c es :
  is_dir k (Dict.set name (File c) es)
  = if String.eqb name k then false else is_dir k es.
Proof.
  unfold is_dir. destruct (String.eqb name k) eqn:E.
  - apply String.eqb_eq in E. subst. now rewrite dict_get_set_same.
  - apply String.eqb_neq in E. now rewrite dict_get_set_other.
Qed.

Lemma harness_writable_set_file name c es :
  harness_writable es = true -> harness_writable (Dict.set name (File c) es) = true.
Proof.
  unfold harness_writable. rewrite !forallb_forall.
  intros H k Hk. rewrite is_dir_set_file.
  destruct (String.eqb name k); [reflexivity|]. now apply H.
Qed.

Lemma harness_writable_is_dir name es :
  harness_writable es = true -> In name harness_files -> is_dir name es = false.
Proof.
  unfold harness_writable. rewrite forallb_forall. intros H Hin.
  apply negb_true_iff. now apply H.
Qed.

Lemma write_file_ok name c es :
  is_dir name es = false -> write_file name c es = Ok (Dict.set name (File c) es).
Proof.
  unfold is_dir, write_file. destruct (Dict.get name es) as [[|]|]; congruence.
Qed.

Lemma append_file_ok name t es :
  is_dir name es = false ->
  exists c, append_file name t es = Ok (Dict.set name (File (Text c)) es)
            /\ mentions c t
            /\ forall t0, Dict.get name es = Some (File (Text t0)) -> c = t0 ++ t.
Proof.
  unfold is_dir, append_file.
  destruct (Dict.get name es) as [[c0|]|]; try congruence; intros _.
  - destruct c0; simpl.
    + exists (s ++ t). split; [reflexivity|]. split; [apply mentions_self_suffix|].
      intros t0 H. inversion H. reflexivity.
    + exists t. split; [reflexivity|].
      split; [apply (mentions_self_suffix "")|discriminate].
    + exists t. split; [reflexivity|].
      split; [apply (mentions_self_suffix "")|discriminate].
    + exists t. split; [reflexivity|].
      split; [apply (mentions_self_suffix "")|discriminate].
  - exists t. split; [reflexivity|].
    split; [apply (mentions_self_suffix "")|discriminate].
Qed.

Lemma file_names_set_file_in name c es x :
  In x (file_names (Dir (Dict.set name (File c) es))) ->
  x = name \/ In x (file_names (Dir es)).
Proof.
  simpl. rewrite !in_app_iff.
  induction es as [|[k v] es IH]; simpl.
  - intros [[H|[]]|[]]. left. now symmetry.
  - destruct (String.eqb name k); simpl; rewrite !in_app_iff.
    + intros [[H|H]|H]; [left; now symmetry|tauto|tauto].
    + intros [[H|H]|[H|H]]; tauto.
Qed.

Lemma file_names_set_file (P : string -> Prop) name c es :
  Forall P (file_names (Dir es)) -> P name ->
  Forall P (file_names (Dir (Dict.set name (File c) es))).
Proof.
  intros H Hname. apply Forall_forall. intros x Hx.
  apply file_names_set_file_in in Hx. destruct Hx as [->|Hx]; [exact Hname|].
  revert x Hx. now apply Forall_forall.
Qed.

Lemma no_artifact_set_file name c es :
  no_artifact es = true -> artifact_match name = false ->
  no_artifact (Dict.set name (File c) es) = true.
Proof.
  unfold no_artifact. intros H Hname.
  apply forallb_forall. apply Forall_forall.
  apply file_names_set_file.
  - apply Forall_forall. now apply forallb_forall.
  - now rewrite Hname.
Qed.

Lemma find_summary_some_match files found :
  find_summary files = Some found -> artifact_match (w_file found) = true.
Proof.
  unfold find_summary.
  assert (G : forall acc,
             (forall f, acc = Some f -> artifact_match (w_file f) = true) ->
             fold_left (fun found0 f =>
                          if artifact_match (w_file f) then Some f else found0)
                       files acc = Some found ->
             artifact_match (w_file found) = true).
  { induction files as [|f files IH]; simpl; intros acc Hacc H.
    - now apply Hacc.
    - apply (IH (if artifact_match (w_file f) then Some f else acc)); [|exact H].
      intros f0 Hf0. destruct (artifact_match (w_file f)) eqn:E.
      + inversion Hf0; subst. exact E.
      + now apply Hacc. }
  apply G. discriminate.
Qed.

(** ** Steps of the run executor on a writable run directory *)

Lemma fs_op_write_ok name c st :
  is_dir name (rs_dir st) = false ->
  fs_op (write_file name c) st
  = (Ok tt, set_dir (Dict.set name (File c) (rs_dir st)) st).
Proof. intros H. unfold fs_op. now rewrite write_file_ok. Qed.

Lemma log_append_ok t st :
  is_dir "experiment_log.txt" (rs_dir st) = false ->
  exists c,
    log_append t st
    = (Ok tt, set_dir (Dict.set "experiment_log.txt" (File (Text c)) (rs_dir st)) st)
    /\ mentions c t
    /\ forall t0, Dict.get "experiment_log.txt" (rs_dir st) = Some (File (Text t0)) ->
                  c = t0 ++ t.
Proof.
  intros H. unfold log_append, fs_op.
  destruct (append_file_ok _ t _ H) as (c & Ha & Hm & Hc).
  exists c. now rewrite Ha.
Qed.

Lemma log_mentions_append es c sub :
  (forall t0, Dict.get "experiment_log.txt" es = Some (File (Text t0)) ->
              exists t, c = t0 ++ t) ->
  log_mentions es sub ->
  log_mentions (Dict.set "experiment_log.txt" (File (Text c)) es) sub.
Proof.
  intros Hc (t0 & Hget & Hm). destruct (Hc t0 Hget) as (t & ->).
  exists (t0 ++ t). rewrite dict_get_set_same. split; [reflexivity|].
  now apply mentions_app_r.
Qed.

Lemma log_mentions_set_other name c es sub :
  name <> "experiment_log.txt" ->
  log_mentions es sub -> log_mentions (Dict.set name (File c) es) sub.
Proof.
  intros Hne (t0 & Hget & Hm). exists t0.
  rewrite dict_get_set_other by assumption. auto.
Qed.

Lemma bind_of_ok {S A B} (m : M S A) (k : A -> M S B) s a s1 :
  m s = (Ok a, s1) -> bind m k s = k a s1.
Proof. intros H. unfold bind. now rewrite H. Qed.

Lemma bind_of_raise {S A B} (m : M S A) (k : A -> M S B) s e s1 :
  m s = (Raise e, s1) -> bind m k s = (Raise e, s1).
Proof. intros H. unfold bind. now rewrite H. Qed.

Lemma try_except_of_ok {S A} (m : M S A) (h : exn -> M S A) s a s1 :
  m s = (Ok a, s1) -> try_except m h s = (Ok a, s1).
Proof. intros H. unfold try_except. now rewrite H. Qed.

Lemma try_except_of_raise {S A} (m : M S A) (h : exn -> M S A) s e s1 :
  m s = (Raise e, s1) -> try_except m h s = h e s1.
Proof. intros H. unfold try_except. now rewrite H. Qed.

Lemma harness_log_writable es :
  harness_writable es = true -> is_dir "experiment_log.txt" es = false.
Proof. intros H. apply (harness_writable_is_dir _ _ H). simpl. tauto. Qed.

Section Phases.

Variable engine_main : namespace -> entries -> engine_result.
Variable py_str : value -> string.
Variable now : string.

Lemma setup_ok run_dir solver_name num_slots st ns :
  rs_mod st = Some ns ->
  harness_writable (rs_dir st) = true ->
  exists c cfg,
    setup py_str run_dir solver_name num_slots st
    = (Ok tt,
       set_dir (Dict.set "experiment_log.txt" (File (Text c))
                  (Dict.set "experiment_config.json" (File (Json cfg)) (rs_dir st))) st)
    /\ forall t0, Dict.get "experiment_log.txt" (rs_dir st) = Some (File (Text t0)) ->
                  exists t, c = t0 ++ t.
Proof.
  intros Hmod Hw. unfold setup.
  erewrite bind_of_ok by (unfold import_main; rewrite Hmod; reflexivity).
  erewrite bind_of_ok
    by (apply fs_op_write_ok; apply (harness_writable_is_dir _ _ Hw); simpl; tauto).
  match goal with
  | |- context [log_append ?t ?s] =>
      destruct (log_append_ok t s) as (c & Hc & _ & Hprev)
  end.
  { simpl. apply harness_log_writable. now apply harness_writable_set_file. }
  rewrite Hc. simpl. eexists _, _. split; [reflexivity|].
  intros t0 Ht0. eexists. apply Hprev. simpl.
  rewrite dict_get_set_other by discriminate. exact Ht0.
Qed.

Lemma restore_unless_none_dir k v (s : run_state) :
  rs_dir (snd (restore_unless_none k v s)) = rs_dir s.
Proof.
  unfold restore_unless_none, setattr.
  destruct v; try reflexivity; destruct (rs_mod s); reflexivity.
Qed.

Lemma engine_session_ok run_dir num_slots solver_name st ns :
  rs_mod st = Some ns ->
  let res := engine_main (acquired run_dir num_slots solver_name ns) (rs_dir st) in
  harness_writable (er_dir res) = true ->
  exists c st1,
    engine_session engine_main run_dir num_slots solver_name st = (Ok tt, st1)
    /\ rs_dir st1 = Dict.set "experiment_log.txt" (File (Text c)) (er_dir res)
    /\ rs_mod st1 = Some (released ns (er_ns res))
    /\ (forall e, er_raised res = Some e -> mentions c (engine_error_text e)).
Proof.
  intros Hmod res Hw.
  pose proof (engine_session_released engine_main run_dir num_slots solver_name st ns Hmod)
    as Hrel.
  fold res in Hrel.
  unfold engine_session in *.
  erewrite bind_of_ok in * by (unfold import_main; rewrite Hmod; reflexivity).
  erewrite bind_of_ok in * by (apply setattr_eq; exact Hmod).
  erewrite bind_of_ok in * by (apply setattr_eq; reflexivity).
  erewrite bind_of_ok in * by (apply setattr_eq; reflexivity).
  fold (acquired run_dir num_slots solver_name ns) in *.
  unfold try_finally in *.
  match goal with
  | |- context [try_except ?b ?h ?s] =>
      assert (Hbody : exists c s1,
                 try_except b h s = (Ok tt, s1)
                 /\ rs_dir s1 = Dict.set "experiment_log.txt" (File (Text c)) (er_dir res)
                 /\ rs_mod s1 = Some (er_ns res)
                 /\ (forall e, er_raised res = Some e -> mentions c (engine_error_text e)))
  end.
  { unfold try_except, bind at 1, call_engine. simpl. fold res.
    destruct (er_raised res) as [e|] eqn:Er.
    - match goal with
      | |- context [log_append ?t ?s] =>
          destruct (log_append_ok t s) as (c & Hc & Hm & _)
      end.
      { simpl. now apply harness_log_writable. }
      rewrite Hc. exists c. eexists. split; [reflexivity|]. split; [reflexivity|].
      split; [reflexivity|].
      intros e' He'. inversion He'; subst. exact Hm.
    - match goal with
      | |- context [log_append ?t ?s] =>
          destruct (log_append_ok t s) as (c & Hc & Hm & _)
      end.
      { simpl. now apply harness_log_writable. }
      rewrite Hc. exists c. eexists. split; [reflexivity|]. split; [reflexivity|].
      split; [reflexivity|]. discriminate. }
  destruct Hbody as (c & s1 & Hb & Hdir & Hs1 & Hment).
  rewrite Hb in *.
  unfold bind in *.
  rewrite (restore_unless_none_eq _ _ _ _ Hs1) in *.
  erewrite restore_unless_none_eq in * by reflexivity.
  erewrite restore_unless_none_eq in * by reflexivity.
  exists c. eexists. split; [reflexivity|].
  split; [exact Hdir|]. split; [exact Hrel|exact Hment].
Qed.

Lemma open_read_set_file comps name k c es :
  name <> k -> is_dir k es = false ->
  open_read comps name (Dict.set k (File c) es) = open_read comps name es.
Proof.
  intros Hne Hk. unfold open_read.
  destruct comps as [|c1 cs]; simpl.
  - rewrite dict_get_set_other by congruence. reflexivity.
  - destruct (String.eqb k c1) eqn:E.
    + apply String.eqb_eq in E. subst c1. rewrite dict_get_set_same.
      unfold is_dir in Hk. destruct (Dict.get k es) as [[|]|]; congruence.
    + apply String.eqb_neq in E. rewrite dict_get_set_other by assumption.
      reflexivity.
Qed.

Lemma load_artifact_corrupt run_dir solver_name run_idx found st :
  not_json_object found (rs_dir st) ->
  exists e, load_artifact run_dir solver_name run_idx found st = (Raise e, st).
Proof.
  intros Hbad. unfold load_artifact, not_json_object in *.
  unfold bind at 1. simpl.
  unfold bind at 1.
  destruct (open_read (w_comps found) (w_file found) (rs_dir st)) as [c|e]; simpl in *;
    [|eauto].
  unfold bind at 1.
  destruct (json_load c) as [v|e]; [|eauto].
  destruct v; unfold raise; eauto.
  exfalso. eapply Hbad. reflexivity.
Qed.

Lemma resolve_fallback run_dir solver_name num_slots run_idx st :
  harness_writable (rs_dir st) = true ->
  (find_summary (walk [] run_dir (Dir (rs_dir st))) = None
   \/ exists found,
        find_summary (walk [] run_dir (Dir (rs_dir st))) = Some found
        /\ not_json_object found (rs_dir st)) ->
  exists st1,
    resolve now run_dir solver_name num_slots run_idx st
    = (Ok (partial_summary solver_name num_slots), st1)
    /\ (forall sub, log_mentions (rs_dir st) sub -> log_mentions (rs_dir st1) sub)
    /\ rs_mod st1 = rs_mod st
    /\ Dict.get "basic_summary.json" (rs_dir st1)
       = Some (File (Json (VDict (partial_summary solver_name num_slots))))
    /\ exists c,
        rs_dir st1
        = Dict.set "error_summary.json"
            (File (Json (VDict (error_summary now solver_name run_idx num_slots
                                  (all_files_of (walk [] run_dir (Dir (rs_dir st))))))))
            (Dict.set "basic_summary.json"
               (File (Json (VDict (partial_summary solver_name num_slots))))
               (Dict.set "experiment_log.txt" (File (Text c)) (rs_dir st))).
Proof.
  intros Hw Hcase. unfold resolve.
  erewrite bind_of_ok by reflexivity.
  cbv beta zeta.
  match goal with
  | |- context [bind (log_append ?t) _ st] =>
      destruct (log_append_ok t st (harness_log_writable _ Hw)) as (c1 & E1 & _ & P1)
  end.
  erewrite bind_of_ok by exact E1.
  set (st1 := set_dir (Dict.set "experiment_log.txt" (File (Text c1)) (rs_dir st)) st).
  assert (Hw1 : harness_writable (rs_dir st1) = true)
    by (now apply harness_writable_set_file).
  assert (Hloaded :
            exists c2,
              match find_summary (walk [] run_dir (Dir (rs_dir st))) with
              | Some found =>
                  try_except
                    (summary <- load_artifact run_dir solver_name run_idx found ;;
                     ret (Some summary))
                    (fun json_error =>
                       log_append ("读取summary.json出错: " ++ str_exn json_error ++ nl) ;;
                       ret None)
              | None =>
                  log_append ("警告: 未找到summary.json文件" ++ nl) ;;
                  ret None
              end st1
              = (Ok None,
                 set_dir (Dict.set "experiment_log.txt" (File (Text c2)) (rs_dir st1)) st1)
              /\ exists t, c2 = c1 ++ t).
  { destruct Hcase as [Hnone|(found & Hsome & Hbad)].
    - rewrite Hnone.
      match goal with
      | |- context [bind (log_append ?t) _] =>
          destruct (log_append_ok t st1 (harness_log_writable _ Hw1)) as (c2 & E2 & _ & P2)
      end.
      exists c2. erewrite bind_of_ok by exact E2. split; [reflexivity|].
      eexists. apply P2. simpl. apply dict_get_set_same.
    - rewrite Hsome.
      assert (Hbad1 : not_json_object found (rs_dir st1)).
      { unfold not_json_object. simpl. intros d.
        rewrite open_read_set_file; [apply Hbad| |now apply harness_log_writable].
        intros Heq. apply find_summary_some_match in Hsome.
        rewrite Heq in Hsome. discriminate. }
      destruct (load_artifact_corrupt run_dir solver_name run_idx found st1 Hbad1)
        as (e & El).
      erewrite try_except_of_raise by (erewrite bind_of_raise by exact El; reflexivity).
      match goal with
      | |- context [bind (log_append ?t) _] =>
          destruct (log_append_ok t st1 (harness_log_writable _ Hw1)) as (c2 & E2 & _ & P2)
      end.
      exists c2. erewrite bind_of_ok by exact E2. split; [reflexivity|].
      eexists. apply P2. simpl. apply dict_get_set_same. }
  destruct Hloaded as (c2 & El & t2 & Hc2).
  erewrite bind_of_ok by exact El.
  cbv beta iota.
  set (st2 := set_dir (Dict.set "experiment_log.txt" (File (Text c2)) (rs_dir st1)) st1).
  assert (Hw2 : harness_writable (rs_dir st2) = true)
    by (now apply harness_writable_set_file).
  erewrite bind_of_ok
    by (apply fs_op_write_ok; apply (harness_writable_is_dir _ _ Hw2); simpl; tauto).
  erewrite bind_of_ok.
  2:{ apply fs_op_write_ok. simpl. rewrite is_dir_set_file. simpl.
      apply (harness_writable_is_dir _ _ Hw2). simpl. tauto. }
  eexists. split; [reflexivity|]. simpl.
  split; [|split; [reflexivity|]].
  - intros sub Hsub.
    apply log_mentions_set_other; [discriminate|].
    apply log_mentions_set_other; [discriminate|].
    apply log_mentions_append.
    { intros t0 Ht0. rewrite dict_get_set_same in Ht0. inversion Ht0; subst. eauto. }
    apply log_mentions_append; [|exact Hsub].
    intros t0 Ht0. eexists. now apply P1.
  - split; [rewrite dict_get_set_other by discriminate; apply dict_get_set_same|].
    exists c2. now rewrite dict_set_set_same.
Qed.

Lemma on_error_ok solver_name num_slots run_idx e st :
  harness_writable (rs_dir st) = true ->
  exists st1,
    on_error solver_name num_slots run_idx e st
    = (Ok (failed_summary solver_name run_idx num_slots e), st1)
    /\ rs_mod st1 = rs_mod st
    /\ Dict.get "error.txt" (rs_dir st1) = Some (File (Text (error_file_text e))).
Proof.
  intros Hw. unfold on_error.
  erewrite bind_of_ok
    by (apply fs_op_write_ok; apply (harness_writable_is_dir _ _ Hw); simpl; tauto).
  match goal with
  | |- context [bind (log_append ?t) _ ?s] =>
      destruct (log_append_ok t s) as (c1 & E1 & _ & _)
  end.
  { simpl. apply harness_log_writable. now apply harness_writable_set_file. }
  erewrite bind_of_ok by exact E1.
  erewrite bind_of_ok.
  2:{ apply fs_op_write_ok. simpl. rewrite !is_dir_set_file. simpl.
      apply (harness_writable_is_dir _ _ Hw). simpl. tauto. }
  eexists. split; [reflexivity|]. simpl. split; [reflexivity|].
  rewrite !dict_get_set_other by discriminate. apply dict_get_set_same.
Qed.

Lemma run_body_engine_raised e solver_name num_slots output_dir run_idx st ns :
  rs_mod st = Some ns ->
  harness_writable (rs_dir st) = true ->
  no_artifact (rs_dir st) = true ->
  (forall ns0 es0, er_raised (engine_main ns0 es0) = Some e) ->
  (forall ns0 es0, harness_writable es0 = true ->
                   harness_writable (er_dir (engine_main ns0 es0)) = true) ->
  (forall ns0 es0, no_artifact es0 = true ->
                   no_artifact (er_dir (engine_main ns0 es0)) = true) ->
  exists st1,
    run_body engine_main py_str now solver_name num_slots output_dir run_idx st
    = (Ok (partial_summary solver_name num_slots), st1)
    /\ log_mentions (rs_dir st1) (engine_error_text e).
Proof.
  intros Hmod Hw Hna Hraise Hkeepw Hkeepn. unfold run_body. cbv zeta.
  erewrite bind_of_ok by (apply fs_op_write_ok; now apply harness_log_writable).
  match goal with
  | |- context [try_except _ _ ?s] => set (st0 := s)
  end.
  assert (Hw0 : harness_writable (rs_dir st0) = true)
    by (now apply harness_writable_set_file).
  assert (Hna0 : no_artifact (rs_dir st0) = true)
    by (now apply no_artifact_set_file).
  match goal with
  | |- context [setup py_str ?rd _ _] => set (run_dir := rd)
  end.
  destruct (setup_ok run_dir solver_name num_slots st0 ns Hmod Hw0)
    as (c1 & cfg & Es & _).
  match type of Es with _ = (_, ?s) => set (st1 := s) in * end.
  assert (Hw1 : harness_writable (rs_dir st1) = true)
    by (simpl; now repeat apply harness_writable_set_file).
  assert (Hna1 : no_artifact (rs_dir st1) = true)
    by (simpl; now repeat apply no_artifact_set_file).
  destruct (engine_session_ok run_dir num_slots solver_name st1 ns Hmod
              (Hkeepw _ _ Hw1)) as (c2 & st2 & Ee & Hdir2 & Hmod2 & Hment).
  assert (Hw2 : harness_writable (rs_dir st2) = true)
    by (rewrite Hdir2; apply harness_writable_set_file; now apply Hkeepw).
  assert (Hna2 : no_artifact (rs_dir st2) = true)
    by (rewrite Hdir2; apply no_artifact_set_file; [now apply Hkeepn|reflexivity]).
  destruct (resolve_fallback run_dir solver_name num_slots run_idx st2 Hw2)
    as (st3 & Er & Hlog & _ & _).
  { left. now apply no_artifact_find_summary. }
  exists st3. split.
  - apply try_except_of_ok.
    erewrite bind_of_ok by exact Es.
    erewrite bind_of_ok by exact Ee.
    exact Er.
  - apply Hlog. exists c2. rewrite Hdir2, dict_get_set_same.
    split; [reflexivity|]. apply Hment. apply Hraise.
Qed.

Lemma run_body_no_module solver_name num_slots output_dir run_idx st :
  rs_mod st = None ->
  harness_writable (rs_dir st) = true ->
  exists e st1,
    run_body engine_main py_str now solver_name num_slots output_dir run_idx st
    = (Ok (failed_summary solver_name run_idx num_slots e), st1)
    /\ Dict.get "error.txt" (rs_dir st1) = Some (File (Text (error_file_text e))).
Proof.
  intros Hmod Hw. unfold run_body. cbv zeta.
  erewrite bind_of_ok by (apply fs_op_write_ok; now apply harness_log_writable).
  match goal with
  | |- context [try_except _ _ ?s] => set (st0 := s)
  end.
  assert (Hw0 : harness_writable (rs_dir st0) = true)
    by (now apply harness_writable_set_file).
  destruct (on_error_ok solver_name num_slots run_idx
              (Exn "ModuleNotFoundError" "No module named 'main'") st0 Hw0)
    as (st1 & Eo & _ & Herr).
  eexists _, st1. split; [|exact Herr].
  erewrite try_except_of_raise; [exact Eo|].
  apply bind_of_raise. unfold setup. apply bind_of_raise.
  unfold import_main. simpl. now rewrite Hmod.
Qed.

Lemma makedirs_run_dir run_name es d :
  run_dir_state run_name es = Some d ->
  exists es1, makedirs run_name es = Ok es1
              /\ subdir run_name es1 = d
              /\ forall d', subdir run_name (Dict.set run_name (Dir d') es1) = d'.
Proof.
  unfold run_dir_state, makedirs, subdir.
  destruct (Dict.get run_name es) as [[c|d0]|] eqn:E; intros H; inversion H; subst.
  - exists es. rewrite E. split; [reflexivity|]. split; [reflexivity|].
    intros d'. now rewrite dict_get_set_same.
  - eexists. split; [reflexivity|]. rewrite dict_get_set_same.
    split; [reflexivity|]. intros d'. now rewrite dict_get_set_same.
Qed.

End Phases.

(** ** Fallback status *)




(** ** Substring matching of artifact names *)

Lemma prefix_app (a b : string) : String.prefix a (a ++ b) = true.
Proof.
  induction a as [|c a IH]; simpl.
  - destruct b; reflexivity.
  - destruct (ascii_dec c c); [exact IH|congruence].
Qed.

Lemma prefix_split (a s : string) :
  String.prefix a s = true -> exists post, s = a ++ post.
Proof.
  revert s. induction a as [|c a IH]; intros s.
  - intros _. now exists s.
  - destruct s as [|c' s]; simpl; [discriminate|].
    destruct (ascii_dec c c') as [->|]; [|discriminate].
    intros H. destruct (IH _ H) as (post & ->). now exists post.
Qed.

Lemma str_contains_prefix (sub s : string) :
  String.prefix sub s = true -> str_contains sub s = true.
Proof. destruct s; simpl; intros ->; reflexivity. Qed.

Lemma str_contains_app (sub pre post : string) :
  str_contains sub (pre ++ sub ++ post) = true.
Proof.
  induction pre as [|c pre IH].
  - change ("" ++ sub ++ post) with (sub ++ post).
    apply str_contains_prefix, prefix_app.
  - simpl. rewrite IH. apply orb_true_r.
Qed.

Lemma str_contains_split (sub s : string) :
  str_contains sub s = true -> exists pre post, s = pre ++ sub ++ post.
Proof.
  induction s as [|c s IH]; intros H.
  - change (String.prefix sub "" || false = true) in H.
    rewrite orb_false_r in H. apply prefix_split in H.
    destruct H as (post & H). now exists "", post.
  - change (String.prefix sub (String c s) || str_contains sub s = true) in H.
    apply orb_true_iff in H. destruct H as [H|H].
    + apply prefix_split in H. destruct H as (post & H). now exists "", post.
    + destruct (IH H) as (pre & post & ->). now exists (String c pre), post.
Qed.

Lemma path_join_same_dir (a b1 b2 : string) :
  String.prefix "/" b1 = false -> String.prefix "/" b2 = false ->
  b1 <> b2 -> String.eqb (path_join a b1) (path_join a b2) = false.
Proof.
  intros H1 H2 Hne. apply String.eqb_neq. unfold path_join. rewrite H1, H2.
  destruct (String.eqb a "" || ends_with_slash a); intros H.
  - apply string_app_inv_head in H. contradiction.
  - apply string_app_inv_head in H. inversion H. contradiction.
Qed.

Lemma copy2_ok c comps name dst es :
  is_dir dst es = false ->
  copy2 c comps name dst es = Ok (Dict.set dst (File c) es).
Proof.
  unfold is_dir, copy2. destruct (Dict.get dst es) as [[|]|]; congruence.
Qed.

(** ** Re-execution into a used run directory *)

Section Reexecution.

Variable engine_main : namespace -> entries -> engine_result.
Variable py_str : value -> string.
Variable now : string.

Lemma resolve_artifact run_dir solver_name num_slots run_idx st found c d :
  harness_writable (rs_dir st) = true ->
  find_summary (walk [] run_dir (Dir (rs_dir st))) = Some found ->
  open_read (w_comps found) (w_file found) (rs_dir st) = Ok c ->
  json_load c = Ok (VDict d) ->
  is_dir "summary.json" (rs_dir st) = false ->
  exists st1,
    resolve now run_dir solver_name num_slots run_idx st
    = (Ok (stamped solver_name run_idx d), st1)
    /\ rs_mod st1 = rs_mod st.
Proof.
  intros Hw Hfind Hread Hjson Hdst. unfold resolve.
  erewrite bind_of_ok by reflexivity.
  cbv beta zeta.
  match goal with
  | |- context [bind (log_append ?t) _ st] =>
      destruct (log_append_ok t st (harness_log_writable _ Hw)) as (c1 & E1 & _ & _)
  end.
  erewrite bind_of_ok by exact E1.
  set (st1 := set_dir (Dict.set "experiment_log.txt" (File (Text c1)) (rs_dir st)) st).
  assert (Hw1 : harness_writable (rs_dir st1) = true)
    by (now apply harness_writable_set_file).
  rewrite Hfind.
  assert (Hne : w_file found <> "experiment_log.txt").
  { intros Heq. apply find_summary_some_match in Hfind.
    rewrite Heq in Hfind. discriminate. }
  assert (Hload : exists st2,
             load_artifact run_dir solver_name run_idx found st1
             = (Ok (stamped solver_name run_idx d), st2)
             /\ rs_mod st2 = rs_mod st).
  { unfold load_artifact.
    erewrite bind_of_ok by reflexivity.
    erewrite bind_of_ok.
    2:{ simpl. rewrite open_read_set_file;
          [rewrite Hread; reflexivity|exact Hne|now apply harness_log_writable]. }
    erewrite bind_of_ok by (rewrite Hjson; reflexivity).
    cbv beta iota zeta.
    destruct (String.eqb (walked_path found) (path_join run_dir "summary.json")).
    - erewrite bind_of_ok by reflexivity.
      match goal with
      | |- context [bind (log_append ?t) _ ?s] =>
          destruct (log_append_ok t s (harness_log_writable _ Hw1)) as (c2 & E2 & _ & _)
      end.
      erewrite bind_of_ok by exact E2.
      eexists. split; reflexivity.
    - erewrite bind_of_ok.
      2:{ unfold fs_op. rewrite copy2_ok; [reflexivity|].
          simpl. rewrite is_dir_set_file. simpl. exact Hdst. }
      match goal with
      | |- context [bind (log_append ?t) _ ?s] =>
          destruct (log_append_ok t s) as (c2 & E2 & _ & _)
      end.
      { simpl. apply harness_log_writable.
        now repeat apply harness_writable_set_file. }
      erewrite bind_of_ok by exact E2.
      eexists. split; reflexivity. }
  destruct Hload as (st2 & El & Hm2).
  erewrite bind_of_ok.
  2:{ apply try_except_of_ok. erewrite bind_of_ok by exact El. reflexivity. }
  cbv beta iota. eexists. split; [reflexivity|exact Hm2].
Qed.

Hypothesis engine_keeps_dir : forall ns es, er_dir (engine_main ns es) = es.

Lemma first_run_body solver_name num_slots output_dir run_idx st ns :
  rs_mod st = Some ns ->
  rs_dir st = [] ->
  exists c cfg ns1 st1,
    run_body engine_main py_str now solver_name num_slots output_dir run_idx st
    = (Ok (partial_summary solver_name num_slots), st1)
    /\ rs_mod st1 = Some ns1
    /\ rs_dir st1
       = [ ("experiment_log.txt", File (Text c));
           ("experiment_config.json", File (Json cfg));
           ("basic_summary.json",
            File (Json (VDict (partial_summary solver_name num_slots))));
           ("error_summary.json",
            File (Json (VDict
                          (error_summary now solver_name run_idx num_slots
                             (map (path_join
                                     (path_join output_dir
                                        (run_dir_name (simple_name solver_name) run_idx)))
                                  ["experiment_log.txt"; "experiment_config.json"]))))) ].
Proof.
  intros Hmod Hdir. unfold run_body. cbv zeta.
  erewrite bind_of_ok by (apply fs_op_write_ok; rewrite Hdir; reflexivity).
  match goal with
  | |- context [try_except _ _ ?s] => set (st0 := s)
  end.
  assert (Hw0 : harness_writable (rs_dir st0) = true)
    by (simpl; rewrite Hdir; reflexivity).
  match goal with
  | |- context [setup py_str ?rd _ _] => set (run_dir := rd)
  end.
  destruct (setup_ok engine_main py_str run_dir solver_name num_slots st0 ns Hmod Hw0)
    as (c1 & cfg & Es & _).
  match type of Es with _ = (_, ?s) => set (st1 := s) in * end.
  assert (Hd1 : rs_dir st1 = [ ("experiment_log.txt", File (Text c1));
                               ("experiment_config.json", File (Json cfg)) ])
    by (simpl; rewrite Hdir; reflexivity).
  destruct (engine_session_ok engine_main run_dir num_slots solver_name st1 ns Hmod)
    as (c2 & st2 & Ee & Hdir2 & Hmod2 & _).
  { rewrite engine_keeps_dir, Hd1. reflexivity. }
  rewrite engine_keeps_dir, Hd1 in Hdir2. simpl in Hdir2.
  destruct (resolve_fallback now run_dir solver_name num_slots run_idx st2)
    as (st3 & Er & _ & Hmod3 & _ & c3 & Hdir3).
  { rewrite Hdir2. reflexivity. }
  { left. rewrite Hdir2. reflexivity. }
  rewrite Hdir2 in Hdir3. simpl in Hdir3.
  exists c3, cfg. eexists. exists st3. split; [|split].
  - apply try_except_of_ok.
    erewrite bind_of_ok by exact Es.
    erewrite bind_of_ok by exact Ee.
    exact Er.
  - rewrite Hmod3. exact Hmod2.
  - exact Hdir3.
Qed.

Lemma second_run_body solver_name num_slots output_dir run_idx st ns c cfg basic d :
  rs_mod st = Some ns ->
  rs_dir st = [ ("experiment_log.txt", File (Text c));
                ("experiment_config.json", File (Json cfg));
                ("basic_summary.json", File (Json basic));
                ("error_summary.json", File (Json (VDict d))) ] ->
  exists st1,
    run_body engine_main py_str now solver_name num_slots output_dir run_idx st
    = (Ok (stamped solver_name run_idx d), st1).
Proof.
  intros Hmod Hdir. unfold run_body. cbv zeta.
  erewrite bind_of_ok by (apply fs_op_write_ok; rewrite Hdir; reflexivity).
  match goal with
  | |- context [try_except _ _ ?s] => set (st0 := s)
  end.
  assert (Hw0 : harness_writable (rs_dir st0) = true)
    by (simpl; rewrite Hdir; reflexivity).
  match goal with
  | |- context [setup py_str ?rd _ _] => set (run_dir := rd)
  end.
  destruct (setup_ok engine_main py_str run_dir solver_name num_slots st0 ns Hmod Hw0)
    as (c1 & cfg1 & Es & _).
  match type of Es with _ = (_, ?s) => set (st1 := s) in * end.
  assert (Hd1 : rs_dir st1 = [ ("experiment_log.txt", File (Text c1));
                               ("experiment_config.json", File (Json cfg1));
                               ("basic_summary.json", File (Json basic));
                               ("error_summary.json", File (Json (VDict d))) ])
    by (simpl; rewrite Hdir; reflexivity).
  destruct (engine_session_ok engine_main run_dir num_slots solver_name st1 ns Hmod)
    as (c2 & st2 & Ee & Hdir2 & Hmod2 & _).
  { rewrite engine_keeps_dir, Hd1. reflexivity. }
  rewrite engine_keeps_dir, Hd1 in Hdir2. simpl in Hdir2.
  destruct (resolve_artifact run_dir solver_name num_slots run_idx st2
              {| w_comps := []; w_root := run_dir; w_file := "error_summary.json" |}
              (Json (VDict d)) d)
    as (st3 & Er & _).
  { rewrite Hdir2. reflexivity. }
  { rewrite Hdir2. reflexivity. }
  { rewrite Hdir2. reflexivity. }
  { reflexivity. }
  { rewrite Hdir2. reflexivity. }
  exists st3.
  apply try_except_of_ok.
  erewrite bind_of_ok by exact Es.
  erewrite bind_of_ok by exact Ee.
  exact Er.
Qed.

End Reexecution.



(** ** Console capture *)

(** The sibling entry point [run_solver] and the re-execution of the
    reconciliation pass do redirect the streams and save what they
    caught, whether the engine returns or raises. *)
Lemma run_solver_persists_capture :
  forall (py_str : value -> string) (elapsed : Q),
    Dict.get "A_output.txt"
      (subdir "solvers_A_A"
         (subdir "A_run_1"
            (fs (snd (run_solver Samples.quiet_engine py_str Samples.clock elapsed
                        "solvers.A.A" 5 "out" 0 Samples.fresh_world)))))
    = Some (File (Text ("=== STDOUT ===" ++ nl
                        ++ "hello" ++ "  Main function executed successfully" ++ nl
                        ++ nl ++ nl ++ "=== STDERR ===" ++ nl)))
    /\ Dict.get "A_output.txt"
         (subdir "solvers_A_A"
            (subdir "A_run_1"
               (fs (snd (run_solver Samples.raising_engine py_str Samples.clock elapsed
                           "solvers.A.A" 5 "out" 0 Samples.fresh_world)))))
       = Some (File (Text ("=== STDOUT ===" ++ nl
                           ++ "hello" ++ "  Error executing main function: boom" ++ nl
                           ++ nl ++ nl ++ "=== STDERR ===" ++ nl ++ "oops"))).
Proof. intros py_str elapsed. split; vm_compute; reflexivity. Qed.

Section Preserves.

Context {S : Type} (P : S -> Prop).

Lemma preserves_ret {A} (a : A) : preserves P (ret a).
Proof. intros s H. exact H. Qed.

Lemma preserves_pure {A} (r : result A) : preserves P (fun s : S => (r, s)).
Proof. intros s H. exact H. Qed.

Lemma preserves_bind {A B} (m : M S A) (k : A -> M S B) :
  preserves P m -> (forall a, preserves P (k a)) -> preserves P (bind m k).
Proof.
  intros Hm Hk s H. unfold bind. specialize (Hm s H).
  destruct (m s) as [[a|e] s1]; simpl in *; [now apply Hk|exact Hm].
Qed.

Lemma preserves_try_except {A} (m : M S A) (h : exn -> M S A) :
  preserves P m -> (forall e, preserves P (h e)) -> preserves P (try_except m h).
Proof.
  intros Hm Hh s H. unfold try_except. specialize (Hm s H).
  destruct (m s) as [[a|e] s1]; simpl in *; [exact Hm|now apply Hh].
Qed.

Lemma preserves_try_finally {A} (m : M S A) (f : M S unit) :
  preserves P m -> preserves P f -> preserves P (try_finally m f).
Proof.
  intros Hm Hf s H. unfold try_finally. specialize (Hm s H).
  destruct (m s) as [r s1]. simpl in Hm. specialize (Hf s1 Hm).
  destruct (f s1) as [[[]|e] s2]; exact Hf.
Qed.

End Preserves.

Lemma uncaptured_setattr k v : preserves uncaptured (setattr k v).
Proof.
  intros st H. unfold setattr. destruct (rs_mod st); exact H.
Qed.

Lemma uncaptured_fs_op op : preserves uncaptured (fs_op op).
Proof.
  intros st H. unfold fs_op. destruct (op (rs_dir st)); exact H.
Qed.

Lemma uncaptured_import : preserves uncaptured import_main.
Proof.
  intros st H. unfold import_main. destruct (rs_mod st); exact H.
Qed.

Lemma uncaptured_restore k v : preserves uncaptured (restore_unless_none k v).
Proof.
  unfold restore_unless_none.
  destruct v; try apply uncaptured_setattr. apply preserves_ret.
Qed.

Lemma uncaptured_call_engine engine_main : preserves uncaptured (call_engine engine_main).
Proof.
  intros st H. unfold call_engine, uncaptured in *.
  destruct (rs_mod st); simpl; [now rewrite H|exact H].
Qed.

Lemma uncaptured_engine_session engine_main run_dir num_slots solver_name :
  preserves uncaptured (engine_session engine_main run_dir num_slots solver_name).
Proof.
  unfold engine_session.
  apply preserves_bind; [apply uncaptured_import|intros ns].
  apply preserves_bind; [apply uncaptured_setattr|intros _].
  apply preserves_bind; [apply uncaptured_setattr|intros _].
  apply preserves_bind; [apply uncaptured_setattr|intros _].
  apply preserves_try_finally.
  - apply preserves_try_except.
    + apply preserves_bind; [apply uncaptured_call_engine|intros _].
      apply uncaptured_fs_op.
    + intros e. apply uncaptured_fs_op.
  - apply preserves_bind; [apply uncaptured_restore|intros _].
    apply preserves_bind; [apply uncaptured_restore|intros _].
    apply uncaptured_restore.
Qed.

(** C9 (the defect).  In [run_experiment_for_solver] the engine is called
    with the streams as they are: nothing redirects them, so nothing is
    caught.  After a run with an engine that prints, the run directory
    holds the log, the configuration and the two fallback files, but no
    output artifact; whether the engine returns or raises makes no
    difference. *)
Theorem run_executor_saves_no_output :
  forall (py_str : value -> string),
    (forall (engine_main : namespace -> entries -> engine_result)
            run_dir num_slots solver_name,
        preserves uncaptured
                  (engine_session engine_main run_dir num_slots solver_name))
    /\ Dict.keys
         (subdir "A_run_1"
            (fs (snd (run_experiment_for_solver Samples.quiet_engine py_str
                        Samples.clock "solvers.A.A" 5 "out" 0 Samples.fresh_world))))
       = [ "experiment_log.txt"; "experiment_config.json"; "basic_summary.json";
           "error_summary.json" ]
    /\ Dict.keys
         (subdir "A_run_1"
            (fs (snd (run_experiment_for_solver Samples.raising_engine py_str
                        Samples.clock "solvers.A.A" 5 "out" 0 Samples.fresh_world))))
       = [ "experiment_log.txt"; "experiment_config.json"; "basic_summary.json";
           "error_summary.json" ].
Proof.
  intros py_str. split; [|split; vm_compute; reflexivity].
  intros. apply uncaptured_engine_session.
Qed.

(** ** Names of run directories *)

Lemma last_char_app (a b : string) :
  b <> "" -> last_char (a ++ b) = last_char b.
Proof.
  intros Hb. induction a as [|c a IH]; simpl; [reflexivity|].
  rewrite IH. destruct b as [|c' b]; [congruence|].
  simpl. destruct (last_char b); reflexivity.
Qed.

Lemma last_char_none (s : string) : last_char s = None -> s = "".
Proof.
  destruct s as [|c s]; simpl; [reflexivity|].
  destruct (last_char s); discriminate.
Qed.

Lemma all_digits_last (s : string) :
  all_digits s = true -> s <> "" -> ends_digit s = true.
Proof.
  unfold ends_digit. induction s as [|c s IH]; [congruence|].
  simpl. intros H _. apply andb_true_iff in H. destruct H as [Hc Hs].
  destruct (last_char s) eqn:E.
  - apply IH; [exact Hs|]. intros ->. discriminate.
  - exact Hc.
Qed.

Lemma string_of_uint_digits (d : Decimal.uint) :
  all_digits (NilEmpty.string_of_uint d) = true.
Proof. induction d; simpl; auto. Qed.

Lemma string_of_uint_nonempty (d : Decimal.uint) :
  d <> Decimal.Nil -> NilEmpty.string_of_uint d <> "".
Proof. destruct d; simpl; congruence. Qed.

Lemma revapp_nonnil (d acc : Decimal.uint) :
  acc <> Decimal.Nil -> Decimal.revapp d acc <> Decimal.Nil.
Proof.
  revert acc. induction d; intros acc H; simpl; try apply IHd; congruence.
Qed.

Lemma little_succ_nonnil (d : Decimal.uint) : Decimal.Little.succ d <> Decimal.Nil.
Proof. destruct d; simpl; congruence. Qed.

Lemma to_little_uint_nonnil (n : nat) (acc : Decimal.uint) :
  acc <> Decimal.Nil -> Nat.to_little_uint n acc <> Decimal.Nil.
Proof.
  revert acc. induction n as [|n IH]; intros acc H; simpl; [exact H|].
  apply IH. apply little_succ_nonnil.
Qed.

Lemma revapp_nonnil_left (d acc : Decimal.uint) :
  d <> Decimal.Nil -> Decimal.revapp d acc <> Decimal.Nil.
Proof.
  destruct d; intros H; simpl; try congruence; apply revapp_nonnil; congruence.
Qed.

Lemma str_nat_ends_digit (n : nat) : ends_digit (str_nat n) = true.
Proof.
  unfold str_nat. apply all_digits_last.
  - apply string_of_uint_digits.
  - apply string_of_uint_nonempty. unfold Nat.to_uint, Decimal.rev.
    apply revapp_nonnil_left. apply to_little_uint_nonnil. discriminate.
Qed.

Lemma ends_digit_app (a b : string) :
  b <> "" -> ends_digit (a ++ b) = ends_digit b.
Proof. intros H. unfold ends_digit. now rewrite last_char_app. Qed.

Lemma str_nat_nonempty (n : nat) : str_nat n <> "".
Proof.
  intros H. pose proof (str_nat_ends_digit n) as E. rewrite H in E. discriminate.
Qed.

Lemma run_dir_name_ends_digit (simple : string) (run_idx : nat) :
  ends_digit (run_dir_name simple run_idx) = true.
Proof.
  unfold run_dir_name.
  rewrite ends_digit_app.
  - rewrite ends_digit_app by apply str_nat_nonempty. apply str_nat_ends_digit.
  - intros H. discriminate.
Qed.

(** ** The output directory of a batch *)

Lemma dict_get_in {V} (k : string) (v : V) (d : list (string * V)) :
  Dict.get k d = Some v -> In (k, v) d.
Proof.
  induction d as [|[k' v'] d IH]; simpl; [discriminate|].
  destruct (String.eqb k k') eqn:E.
  - apply String.eqb_eq in E. subst. intros H. inversion H. now left.
  - intros H. right. now apply IH.
Qed.

Lemma forallb_dict_set {V} (P : string * V -> bool) k v (d : list (string * V)) :
  forallb P d = true -> P (k, v) = true -> forallb P (Dict.set k v d) = true.
Proof.
  intros Hd Hk. induction d as [|[k' v'] d IH]; simpl in *.
  - now rewrite Hk.
  - apply andb_true_iff in Hd. destruct Hd as [H1 H2].
    destruct (String.eqb k k'); simpl.
    + now rewrite Hk, H2.
    + now rewrite H1, IH.
Qed.

Lemma flat_is_dir name d : flat d = true -> is_dir name d = false.
Proof.
  unfold flat, is_dir. intros H.
  destruct (Dict.get name d) as [[c|d']|] eqn:E; try reflexivity.
  apply dict_get_in in E. rewrite forallb_forall in H.
  specialize (H _ E). discriminate.
Qed.

Lemma flat_set_file name c d : flat d = true -> flat (Dict.set name (File c) d) = true.
Proof. intros H. now apply forallb_dict_set. Qed.

Lemma batch_dir_ok_is_dir name es :
  batch_dir_ok es = true -> ends_digit name = false -> name <> "metrics" ->
  is_dir name es = false.
Proof.
  unfold batch_dir_ok, is_dir. intros H Hd Hm.
  destruct (Dict.get name es) as [[c|d]|] eqn:E; try reflexivity.
  apply dict_get_in in E. rewrite forallb_forall in H.
  specialize (H _ E). simpl in H. rewrite Hd in H. simpl in H.
  apply andb_true_iff in H. destruct H as [H _].
  apply String.eqb_eq in H. contradiction.
Qed.

Lemma batch_dir_ok_set_file name c es :
  batch_dir_ok es = true -> name <> "metrics" ->
  batch_dir_ok (Dict.set name (File c) es) = true.
Proof.
  intros H Hm. apply forallb_dict_set; [exact H|]. simpl.
  apply negb_true_iff. now apply String.eqb_neq.
Qed.

Lemma batch_dir_ok_set_run_dir name d es :
  batch_dir_ok es = true -> ends_digit name = true ->
  batch_dir_ok (Dict.set name (Dir d) es) = true.
Proof.
  intros H Hd. apply forallb_dict_set; [exact H|]. simpl. now rewrite Hd.
Qed.

Lemma batch_dir_ok_makedirs name es es' :
  batch_dir_ok es = true -> ends_digit name = true ->
  makedirs name es = Ok es' -> batch_dir_ok es' = true.
Proof.
  unfold makedirs. intros H Hd.
  destruct (Dict.get name es) as [[c|d]|]; intros E; inversion E; subst.
  - exact H.
  - now apply batch_dir_ok_set_run_dir.
Qed.

Lemma batch_dir_ok_metrics es :
  batch_dir_ok es = true ->
  exists es' d,
    makedirs "metrics" es = Ok es'
    /\ Dict.get "metrics" es' = Some (Dir d)
    /\ flat d = true
    /\ batch_dir_ok es' = true
    /\ forall d', es' = es \/ Dict.set "metrics" (Dir d') es'
                             = Dict.set "metrics" (Dir d') es.
Proof.
  unfold makedirs. intros H.
  destruct (Dict.get "metrics" es) as [[c|d]|] eqn:E.
  - exfalso. apply dict_get_in in E. unfold batch_dir_ok in H.
    rewrite forallb_forall in H. specialize (H _ E). discriminate.
  - exists es, d. split; [reflexivity|]. split; [exact E|].
    split; [|split; [exact H|auto]].
    apply dict_get_in in E. unfold batch_dir_ok in H.
    rewrite forallb_forall in H. specialize (H _ E). simpl in H. exact H.
  - eexists _, []. split; [reflexivity|]. rewrite dict_get_set_same.
    split; [reflexivity|]. split; [reflexivity|]. split.
    + apply forallb_dict_set; [exact H|reflexivity].
    + intros d'. right. apply dict_set_set_same.
Qed.

(** A name the coordinator writes a file under: it cannot be taken for a
    run directory nor for the metrics directory. *)
Lemma suffix_file_name (a b : string) :
  b <> "" -> ends_digit b = false -> last_char b <> Some "s"%char ->
  ends_digit (a ++ b) = false /\ a ++ b <> "metrics".
Proof.
  intros Hb Hd Hs. split.
  - now rewrite ends_digit_app.
  - intros H. apply (f_equal last_char) in H.
    rewrite last_char_app in H by assumption. simpl in H. contradiction.
Qed.

Lemma top_write_ok name c w :
  batch_dir_ok (fs w) = true ->
  ends_digit name = false /\ name <> "metrics" ->
  top_op (write_file name c) w = (Ok tt, set_fs (Dict.set name (File c) (fs w)) w)
  /\ batch_dir_ok (Dict.set name (File c) (fs w)) = true.
Proof.
  intros H [Hd Hm]. unfold top_op.
  rewrite write_file_ok by (now apply batch_dir_ok_is_dir).
  split; [reflexivity|]. now apply batch_dir_ok_set_file.
Qed.

(** ** The coordinator on a writable output directory *)

Lemma error_log_name (simple : string) (n : nat) :
  let name := simple ++ "_run_" ++ str_nat n ++ "_error.log" in
  ends_digit name = false /\ name <> "metrics".
Proof.
  intros name.
  assert (E : name = (simple ++ "_run_" ++ str_nat n) ++ "_error.log")
    by (unfold name; now rewrite !string_app_assoc).
  rewrite E. apply suffix_file_name; [discriminate|reflexivity|discriminate].
Qed.

(** ** The metric files *)

Lemma string_length_app (a b : string) :
  String.length (a ++ b) = (String.length a + String.length b)%nat.
Proof. induction a as [|c a IH]; simpl; [reflexivity|now rewrite IH]. Qed.

Lemma string_app_same_length (a b x y : string) :
  String.length a = String.length b -> a ++ x = b ++ y -> a = b.
Proof.
  revert b. induction a as [|c a IH]; intros [|c' b]; simpl; try discriminate.
  - reflexivity.
  - intros Hl H. inversion H; subst. f_equal. apply IH; [lia|assumption].
Qed.

Lemma string_app_inv_tail (a b x : string) : a ++ x = b ++ x -> a = b.
Proof.
  intros H. eapply string_app_same_length; [|exact H].
  apply (f_equal String.length) in H. rewrite !string_length_app in H. lia.
Qed.

Lemma csv_not_json (a b : string) : a ++ ".csv" <> b ++ ".json".
Proof.
  intros H. apply (f_equal last_char) in H.
  rewrite !last_char_app in H by discriminate. discriminate.
Qed.

Lemma in_subdir_write_ok name x c d es :
  Dict.get name es = Some (Dir d) -> flat d = true ->
  in_subdir name (write_file x c) es
  = Ok (Dict.set name (Dir (Dict.set x (File c) d)) es).
Proof.
  intros Hget Hflat. unfold in_subdir. rewrite Hget.
  rewrite write_file_ok by (now apply flat_is_dir). reflexivity.
Qed.

Lemma write_metric_file_ok x c w :
  metrics_ready w ->
  exists w',
    top_op (in_subdir "metrics" (write_file x c)) w = (Ok tt, w')
    /\ metrics_ready w'
    /\ Dict.get x (metrics_dir w') = Some (File c)
    /\ forall other, other <> x ->
                     Dict.get other (metrics_dir w') = Dict.get other (metrics_dir w).
Proof.
  intros [Hok (d & Hget & Hflat)].
  unfold top_op. rewrite (in_subdir_write_ok _ _ _ _ _ Hget Hflat).
  eexists. split; [reflexivity|]. unfold metrics_ready, metrics_dir, subdir. simpl.
  rewrite dict_get_set_same, Hget. split; [|split].
  - split.
    + apply forallb_dict_set; [exact Hok|]. simpl. now rewrite flat_set_file.
    + eexists. split; [reflexivity|]. now apply flat_set_file.
  - apply dict_get_set_same.
  - intros other Hne. now apply dict_get_set_other.
Qed.

Section MetricFiles.

Variable now : string.
Variable all_results : corpus.

Lemma save_metric_ok metric w :
  metrics_ready w ->
  exists w',
    save_metric now all_results metric w = (Ok tt, w')
    /\ metrics_ready w'
    /\ Dict.get (fst metric ++ ".csv") (metrics_dir w')
       = Some (File (metric_table (snd metric) all_results))
    /\ forall other,
        other <> fst metric ++ ".csv" -> other <> fst metric ++ ".json" ->
        Dict.get other (metrics_dir w') = Dict.get other (metrics_dir w).
Proof.
  intros Hready. destruct metric as [metric_name metric_key]. unfold save_metric.
  simpl fst; simpl snd.
  destruct (write_metric_file_ok (metric_name ++ ".csv")
              (metric_table metric_key all_results) w Hready)
    as (w1 & E1 & R1 & G1 & O1).
  destruct (has_data metric_key all_results).
  - match goal with
    | |- context [write_file (metric_name ++ ".json") ?c] =>
        destruct (write_metric_file_ok (metric_name ++ ".json") c w1 R1)
          as (w2 & E2 & R2 & G2 & O2)
    end.
    exists w2. split; [|split; [exact R2|split]].
    + apply try_except_of_ok. erewrite bind_of_ok by exact E1. exact E2.
    + rewrite O2; [exact G1|]. apply csv_not_json.
    + intros other H1 H2. rewrite O2, O1; auto.
  - exists w1. split; [exact E1|]. split; [exact R1|]. split; [exact G1|].
    intros other H1 _. now apply O1.
Qed.

Lemma save_metrics_ok (metrics : list (string * string)) :
  forall w,
    NoDup (map fst metrics) ->
    metrics_ready w ->
    exists w',
      for_each metrics (save_metric now all_results) w = (Ok tt, w')
      /\ metrics_ready w'
      /\ (forall metric,
             In metric metrics ->
             Dict.get (fst metric ++ ".csv") (metrics_dir w')
             = Some (File (metric_table (snd metric) all_results)))
      /\ (forall other,
             (forall metric, In metric metrics ->
                             other <> fst metric ++ ".csv"
                             /\ other <> fst metric ++ ".json") ->
             Dict.get other (metrics_dir w') = Dict.get other (metrics_dir w)).
Proof.
  induction metrics as [|m metrics IH]; intros w Hnd Hready; simpl.
  - exists w. split; [reflexivity|]. split; [exact Hready|]. split; [intros ? []|auto].
  - inversion Hnd as [|? ? Hnotin Hnd']; subst.
    destruct (save_metric_ok m w Hready) as (w1 & E1 & R1 & G1 & O1).
    destruct (IH w1 Hnd' R1) as (w2 & E2 & R2 & G2 & O2).
    exists w2. split; [|split; [exact R2|split]].
    + erewrite bind_of_ok by exact E1. exact E2.
    + intros metric [<-|Hin]; [|now apply G2].
      rewrite O2; [exact G1|].
      intros m' Hm'. split.
      * intros H. apply string_app_inv_tail in H.
        apply Hnotin. rewrite H. now apply in_map.
      * apply csv_not_json.
    + intros other Hother. rewrite O2, O1.
      * reflexivity.
      * apply (Hother m). now left.
      * apply (Hother m). now left.
      * intros m' Hm'. apply Hother. now right.
Qed.

Lemma collect_and_save_metrics_ok w :
  batch_dir_ok (fs w) = true ->
  exists w',
    collect_and_save_metrics now all_results w = (Ok tt, w')
    /\ batch_dir_ok (fs w') = true
    /\ forall metric,
        In metric METRICS_TO_COLLECT ->
        Dict.get (fst metric ++ ".csv") (metrics_dir w')
        = Some (File (metric_table (snd metric) all_results)).
Proof.
  intros Hok. unfold collect_and_save_metrics.
  destruct (batch_dir_ok_metrics _ Hok) as (es1 & d & Emk & Hget & Hflat & Hok1 & _).
  erewrite bind_of_ok by (unfold top_op; rewrite Emk; reflexivity).
  assert (R0 : metrics_ready (set_fs es1 w)) by (split; [exact Hok1|eauto]).
  destruct (save_metrics_ok METRICS_TO_COLLECT _ metric_names_nodup R0)
    as (w1 & E1 & R1 & G1 & _).
  erewrite bind_of_ok by exact E1.
  match goal with
  | |- context [write_file "metrics_summary.txt" ?c] =>
      destruct (write_metric_file_ok "metrics_summary.txt" c w1 R1)
        as (w2 & E2 & R2 & _ & O2)
  end.
  exists w2. split; [|split; [apply R2|]].
  - apply try_except_of_ok. exact E2.
  - intros metric Hin. rewrite O2; [now apply G1|].
    intros H. apply (f_equal last_char) in H.
    rewrite last_char_app in H by discriminate. discriminate.
Qed.

End MetricFiles.

Local Open Scope list_scope.

Lemma dict_set_get_same {V} (k : string) (v : V) (d : list (string * V)) :
  Dict.get k d = Some v -> Dict.set k v d = d.
Proof.
  induction d as [|[k' v'] d IH]; simpl; [discriminate|].
  destruct (String.eqb k k') eqn:E.
  - apply String.eqb_eq in E. intros H. inversion H. now subst.
  - intros H. now rewrite IH.
Qed.

Lemma dict_get_app_notin {V} (k : string) (a b : list (string * V)) :
  Dict.get k a = None -> Dict.get k (a ++ b) = Dict.get k b.
Proof.
  induction a as [|[k' v'] a IH]; simpl; [reflexivity|].
  destruct (String.eqb k k'); [discriminate|exact IH].
Qed.

Lemma dict_set_app_notin {V} (k : string) (v : V) (a b : list (string * V)) :
  Dict.get k a = None -> Dict.set k v (a ++ b) = a ++ Dict.set k v b.
Proof.
  induction a as [|[k' v'] a IH]; simpl; [reflexivity|].
  destruct (String.eqb k k'); [discriminate|]. intros H. now rewrite IH.
Qed.

Lemma dict_get_snoc_other {V} (k k' : string) (v : V) (a : list (string * V)) :
  Dict.get k a = None -> k <> k' -> Dict.get k (a ++ [(k', v)]) = None.
Proof.
  intros Ha Hne. rewrite dict_get_app_notin by assumption. simpl.
  destruct (String.eqb k k') eqn:E; [|reflexivity].
  apply String.eqb_eq in E. contradiction.
Qed.

Lemma init_results_acc (solvers : list string) :
  forall acc,
    NoDup (map simple_name solvers) ->
    (forall s, In s solvers -> Dict.get (simple_name s) acc = None) ->
    fold_left (fun d solver_name => Dict.set (simple_name solver_name) [] d) solvers acc
    = acc ++ map (fun s => (simple_name s, @nil record)) solvers.
Proof.
  induction solvers as [|s solvers IH]; intros acc Hnd Hacc; simpl.
  - now rewrite app_nil_r.
  - inversion Hnd as [|? ? Hnotin Hnd']; subst.
    rewrite IH; [| exact Hnd' |].
    + pose proof (dict_set_app_notin (simple_name s) (@nil record) acc []
                    (Hacc s (or_introl eq_refl))) as E.
      rewrite app_nil_r in E. rewrite E. simpl. now rewrite <- app_assoc.
    + intros s' Hs'.
      pose proof (dict_set_app_notin (simple_name s) (@nil record) acc []
                    (Hacc s (or_introl eq_refl))) as E.
      rewrite app_nil_r in E. rewrite E. simpl.
      apply dict_get_snoc_other; [apply Hacc; now right|].
      intros Heq. apply Hnotin. rewrite <- Heq. now apply in_map.
Qed.

Lemma init_results_nodup (solvers : list string) :
  NoDup (map simple_name solvers) ->
  init_results solvers = map (fun s => (simple_name s, @nil record)) solvers.
Proof.
  intros H. unfold init_results. now rewrite init_results_acc.
Qed.

Lemma append_result_ok simple r bs old :
  Dict.get simple (bs_results bs) = Some old ->
  append_result simple r bs
  = (Ok tt, set_results (Dict.set simple (old ++ [r]) (bs_results bs)) bs).
Proof. intros H. unfold append_result. now rewrite H. Qed.

Section BatchResilience.

Variable engine_main : namespace -> entries -> engine_result.
Variable now : string.
Variable execute : string -> Z -> string -> nat -> M world record.

Hypothesis execute_keeps_dir :
  forall solver_name num_slots output_dir run_idx w,
    batch_dir_ok (fs w) = true ->
    batch_dir_ok (fs (snd (execute solver_name num_slots output_dir run_idx w))) = true.

Hypothesis execute_nonempty :
  forall solver_name num_slots output_dir run_idx w r w',
    execute solver_name num_slots output_dir run_idx w = (Ok r, w') -> r <> [].

Lemma on_run_error_ok solver_name simple num_slots solver_results run_idx e bs old :
  batch_dir_ok (fs (bs_world bs)) = true ->
  Dict.get simple (bs_results bs) = Some old ->
  exists bs',
    on_run_error now solver_name simple num_slots solver_results run_idx e bs
    = (Ok (solver_results ++ [run_error_result solver_name run_idx num_slots e]), bs')
    /\ bs_results bs'
       = Dict.set simple (old ++ [run_error_result solver_name run_idx num_slots e])
                  (bs_results bs)
    /\ batch_dir_ok (fs (bs_world bs')) = true.
Proof.
  intros Hok Hget. unfold on_run_error. cbv zeta.
  erewrite bind_of_ok by (apply append_result_ok; exact Hget).
  match goal with
  | |- context [top_op (write_file ?name ?c)] =>
      destruct (top_write_ok name c (bs_world bs) Hok (error_log_name simple (run_idx + 1)))
        as [Ew Hok']
  end.
  erewrite bind_of_ok
    by (unfold lift_world; cbn [bs_world set_results]; rewrite Ew; reflexivity).
  erewrite bind_of_ok by reflexivity.
  eexists. split; [reflexivity|]. simpl. split; [reflexivity|exact Hok'].
Qed.

Lemma run_once_ok solver_name simple num_slots output_dir solver_results run_idx bs old :
  batch_dir_ok (fs (bs_world bs)) = true ->
  Dict.get simple (bs_results bs) = Some old ->
  exists r bs',
    run_once now execute solver_name simple num_slots output_dir solver_results run_idx bs
    = (Ok (solver_results ++ [r]), bs')
    /\ run_record execute solver_name num_slots output_dir run_idx r
    /\ bs_results bs' = Dict.set simple (old ++ [r]) (bs_results bs)
    /\ batch_dir_ok (fs (bs_world bs')) = true.
Proof.
  intros Hok Hget. unfold run_once.
  pose proof (execute_keeps_dir solver_name num_slots output_dir run_idx _ Hok) as Hok1.
  destruct (execute solver_name num_slots output_dir run_idx (bs_world bs))
    as [[r0|e] w1] eqn:Ex; simpl in Hok1.
  - assert (Hnil : is_nil r0 = false).
    { destruct r0; [|reflexivity]. exfalso. eapply execute_nonempty; eauto. }
    destruct (inject_ratio r0) as [r|e] eqn:Ei.
    + exists r. eexists. split; [|split; [|split]].
      * apply try_except_of_ok.
        erewrite bind_of_ok by (unfold lift_world; rewrite Ex; reflexivity).
        rewrite Hnil.
        erewrite bind_of_ok by (unfold lift_result; rewrite Ei; reflexivity).
        erewrite bind_of_ok by (apply append_result_ok; exact Hget).
        reflexivity.
      * eapply run_genuine; eauto.
      * reflexivity.
      * exact Hok1.
    + destruct (on_run_error_ok solver_name simple num_slots solver_results run_idx e
                  (set_world w1 bs) old Hok1 Hget) as (bs' & Eh & Hres & Hok').
      eexists. exists bs'. split; [|split; [|split]].
      * erewrite try_except_of_raise; [exact Eh|].
        erewrite bind_of_ok by (unfold lift_world; rewrite Ex; reflexivity).
        rewrite Hnil.
        apply bind_of_raise. unfold lift_result. rewrite Ei. reflexivity.
      * eapply run_post_raised; eauto.
      * exact Hres.
      * exact Hok'.
  - destruct (on_run_error_ok solver_name simple num_slots solver_results run_idx e
                (set_world w1 bs) old Hok1 Hget) as (bs' & Eh & Hres & Hok').
    eexists. exists bs'. split; [|split; [|split]].
    + erewrite try_except_of_raise; [exact Eh|].
      apply bind_of_raise. unfold lift_world. rewrite Ex. reflexivity.
    + eapply run_raised; eauto.
    + exact Hres.
    + exact Hok'.
Qed.

Lemma run_loop_ok solver_name simple num_slots output_dir runs :
  forall solver_results bs old,
    batch_dir_ok (fs (bs_world bs)) = true ->
    Dict.get simple (bs_results bs) = Some old ->
    exists rs bs',
      run_loop now execute solver_name simple num_slots output_dir runs solver_results bs
      = (Ok (solver_results ++ rs), bs')
      /\ Forall2 (run_record execute solver_name num_slots output_dir) runs rs
      /\ bs_results bs' = Dict.set simple (old ++ rs) (bs_results bs)
      /\ batch_dir_ok (fs (bs_world bs')) = true.
Proof.
  induction runs as [|i runs IH]; intros solver_results bs old Hok Hget; simpl.
  - exists [], bs. rewrite !app_nil_r.
    split; [reflexivity|]. split; [constructor|].
    split; [symmetry; now apply dict_set_get_same|exact Hok].
  - destruct (run_once_ok solver_name simple num_slots output_dir solver_results i bs old
                Hok Hget) as (r & bs1 & E1 & Hr & Hres1 & Hok1).
    destruct (IH (solver_results ++ [r]) bs1 (old ++ [r]) Hok1)
      as (rs & bs2 & E2 & Hrs & Hres2 & Hok2).
    { rewrite Hres1. apply dict_get_set_same. }
    exists (r :: rs), bs2. split; [|split; [|split]].
    + erewrite bind_of_ok by exact E1. rewrite E2.
      now rewrite <- app_assoc.
    + now constructor.
    + rewrite Hres2, Hres1, dict_set_set_same. now rewrite <- app_assoc.
    + exact Hok2.
Qed.

Lemma summary_json_name (simple : string) :
  ends_digit (simple ++ "_summary.json")%string = false
  /\ (simple ++ "_summary.json")%string <> "metrics".
Proof. apply suffix_file_name; [discriminate|reflexivity|discriminate]. Qed.

Lemma run_solver_block_ok num_runs num_slots output_dir solver_name bs old :
  batch_dir_ok (fs (bs_world bs)) = true ->
  Dict.get (simple_name solver_name) (bs_results bs) = Some old ->
  exists rs bs',
    run_solver_block now execute num_runs num_slots output_dir solver_name bs
    = (Ok tt, bs')
    /\ Forall2 (run_record execute solver_name num_slots output_dir) (seq 0 num_runs) rs
    /\ bs_results bs' = Dict.set (simple_name solver_name) (old ++ rs) (bs_results bs)
    /\ batch_dir_ok (fs (bs_world bs')) = true.
Proof.
  intros Hok Hget. unfold run_solver_block. cbv zeta.
  destruct (run_loop_ok solver_name (simple_name solver_name) num_slots output_dir
              (seq 0 num_runs) [] bs old Hok Hget)
    as (rs & bs1 & El & Hrs & Hres & Hok1).
  simpl in El.
  destruct (is_nil rs) eqn:En.
  - exists rs, bs1. split; [|auto].
    apply try_except_of_ok. erewrite bind_of_ok by exact El. now rewrite En.
  - destruct (top_write_ok (simple_name solver_name ++ "_summary.json")%string
                (Json (VList (map VDict rs))) (bs_world bs1) Hok1
                (summary_json_name (simple_name solver_name))) as [Ew Hok'].
    exists rs. eexists. split; [|split; [exact Hrs|split]].
    + apply try_except_of_ok. erewrite bind_of_ok by exact El. rewrite En.
      unfold lift_world. rewrite Ew. reflexivity.
    + exact Hres.
    + exact Hok'.
Qed.

Lemma solver_loop_ok num_runs num_slots output_dir solvers :
  forall done bs,
    NoDup (map simple_name solvers) ->
    (forall s, In s solvers -> Dict.get (simple_name s) done = None) ->
    bs_results bs = done ++ map (fun s => (simple_name s, @nil record)) solvers ->
    batch_dir_ok (fs (bs_world bs)) = true ->
    exists sets bs',
      for_each solvers (run_solver_block now execute num_runs num_slots output_dir) bs
      = (Ok tt, bs')
      /\ Forall2 (solver_set execute num_slots output_dir num_runs) solvers sets
      /\ bs_results bs' = done ++ sets
      /\ batch_dir_ok (fs (bs_world bs')) = true.
Proof.
  induction solvers as [|s solvers IH]; intros done bs Hnd Hdone Hres Hok; simpl.
  - exists [], bs. split; [reflexivity|]. split; [constructor|]. auto.
  - inversion Hnd as [|? ? Hnotin Hnd']; subst.
    assert (Hget : Dict.get (simple_name s) (bs_results bs) = Some []).
    { rewrite Hres, dict_get_app_notin by (apply Hdone; now left).
      simpl. now rewrite String.eqb_refl. }
    destruct (run_solver_block_ok num_runs num_slots output_dir s bs [] Hok Hget)
      as (rs & bs1 & E1 & Hrs & Hres1 & Hok1).
    destruct (IH (done ++ [(simple_name s, rs)]) bs1 Hnd') as (sets & bs2 & E2 & Hsets & Hres2 & Hok2).
    + intros s' Hs'. apply dict_get_snoc_other; [apply Hdone; now right|].
      intros Heq. apply Hnotin. rewrite <- Heq. now apply in_map.
    + rewrite Hres1, Hres. simpl map.
      rewrite dict_set_app_notin by (apply Hdone; now left).
      simpl. rewrite String.eqb_refl. now rewrite <- app_assoc.
    + exact Hok1.
    + exists ((simple_name s, rs) :: sets), bs2.
      split; [|split; [|split]].
      * erewrite bind_of_ok by exact E1. exact E2.
      * constructor; [|exact Hsets]. split; [reflexivity|exact Hrs].
      * rewrite Hres2. now rewrite <- app_assoc.
      * exact Hok2.
Qed.

Lemma reconcile_ok num_slots output_dir solver_name bs :
  batch_dir_ok (fs (bs_world bs)) = true ->
  exists bs',
    reconcile engine_main now num_slots output_dir solver_name bs = (Ok tt, bs')
    /\ bs_results bs' = bs_results bs
    /\ batch_dir_ok (fs (bs_world bs')) = true.
Proof.
  intros Hok. unfold reconcile. cbv zeta.
  destruct (solver_executed _ _); [eauto|].
  assert (Hd : ends_digit (simple_name solver_name ++ "_run_1")%string = true)
    by (rewrite ends_digit_app by discriminate; reflexivity).
  destruct (makedirs _ _) as [fs1|e] eqn:Emk.
  - pose proof (batch_dir_ok_makedirs _ _ _ Hok Hd Emk) as Hok1.
    destruct (direct_body _ _ _ _ _ _ _) as [[[]|e] st'];
      eexists; (split; [reflexivity|]); simpl;
        (split; [reflexivity|]); now apply batch_dir_ok_set_run_dir.
  - eexists. split; [reflexivity|]. simpl. auto.
Qed.

Lemma reconcile_all_ok num_slots output_dir solvers :
  forall bs,
    batch_dir_ok (fs (bs_world bs)) = true ->
    exists bs',
      for_each solvers (reconcile engine_main now num_slots output_dir) bs = (Ok tt, bs')
      /\ bs_results bs' = bs_results bs
      /\ batch_dir_ok (fs (bs_world bs')) = true.
Proof.
  induction solvers as [|s solvers IH]; intros bs Hok; simpl.
  - exists bs. auto.
  - destruct (reconcile_ok num_slots output_dir s bs Hok) as (bs1 & E1 & R1 & Hok1).
    destruct (IH bs1 Hok1) as (bs2 & E2 & R2 & Hok2).
    exists bs2. split; [|split; [congruence|exact Hok2]].
    erewrite bind_of_ok by exact E1. exact E2.
Qed.

Lemma export_metrics_ok bs :
  batch_dir_ok (fs (bs_world bs)) = true ->
  exists bs',
    export_metrics now bs = (Ok tt, bs')
    /\ bs_results bs' = bs_results bs
    /\ batch_dir_ok (fs (bs_world bs')) = true
    /\ (total_results (bs_results bs) <> 0%nat ->
        metrics_exported (bs_results bs) (bs_world bs')).
Proof.
  intros Hok. unfold export_metrics, bind, gets. simpl.
  destruct (Nat.eqb (total_results (bs_results bs)) 0) eqn:E.
  - apply Nat.eqb_eq in E. exists bs. repeat split; auto. intros H. contradiction.
  - destruct (collect_and_save_metrics_ok now (bs_results bs) (bs_world bs) Hok)
      as (w' & Ec & Hok' & Hex).
    exists (set_world w' bs). split; [|repeat split; auto].
    apply try_except_of_ok. unfold lift_world. now rewrite Ec.
Qed.

Lemma total_results_acc (all_results : corpus) :
  forall n,
    fold_left (fun n (sr : string * list record) => (n + List.length (snd sr))%nat)
              all_results n
    = (n + total_results all_results)%nat.
Proof.
  unfold total_results.
  induction all_results as [|sr rest IH]; intros n; simpl; [lia|].
  rewrite IH, (IH (List.length (snd sr))). lia.
Qed.

Lemma total_results_sets num_slots output_dir num_runs solvers sets :
  Forall2 (solver_set execute num_slots output_dir num_runs) solvers sets ->
  total_results sets = (List.length solvers * num_runs)%nat.
Proof.
  induction 1 as [|s sr solvers sets [_ Hrs] _ IH]; [reflexivity|].
  unfold total_results. simpl. rewrite total_results_acc, IH.
  apply Forall2_length in Hrs. rewrite length_seq in Hrs. lia.
Qed.

Lemma metrics_dir_set_file name c w :
  name <> "metrics"%string ->
  metrics_dir (set_fs (Dict.set name (File c) (fs w)) w) = metrics_dir w.
Proof.
  intros H. unfold metrics_dir, subdir. simpl.
  rewrite dict_get_set_other by congruence. reflexivity.
Qed.

Lemma main_with_ok solvers num_runs num_slots output_dir w :
  NoDup (map simple_name solvers) ->
  batch_dir_ok (fs w) = true ->
  exists bs',
    main_with engine_main now execute solvers num_runs num_slots output_dir (start w)
    = (Ok tt, bs')
    /\ Forall2 (solver_set execute num_slots output_dir (Z.to_nat num_runs))
               solvers (bs_results bs')
    /\ batch_dir_ok (fs (bs_world bs')) = true
    /\ (solvers <> [] -> (0 < num_runs)%Z ->
        metrics_exported (bs_results bs') (bs_world bs')).
Proof.
  intros Hnd Hok. unfold main_with, solver_loop.
  set (bs0 := set_results (init_results solvers) (start w)).
  assert (E0 : modify (set_results (init_results solvers)) (start w) = (Ok tt, bs0))
    by reflexivity.
  erewrite bind_of_ok by exact E0.
  destruct (solver_loop_ok (Z.to_nat num_runs) num_slots output_dir solvers [] bs0 Hnd)
    as (sets & bs1 & E1 & Hsets & Hres1 & Hok1).
  { intros; reflexivity. }
  { unfold bs0. simpl. now apply init_results_nodup. }
  { exact Hok. }
  simpl in Hres1.
  erewrite bind_of_ok by exact E1.
  destruct (reconcile_all_ok num_slots output_dir solvers bs1 Hok1)
    as (bs2 & E2 & Hres2 & Hok2).
  erewrite bind_of_ok by exact E2.
  destruct (export_metrics_ok bs2 Hok2) as (bs3 & E3 & Hres3 & Hok3 & Hex).
  erewrite bind_of_ok by exact E3.
  unfold bind at 1, gets. cbv beta iota.
  rewrite Hres1 in Hres2. rewrite Hres2 in Hres3, Hex. rewrite Hres3.
  match goal with
  | |- context [write_file "experiment_config.json"%string ?c] =>
      destruct (top_write_ok "experiment_config.json"%string c (bs_world bs3) Hok3)
        as [Ew Hok4]
  end.
  { split; [reflexivity|discriminate]. }
  eexists. split; [unfold lift_world; rewrite Ew; reflexivity|].
  simpl. rewrite Hres3.
  split; [exact Hsets|]. split; [exact Hok4|].
  intros Hne Hpos. unfold metrics_exported.
  rewrite metrics_dir_set_file by discriminate.
  apply Hex.
  rewrite (total_results_sets _ _ _ _ _ Hsets).
  destruct solvers; [congruence|]. simpl. lia.
Qed.

Lemma run_record_always_raises solver_name num_slots output_dir run_idx r :
  always_raises execute solver_name num_slots output_dir ->
  run_record execute solver_name num_slots output_dir run_idx r ->
  error_tagged r.
Proof.
  intros Hal H.
  assert (Herr : forall e, error_tagged (run_error_result solver_name run_idx num_slots e))
    by (intros e; repeat split).
  destruct H as [w w' r0 r He _|w w' e _|w w' r0 e He _]; [|apply Herr|];
    destruct (Hal run_idx w) as (e' & w'' & He'); congruence.
Qed.

Lemma run_record_never_fails solver_name num_slots output_dir run_idx r :
  never_fails execute solver_name num_slots output_dir ->
  run_record execute solver_name num_slots output_dir run_idx r ->
  genuine execute solver_name num_slots output_dir r.
Proof.
  intros Hnf H.
  destruct H as [w w' r0 r He Hi|w w' e He|w w' r0 e He Hi].
  - exists run_idx, w, w', r0. auto.
  - destruct (Hnf run_idx w) as (r0 & r & w'' & He' & _). congruence.
  - destruct (Hnf run_idx w) as (r1 & r & w'' & He' & Hi'). congruence.
Qed.

Lemma degraded_sets num_slots output_dir num_runs failing solvers sets :
  always_raises execute failing num_slots output_dir ->
  (forall s, In s solvers -> s <> failing ->
             never_fails execute s num_slots output_dir) ->
  Forall2 (solver_set execute num_slots output_dir num_runs) solvers sets ->
  Forall2 (degraded_set execute num_slots output_dir num_runs failing) solvers sets.
Proof.
  intros Hal Hnf H. induction H as [|s sr solvers sets [Hname Hrs] _ IH]; constructor.
  - split; [exact Hname|]. split.
    + apply Forall2_length in Hrs. now rewrite length_seq in Hrs.
    + destruct (String.eqb s failing) eqn:E.
      * apply String.eqb_eq in E. subst.
        induction Hrs; constructor; eauto using run_record_always_raises.
      * apply String.eqb_neq in E.
        assert (Hs : never_fails execute s num_slots output_dir)
          by (apply Hnf; [now left|exact E]).
        induction Hrs; constructor; eauto using run_record_never_fails.
  - apply IH. intros s' Hin. apply Hnf. now right.
Qed.


End BatchResilience.

(** ** The run executor as the coordinator's executor *)

Lemma run_experiment_keeps_dir engine_main py_str now
      solver_name num_slots output_dir run_idx w :
  batch_dir_ok (fs w) = true ->
  batch_dir_ok
    (fs (snd (run_experiment_for_solver engine_main py_str now solver_name num_slots
                                        output_dir run_idx w))) = true.
Proof.
  intros Hok. unfold run_experiment_for_solver.
  pose proof (run_dir_name_ends_digit (simple_name solver_name) run_idx) as Hd.
  destruct (makedirs _ _) as [fs1|e] eqn:Emk; [|exact Hok].
  destruct (run_body _ _ _ _ _ _ _ _) as [r st']. simpl.
  apply batch_dir_ok_set_run_dir; [|exact Hd].
  eapply batch_dir_ok_makedirs; eauto.
Qed.

Lemma dict_set_nonempty {V} (k : string) (v : V) (d : list (string * V)) :
  Dict.set k v d <> [].
Proof. destruct d as [|[k' v'] d]; simpl; [|destruct (String.eqb k k')]; discriminate. Qed.

Lemma run_experiment_nonempty engine_main py_str now
      solver_name num_slots output_dir run_idx w r w' :
  run_experiment_for_solver engine_main py_str now solver_name num_slots output_dir
                            run_idx w = (Ok r, w') ->
  r <> [].
Proof.
  intros H. apply run_experiment_shape in H.
  destruct H as [[d ->]|[->|[e ->]]]; [apply dict_set_nonempty|discriminate..].
Qed.

Lemma flaky_execute_keeps_dir solver_name num_slots output_dir run_idx w :
  batch_dir_ok (fs w) = true ->
  batch_dir_ok
    (fs (snd (Samples.flaky_execute solver_name num_slots output_dir run_idx w))) = true.
Proof.
  intros H. unfold Samples.flaky_execute.
  destruct (String.eqb solver_name "solvers.B.B"); exact H.
Qed.

Lemma flaky_execute_nonempty solver_name num_slots output_dir run_idx w r w' :
  Samples.flaky_execute solver_name num_slots output_dir run_idx w = (Ok r, w') ->
  r <> [].
Proof.
  unfold Samples.flaky_execute.
  destruct (String.eqb solver_name "solvers.B.B"); intros H; inversion H; discriminate.
Qed.

Lemma flaky_execute_raises num_slots output_dir :
  always_raises Samples.flaky_execute "solvers.B.B" num_slots output_dir.
Proof. intros run_idx w. now exists (Exn "RuntimeError" "boom"), w. Qed.

Lemma flaky_execute_returns solver_name num_slots output_dir :
  solver_name <> "solvers.B.B" ->
  never_fails Samples.flaky_execute solver_name num_slots output_dir.
Proof.
  intros H run_idx w. unfold Samples.flaky_execute.
  apply String.eqb_neq in H. rewrite H.
  eexists _, _, w. split; reflexivity.
Qed.

(** [main] itself, over [run_experiment_for_solver]. *)
Lemma main_completes engine_main py_str now solvers num_runs num_slots output_dir w :
  NoDup (map simple_name solvers) ->
  batch_dir_ok (fs w) = true ->
  exists bs',
    main engine_main py_str now solvers num_runs num_slots output_dir (start w)
    = (Ok tt, bs')
    /\ Forall2 (solver_set (run_experiment_for_solver engine_main py_str now)
                           num_slots output_dir (Z.to_nat num_runs))
               solvers (bs_results bs')
    /\ (solvers <> [] -> (0 < num_runs)%Z ->
        metrics_exported (bs_results bs') (bs_world bs')).
Proof.
  intros Hnd Hok. unfold main.
  destruct (main_with_ok engine_main now (run_experiment_for_solver engine_main py_str now)
              (run_experiment_keeps_dir engine_main py_str now)
              (run_experiment_nonempty engine_main py_str now)
              solvers num_runs num_slots output_dir w Hnd Hok)
    as (bs' & E & Hsets & _ & Hex).
  exists bs'. auto.
Qed.


(* ================================================================== *)
(** * Further properties of the harness *)

Local Open Scope string_scope.

(** ** Short names and run directory names *)

Lemma dot_free_app (a b : string) :
  dot_free (a ++ b) = dot_free a && dot_free b.
Proof.
  induction a as [|c a IH]; simpl; [reflexivity|].
  rewrite IH. now rewrite andb_assoc.
Qed.

Lemma split_last_spec (s : string) :
  forall acc,
    dot_free acc = true ->
    dot_free (split_last acc s) = true
    /\ exists prefix,
        acc ++ s = prefix ++ split_last acc s
        /\ (prefix = "" \/ exists p, prefix = p ++ ".").
Proof.
  induction s as [|c s IH]; intros acc Hacc; simpl.
  - split; [exact Hacc|]. exists "". split; [now rewrite string_app_nil_r|now left].
  - destruct (Ascii.eqb c ".") eqn:E.
    + apply Ascii.eqb_eq in E. subst c.
      destruct (IH "" eq_refl) as (Hfree & prefix & Heq & Hp).
      split; [exact Hfree|].
      exists (acc ++ "." ++ prefix). simpl in Heq. split.
      * rewrite string_app_assoc. simpl. now rewrite <- Heq.
      * right. destruct Hp as [->|(p & ->)].
        -- exists acc. reflexivity.
        -- exists (acc ++ "." ++ p). now rewrite !string_app_assoc.
    + destruct (IH (acc ++ String c "")) as (Hfree & prefix & Heq & Hp).
      { rewrite dot_free_app, Hacc. simpl. now rewrite E. }
      split; [exact Hfree|].
      exists prefix. split; [|exact Hp].
      rewrite <- Heq. now rewrite string_app_assoc.
Qed.

Lemma split_last_dot_free (s : string) :
  forall acc, dot_free s = true -> split_last acc s = acc ++ s.
Proof.
  induction s as [|c s IH]; intros acc H; simpl.
  - now rewrite string_app_nil_r.
  - simpl in H. apply andb_true_iff in H. destruct H as [Hc Hs].
    apply negb_true_iff in Hc. rewrite Hc, IH by exact Hs.
    now rewrite string_app_assoc.
Qed.

Lemma split_last_after_dot (a b : string) :
  forall acc, split_last acc (a ++ "." ++ b) = split_last "" b.
Proof.
  induction a as [|c a IH]; intros acc; simpl; [reflexivity|].
  destruct (Ascii.eqb c "."); apply IH.
Qed.

(** X1.  The short name of a solver, [solver_name.split('.')[-1]], is the
    part of the identifier after its last dot: it contains no dot, the
    identifier is the short name behind a prefix that is empty or ends in
    a dot, a name without a dot is its own short name, and whatever
    precedes a dot is dropped. *)
Theorem simple_name_last_segment :
  forall solver_name,
    dot_free (simple_name solver_name) = true
    /\ (exists prefix,
           solver_name = prefix ++ simple_name solver_name
           /\ (prefix = "" \/ exists p, prefix = p ++ "."))
    /\ (dot_free solver_name = true -> simple_name solver_name = solver_name)
    /\ (forall package,
           simple_name (package ++ "." ++ solver_name) = simple_name solver_name).
Proof.
  intros solver_name. unfold simple_name.
  destruct (split_last_spec solver_name "" eq_refl) as (Hfree & Hprefix).
  split; [exact Hfree|]. split; [exact Hprefix|]. split.
  - intros H. now rewrite split_last_dot_free.
  - intros package. apply split_last_after_dot.
Qed.

Lemma all_digits_app (a b : string) :
  all_digits (a ++ b) = all_digits a && all_digits b.
Proof.
  induction a as [|c a IH]; simpl; [reflexivity|].
  rewrite IH. now rewrite andb_assoc.
Qed.

Lemma string_app_tail_split (c : string) :
  forall a b d,
    a ++ b = c ++ d ->
    (String.length b <= String.length d)%nat ->
    exists x, d = x ++ b /\ a = c ++ x.
Proof.
  induction c as [|ch c IH]; intros a b d H Hlen; simpl in H.
  - exists a. split; [now symmetry|reflexivity].
  - destruct a as [|ch' a]; simpl in H.
    + exfalso. subst b. simpl in Hlen. rewrite string_length_app in Hlen. lia.
    + inversion H; subst. destruct (IH a b d H2 Hlen) as (x & Hd & Ha).
      exists x. split; [exact Hd|]. simpl. now rewrite Ha.
Qed.

Lemma str_nat_all_digits (n : nat) : all_digits (str_nat n) = true.
Proof. apply string_of_uint_digits. Qed.

Lemma str_nat_inj (n m : nat) : str_nat n = str_nat m -> n = m.
Proof.
  unfold str_nat. intros H.
  apply (f_equal NilEmpty.uint_of_string) in H.
  rewrite !NilEmpty.usu in H. inversion H as [H'].
  now apply DecimalNat.Unsigned.to_uint_inj.
Qed.

Lemma run_suffix_shorter (s1 s2 d1 d2 : string) :
  all_digits d2 = true ->
  (String.length d1 <= String.length d2)%nat ->
  s1 ++ "_run_" ++ d1 = s2 ++ "_run_" ++ d2 ->
  s1 = s2 /\ d1 = d2.
Proof.
  intros Hd2 Hlen H.
  rewrite <- !string_app_assoc in H.
  destruct (string_app_tail_split _ _ _ _ H Hlen) as (x & Hd & Hs).
  destruct x as [|ch x].
  - simpl in Hd. rewrite string_app_nil_r in Hs.
    apply string_app_inv_tail in Hs. now split.
  - exfalso. rewrite Hd, all_digits_app in Hd2.
    apply andb_true_iff in Hd2. destruct Hd2 as [Hx _].
    apply all_digits_last in Hx; [|discriminate].
    apply (f_equal last_char) in Hs.
    rewrite last_char_app in Hs by discriminate.
    rewrite last_char_app in Hs by discriminate.
    unfold ends_digit in Hx. rewrite <- Hs in Hx. discriminate.
Qed.

(** X2.  Run directories never collide: the name
    [<short name>_run_<run index + 1>] determines both the short name and
    the run index, so two runs share a directory only when they are the
    same run of solvers with the same short name. *)
Theorem run_dir_name_injective :
  forall simple1 simple2 run_idx1 run_idx2,
    run_dir_name simple1 run_idx1 = run_dir_name simple2 run_idx2 ->
    simple1 = simple2 /\ run_idx1 = run_idx2.
Proof.
  intros s1 s2 i1 i2 H. unfold run_dir_name in H.
  assert (Hgoal : s1 = s2 /\ str_nat (i1 + 1) = str_nat (i2 + 1)).
  { destruct (Nat.le_ge_cases (String.length (str_nat (i1 + 1)))
                              (String.length (str_nat (i2 + 1)))) as [Hle|Hle].
    - apply run_suffix_shorter; [apply str_nat_all_digits|exact Hle|exact H].
    - symmetry in H.
      destruct (run_suffix_shorter s2 s1 _ _ (str_nat_all_digits _) Hle H).
      split; congruence. }
  destruct Hgoal as [Hs Hn]. split; [exact Hs|].
  apply str_nat_inj in Hn. lia.
Qed.

Lemma run_dir_name_injective_witness :
  run_dir_name "A" 0 = run_dir_name "A" 0 /\ "A" = "A" /\ 0%nat = 0%nat.
Proof.
  split; [reflexivity|].
  apply (run_dir_name_injective "A" "A" 0 0). reflexivity.
Defined.

(** ** The derived ratio *)

Lemma inject_ratio_cases (r : record) :
  inject_ratio r = Ok r
  \/ (exists v, inject_ratio r = Ok (Dict.set "C_mean_avg_delay_ratio" v r)
                /\ Dict.mem "C_mean" r = true /\ Dict.mem "avg_delay_mean" r = true)
  \/ (exists k v m,
         inject_ratio r = Raise (TypeError m)
         /\ In k ["C_mean"; "avg_delay_mean"]
         /\ Dict.get k r = Some v /\ as_num v = None).
Proof.
  unfold inject_ratio, Dict.mem, py_getitem, py_gt0, py_div.
  destruct (Dict.get "C_mean" r) as [vc|] eqn:Ec; [|now left].
  destruct (Dict.get "avg_delay_mean" r) as [vd|] eqn:Ed; [|now left].
  simpl.
  destruct (as_num vd) as [d|] eqn:End.
  - simpl. destruct (Qlt_le_dec 0 d) as [Hpos|Hle].
    + destruct (as_num vc) as [c|] eqn:Enc.
      * destruct (Qeq_bool d 0) eqn:E.
        -- apply Qeq_bool_iff in E. rewrite E in Hpos.
           exfalso. revert Hpos. apply Qlt_irrefl.
        -- right. left. eexists. simpl. auto.
      * right. right. exists "C_mean", vc. eexists.
        simpl. split; [reflexivity|]. auto.
    + right. left. eexists. simpl. auto.
  - right. right. exists "avg_delay_mean", vd. eexists.
    simpl. split; [reflexivity|]. auto.
Qed.

Lemma inject_ratio_stable (v : value) (r : record) :
  inject_ratio r = Ok (Dict.set "C_mean_avg_delay_ratio" v r) ->
  inject_ratio (Dict.set "C_mean_avg_delay_ratio" v r)
  = Ok (Dict.set "C_mean_avg_delay_ratio" v r).
Proof.
  unfold inject_ratio, Dict.mem, py_getitem, py_gt0, py_div.
  rewrite !(dict_get_set_other "C_mean_avg_delay_ratio") by discriminate.
  destruct (Dict.get "C_mean" r) as [vc|] eqn:Ec;
    [|simpl; intros _; reflexivity].
  destruct (Dict.get "avg_delay_mean" r) as [vd|] eqn:Ed;
    [|simpl; intros _; reflexivity].
  simpl.
  destruct (as_num vd) as [d|]; [|discriminate]. simpl.
  destruct (Qlt_le_dec 0 d).
  - destruct (as_num vc) as [c|]; [|discriminate].
    destruct (Qeq_bool d 0); [discriminate|].
    simpl. intros H. now rewrite dict_set_set_same.
  - simpl. intros H. now rewrite dict_set_set_same.
Qed.


(** ** What escapes a computation *)

Section RaisesOnly.

Context {S : Type}.

Lemma raises_only_ret {A} (Q : exn -> Prop) (a : A) : raises_only Q (@ret S A a).
Proof. intros s e s' H. discriminate. Qed.

Lemma raises_only_bind {A B} (Q : exn -> Prop) (m : M S A) (k : A -> M S B) :
  raises_only Q m -> (forall a, raises_only Q (k a)) -> raises_only Q (bind m k).
Proof.
  intros Hm Hk s e s' H. apply bind_raise in H.
  destruct H as [H|(a & s1 & _ & H)]; [eapply Hm|eapply Hk]; eauto.
Qed.

Lemma raises_only_try_except {A} (Q : exn -> Prop) (m : M S A) (h : exn -> M S A) :
  (forall e, raises_only Q (h e)) -> raises_only Q (try_except m h).
Proof.
  intros Hh s e s' H. apply try_except_raise in H.
  destruct H as (e0 & s1 & _ & H). eapply Hh; eauto.
Qed.

Lemma raises_only_weaken {A} (Q Q' : exn -> Prop) (m : M S A) :
  (forall e, Q e -> Q' e) -> raises_only Q m -> raises_only Q' m.
Proof. intros HQ Hm s e s' H. apply HQ. eapply Hm; eauto. Qed.

End RaisesOnly.

Lemma write_file_raise name c es e :
  write_file name c es = Raise e -> e = OSError "IsADirectoryError" name.
Proof.
  unfold write_file. destruct (Dict.get name es) as [[|]|]; intros H; now inversion H.
Qed.

Lemma append_file_raise name t es e :
  append_file name t es = Raise e -> e = OSError "IsADirectoryError" name.
Proof.
  unfold append_file. destruct (Dict.get name es) as [[|]|]; intros H; now inversion H.
Qed.

Lemma makedirs_raise name es e :
  makedirs name es = Raise e ->
  e = OSError "FileExistsError" name /\ exists c, Dict.get name es = Some (File c).
Proof.
  unfold makedirs. destruct (Dict.get name es) as [[|]|]; intros H; inversion H; eauto.
Qed.

Lemma raises_only_fs_write names name c :
  In name names -> raises_only (blocked_by_dir names) (fs_op (write_file name c)).
Proof.
  intros Hin st e st' H. unfold fs_op in H.
  destruct (write_file name c (rs_dir st)) eqn:E; inversion H; subst.
  exists name. split; [exact Hin|]. eapply write_file_raise; eauto.
Qed.

Lemma raises_only_log_append names t :
  In "experiment_log.txt" names -> raises_only (blocked_by_dir names) (log_append t).
Proof.
  intros Hin st e st' H. unfold log_append, fs_op in H.
  destruct (append_file _ t (rs_dir st)) eqn:E; inversion H; subst.
  exists "experiment_log.txt". split; [exact Hin|]. eapply append_file_raise; eauto.
Qed.

(** ** The run executor: what it raises, what it touches, what it returns *)

Section ExecutorEnvelope.

Variable engine_main : namespace -> entries -> engine_result.
Variable py_str : value -> string.
Variable now : string.

Lemma raises_only_on_error solver_name num_slots run_idx e0 :
  raises_only
    (blocked_by_dir ["experiment_log.txt"; "error.txt"; "basic_summary.json"])
    (on_error solver_name num_slots run_idx e0).
Proof.
  unfold on_error.
  apply raises_only_bind; [apply raises_only_fs_write; simpl; auto|intros _].
  apply raises_only_bind; [apply raises_only_log_append; simpl; auto|intros _].
  apply raises_only_bind; [apply raises_only_fs_write; simpl; auto|intros _].
  apply raises_only_ret.
Qed.

Lemma raises_only_run_body solver_name num_slots output_dir run_idx :
  raises_only
    (blocked_by_dir ["experiment_log.txt"; "error.txt"; "basic_summary.json"])
    (run_body engine_main py_str now solver_name num_slots output_dir run_idx).
Proof.
  unfold run_body.
  apply raises_only_bind; [apply raises_only_fs_write; simpl; auto|intros _].
  apply raises_only_try_except. intros e0. apply raises_only_on_error.
Qed.



(** X6.  Every record the executor returns names the run's solver: the
    [solver] entry is the identifier the run was called with, also over
    an artifact that says otherwise.  The [run] entry is the run index
    plus one, except in the fallback record with status
    [partial_results], which has none. *)
Theorem run_executor_stamps_solver :
  forall solver_name num_slots output_dir run_idx w r w',
    run_experiment_for_solver engine_main py_str now solver_name num_slots output_dir
                              run_idx w = (Ok r, w') ->
    Dict.get "solver" r = Some (VStr solver_name)
    /\ (Dict.get "run" r = Some (VNat (run_idx + 1))
        \/ (r = partial_summary solver_name num_slots /\ Dict.get "run" r = None)).
Proof.
  intros solver_name num_slots output_dir run_idx w r w' H.
  apply run_experiment_shape in H.
  destruct H as [[d ->]|[->|[e ->]]].
  - unfold stamped. split.
    + rewrite dict_get_set_other by discriminate. apply dict_get_set_same.
    + left. apply dict_get_set_same.
  - split; [reflexivity|]. right. split; reflexivity.
  - split; [reflexivity|]. left. reflexivity.
Qed.

End ExecutorEnvelope.



Lemma run_executor_stamps_solver_witness :
  exists r w',
    run_experiment_for_solver Samples.good_engine Samples.plain_str Samples.clock
                              "solvers.B.B" 5 "out" 0 Samples.fresh_world = (Ok r, w')
    /\ Dict.get "solver" r = Some (VStr "solvers.B.B")
    /\ (Dict.get "run" r = Some (VNat (0 + 1))
        \/ (r = partial_summary "solvers.B.B" 5 /\ Dict.get "run" r = None)).
Proof.
  eexists _, _. split; [vm_compute; reflexivity|].
  eapply (run_executor_stamps_solver Samples.good_engine Samples.plain_str
            Samples.clock "solvers.B.B" 5%Z "out" 0%nat Samples.fresh_world).
  vm_compute. reflexivity.
Defined.

(** ** The executor returns whenever it can write its files *)

Lemma harness_writable_set_other name n es :
  ~ In name harness_files ->
  harness_writable (Dict.set name n es) = harness_writable es.
Proof.
  intros Hnot. unfold harness_writable.
  assert (H : forall names,
             (forall k, In k names -> In k harness_files) ->
             forallb (fun k => negb (is_dir k (Dict.set name n es))) names
             = forallb (fun k => negb (is_dir k es)) names).
  { induction names as [|k names IH]; intros Hsub; simpl; [reflexivity|].
    rewrite IH by (intros; apply Hsub; now right).
    unfold is_dir. rewrite dict_get_set_other; [reflexivity|].
    intros ->. apply Hnot, Hsub. now left. }
  apply H. auto.
Qed.

Lemma writable_fs_write name c : preserves run_dir_writable (fs_op (write_file name c)).
Proof.
  intros st H. unfold fs_op, write_file.
  destruct (Dict.get name (rs_dir st)) as [[|]|]; simpl; try exact H;
    now apply harness_writable_set_file.
Qed.

Lemma writable_log_append t : preserves run_dir_writable (log_append t).
Proof.
  intros st H. unfold log_append, fs_op, append_file.
  destruct (Dict.get _ (rs_dir st)) as [[|]|]; simpl; try exact H;
    now apply harness_writable_set_file.
Qed.

Lemma writable_copy_summary c comps name :
  preserves run_dir_writable (fs_op (copy2 c comps name "summary.json")).
Proof.
  assert (Hnot : ~ In "summary.json" harness_files)
    by (simpl; intuition discriminate).
  intros st H. unfold fs_op. destruct (copy2 _ _ _ _ (rs_dir st)) as [es|e] eqn:E;
    simpl; [|exact H].
  unfold run_dir_writable. simpl. unfold copy2 in E.
  destruct (Dict.get "summary.json" (rs_dir st)) as [[c0|d]|].
  - inversion E; subst. now apply harness_writable_set_file.
  - destruct comps as [|only [|]];
      try (destruct (write_file name c d); inversion E; subst;
           now rewrite harness_writable_set_other).
    destruct (String.eqb only "summary.json"); [discriminate|].
    destruct (write_file name c d); inversion E; subst.
    now rewrite harness_writable_set_other.
  - inversion E; subst. now apply harness_writable_set_file.
Qed.

Lemma writable_keeps_dir {A} (m : M run_state A) :
  (forall st, rs_dir (snd (m st)) = rs_dir st) -> preserves run_dir_writable m.
Proof. intros Hm st H. unfold run_dir_writable. now rewrite Hm. Qed.

Lemma writable_setattr k v : preserves run_dir_writable (setattr k v).
Proof.
  apply writable_keeps_dir. intros st. unfold setattr.
  destruct (rs_mod st); reflexivity.
Qed.

Lemma writable_import : preserves run_dir_writable import_main.
Proof.
  apply writable_keeps_dir. intros st. unfold import_main.
  destruct (rs_mod st); reflexivity.
Qed.

Lemma writable_restore k v : preserves run_dir_writable (restore_unless_none k v).
Proof.
  unfold restore_unless_none.
  destruct v; try apply writable_setattr; apply preserves_ret.
Qed.

Section ExecutorReturns.

Variable engine_main : namespace -> entries -> engine_result.
Variable py_str : value -> string.
Variable now : string.

Hypothesis engine_keeps_writable :
  forall ns es,
    harness_writable es = true -> harness_writable (er_dir (engine_main ns es)) = true.

Lemma writable_call_engine : preserves run_dir_writable (call_engine engine_main).
Proof.
  intros st H. unfold call_engine. destruct (rs_mod st); [|exact H].
  simpl. now apply engine_keeps_writable.
Qed.

Lemma writable_setup run_dir solver_name num_slots :
  preserves run_dir_writable (setup py_str run_dir solver_name num_slots).
Proof.
  unfold setup.
  apply preserves_bind; [apply writable_import|intros ns].
  apply preserves_bind; [apply writable_fs_write|intros _].
  apply writable_log_append.
Qed.

Lemma writable_engine_session run_dir num_slots solver_name :
  preserves run_dir_writable (engine_session engine_main run_dir num_slots solver_name).
Proof.
  unfold engine_session.
  apply preserves_bind; [apply writable_import|intros ns].
  apply preserves_bind; [apply writable_setattr|intros _].
  apply preserves_bind; [apply writable_setattr|intros _].
  apply preserves_bind; [apply writable_setattr|intros _].
  apply preserves_try_finally.
  - apply preserves_try_except.
    + apply preserves_bind; [apply writable_call_engine|intros _].
      apply writable_log_append.
    + intros e. apply writable_log_append.
  - apply preserves_bind; [apply writable_restore|intros _].
    apply preserves_bind; [apply writable_restore|intros _].
    apply writable_restore.
Qed.

Lemma writable_load_artifact run_dir solver_name run_idx found :
  preserves run_dir_writable (load_artifact run_dir solver_name run_idx found).
Proof.
  unfold load_artifact.
  apply preserves_bind; [apply writable_keeps_dir; reflexivity|intros es].
  apply preserves_bind; [apply preserves_pure|intros c].
  apply preserves_bind; [apply preserves_pure|intros v].
  destruct v; try (apply preserves_pure).
  apply preserves_bind.
  - destruct (String.eqb _ _); [apply preserves_ret|apply writable_copy_summary].
  - intros _. apply preserves_bind; [apply writable_log_append|intros _].
    apply preserves_ret.
Qed.

Lemma writable_resolve run_dir solver_name num_slots run_idx :
  preserves run_dir_writable (resolve now run_dir solver_name num_slots run_idx).
Proof.
  unfold resolve.
  apply preserves_bind; [apply writable_keeps_dir; reflexivity|intros es].
  cbv zeta.
  apply preserves_bind; [apply writable_log_append|intros _].
  apply preserves_bind.
  - destruct (find_summary _) as [found|].
    + apply preserves_try_except.
      * apply preserves_bind; [apply writable_load_artifact|intros s].
        apply preserves_ret.
      * intros e. apply preserves_bind; [apply writable_log_append|intros _].
        apply preserves_ret.
    + apply preserves_bind; [apply writable_log_append|intros _].
      apply preserves_ret.
  - intros [summary|]; [apply preserves_ret|].
    apply preserves_bind; [apply writable_fs_write|intros _].
    apply preserves_bind; [apply writable_fs_write|intros _].
    apply preserves_ret.
Qed.

Lemma run_body_returns solver_name num_slots output_dir run_idx st :
  run_dir_writable st ->
  exists r st',
    run_body engine_main py_str now solver_name num_slots output_dir run_idx st
    = (Ok r, st').
Proof.
  intros Hw. unfold run_body. cbv zeta.
  erewrite bind_of_ok
    by (apply fs_op_write_ok; apply (harness_writable_is_dir _ _ Hw); simpl; tauto).
  match goal with
  | |- context [try_except ?body ?h ?s] =>
      assert (Hs : run_dir_writable s)
        by (unfold run_dir_writable; simpl; now apply harness_writable_set_file);
      assert (Hb : preserves run_dir_writable body);
      [|specialize (Hb s Hs); destruct (body s) as [[r|e] s1] eqn:Eb]
  end.
  - apply preserves_bind; [apply writable_setup|intros _].
    apply preserves_bind; [apply writable_engine_session|intros _].
    apply writable_resolve.
  - exists r, s1. now apply try_except_of_ok.
  - simpl in Hb.
    destruct (on_error_ok solver_name num_slots run_idx e s1 Hb) as (s2 & Eh & _).
    eexists _, s2. erewrite try_except_of_raise by exact Eb. exact Eh.
Qed.


End ExecutorReturns.


(** ** The cells of a metric table *)

Local Open Scope list_scope.

Lemma collect_metric_acc (metric_key : string) (all_results : corpus) :
  forall acc,
    NoDup (Dict.keys all_results) ->
    (forall sr, In sr all_results -> Dict.get (fst sr) acc = None) ->
    fold_left
      (fun metric_data (sr : string * list record) =>
         let solver_metric_values := metric_values metric_key (snd sr) in
         if is_nil solver_metric_values then metric_data
         else Dict.set (fst sr) solver_metric_values metric_data)
      all_results acc
    = acc ++ map (fun sr : string * list record =>
                    (fst sr, metric_values metric_key (snd sr)))
                 (filter (fun sr : string * list record =>
                            negb (is_nil (metric_values metric_key (snd sr))))
                         all_results).
Proof.
  induction all_results as [|sr rest IH]; intros acc Hnd Hacc; simpl.
  - now rewrite app_nil_r.
  - inversion Hnd as [|? ? Hnotin Hnd']; subst.
    destruct (is_nil (metric_values metric_key (snd sr))) eqn:En; simpl.
    + apply IH; [exact Hnd'|]. intros sr' Hin. apply Hacc. now right.
    + rewrite IH; [| exact Hnd' |].
      * pose proof (dict_set_app_notin (fst sr) (metric_values metric_key (snd sr))
                      acc [] (Hacc sr (or_introl eq_refl))) as E.
        rewrite app_nil_r in E. rewrite E. simpl. now rewrite <- app_assoc.
      * intros sr' Hin.
        pose proof (dict_set_app_notin (fst sr) (metric_values metric_key (snd sr))
                      acc [] (Hacc sr (or_introl eq_refl))) as E.
        rewrite app_nil_r in E. rewrite E. simpl.
        apply dict_get_snoc_other; [apply Hacc; now right|].
        intros Heq. apply Hnotin. unfold Dict.keys. rewrite <- Heq.
        now apply in_map.
Qed.

Lemma collect_metric_filter (metric_key : string) (all_results : corpus) :
  NoDup (Dict.keys all_results) ->
  collect_metric metric_key all_results
  = map (fun sr : string * list record => (fst sr, metric_values metric_key (snd sr)))
        (filter (fun sr : string * list record =>
                   negb (is_nil (metric_values metric_key (snd sr))))
                all_results).
Proof.
  intros Hnd. unfold collect_metric.
  now rewrite collect_metric_acc by (auto; intros; reflexivity).
Qed.

Lemma dict_get_filter_map (metric_key solver : string) (all_results : corpus) runs :
  Dict.get solver all_results = Some runs ->
  metric_values metric_key runs <> [] ->
  Dict.get solver
    (map (fun sr : string * list record => (fst sr, metric_values metric_key (snd sr)))
         (filter (fun sr : string * list record =>
                    negb (is_nil (metric_values metric_key (snd sr))))
                 all_results))
  = Some (metric_values metric_key runs).
Proof.
  intros Hget Hne. induction all_results as [|[s rs] rest IH]; simpl in *; [discriminate|].
  destruct (String.eqb solver s) eqn:E.
  - inversion Hget; subst rs.
    destruct (metric_values metric_key runs) eqn:Ev; [congruence|].
    simpl. now rewrite E, Ev.
  - destruct (is_nil (metric_values metric_key rs)); simpl; [now apply IH|].
    rewrite E. now apply IH.
Qed.

Lemma index_of_nth (x : string) (l : list string) j :
  index_of x l = Some j -> nth_error l j = Some x.
Proof.
  revert j. induction l as [|y l IH]; intros j; simpl; [discriminate|].
  destruct (String.eqb x y) eqn:E.
  - apply String.eqb_eq in E. intros H. inversion H. now subst.
  - destruct (index_of x l) as [j'|]; simpl; intros H; inversion H; subst.
    simpl. now apply IH.
Qed.

Lemma index_of_key {V} (k : string) (v : V) (d : list (string * V)) :
  Dict.get k d = Some v -> exists j, index_of k (Dict.keys d) = Some j.
Proof.
  induction d as [|[k' v'] d IH]; simpl; [discriminate|].
  destruct (String.eqb k k'); [eauto|].
  intros H. destruct (IH H) as (j & ->). simpl. eauto.
Qed.

Lemma nth_error_seq (a n i : nat) :
  (i < n)%nat -> nth_error (seq a n) i = Some (a + i)%nat.
Proof.
  revert a i. induction n as [|n IH]; intros a i H; [lia|].
  destruct i as [|i]; simpl; [f_equal; lia|].
  rewrite IH by lia. f_equal. lia.
Qed.

Lemma list_max_ge (l : list nat) (n : nat) : In n l -> (n <= list_max l)%nat.
Proof.
  intros Hin. pose proof (proj1 (list_max_le l (list_max l)) (Nat.le_refl _)) as H.
  rewrite Forall_forall in H. now apply H.
Qed.

Lemma metric_values_complete (metric_key : string) (runs : list record) :
  Forall (fun r => Dict.mem metric_key r = true) runs ->
  forall i r, nth_error runs i = Some r ->
              nth_error (metric_values metric_key runs) i = Dict.get metric_key r.
Proof.
  induction runs as [|r0 runs IH]; intros Hall i r Hi.
  - destruct i; discriminate.
  - inversion Hall as [|? ? Hr Hrest]; subst.
    unfold Dict.mem in Hr. simpl.
    destruct (Dict.get metric_key r0) as [v|] eqn:E; [|discriminate].
    destruct i as [|i]; simpl in *.
    + inversion Hi; subst. now rewrite E.
    + now apply IH.
Qed.

Section TableCells.

Variable metric_key : string.
Variable all_results : corpus.
Variable solver : string.
Variable runs : list record.

Hypothesis corpus_keys : NoDup (Dict.keys all_results).
Hypothesis solver_runs : Dict.get solver all_results = Some runs.
Hypothesis solver_column : solver <> run_count_column.
Hypothesis solver_has_data : metric_values metric_key runs <> [].

Lemma has_data_solver : has_data metric_key all_results = true.
Proof.
  unfold has_data. apply existsb_exists. exists (solver, runs). split.
  - apply dict_get_in. exact solver_runs.
  - simpl. destruct (metric_values metric_key runs); [congruence|reflexivity].
Qed.

Lemma solver_values :
  Dict.get solver (collect_metric metric_key all_results)
  = Some (metric_values metric_key runs).
Proof.
  rewrite collect_metric_filter by exact corpus_keys.
  now apply dict_get_filter_map.
Qed.

Lemma solver_rows :
  (List.length (metric_values metric_key runs)
   <= table_rows (metric_table metric_key all_results))%nat.
Proof.
  unfold metric_table. rewrite has_data_solver. simpl.
  rewrite length_map, length_seq. apply list_max_ge.
  apply in_map_iff. exists (solver, metric_values metric_key runs). split; [reflexivity|].
  apply dict_get_in. exact solver_values.
Qed.

Lemma solver_cell i :
  (i < table_rows (metric_table metric_key all_results))%nat ->
  table_cell (metric_table metric_key all_results) run_count_column i
  = Some (VNat (i + 1))
  /\ table_cell (metric_table metric_key all_results) solver i
     = Some match nth_error (metric_values metric_key runs) i with
            | Some v => v
            | None => VStr ""
            end.
Proof.
  unfold metric_table. rewrite has_data_solver. simpl table_rows.
  rewrite length_map, length_seq. intros Hi.
  unfold table_cell.
  rewrite nth_error_map, nth_error_seq by exact Hi. simpl option_map.
  split.
  - cbn [index_of]. rewrite String.eqb_refl. reflexivity.
  - cbn [index_of].
    apply String.eqb_neq in solver_column. rewrite solver_column.
    destruct (index_of_key _ _ _ solver_values) as (j & Hj).
    rewrite Hj. simpl. rewrite nth_error_map.
    rewrite (index_of_nth _ _ _ Hj). simpl. now rewrite solver_values.
Qed.

End TableCells.



Local Open Scope string_scope.

(** ** The reconciliation pass and the export step *)

Lemma makedirs_frame run_name es es' name :
  makedirs run_name es = Ok es' -> name <> run_name ->
  Dict.get name es' = Dict.get name es.
Proof.
  unfold makedirs. intros H Hne.
  destruct (Dict.get run_name es) as [[|]|]; inversion H; subst; [reflexivity|].
  apply dict_get_set_other. congruence.
Qed.


(** X10.  The export step cannot stop the batch.  With an empty corpus it
    does nothing.  With records in the corpus and a regular file named
    [metrics] in the way, the aggregator's [FileExistsError] is caught:
    the step ends normally, the corpus is as before, and the only entry
    of the output directory that changes is [error_log.txt], which
    receives the time and the message of the exception. *)
Theorem export_failure_absorbed :
  forall (now : string) bs,
    (total_results (bs_results bs) = 0%nat -> export_metrics now bs = (Ok tt, bs))
    /\ (forall c,
           total_results (bs_results bs) <> 0%nat ->
           Dict.get "metrics" (fs (bs_world bs)) = Some (File c) ->
           is_dir "error_log.txt" (fs (bs_world bs)) = false ->
           exists bs' e,
             export_metrics now bs = (Ok tt, bs')
             /\ bs_results bs' = bs_results bs
             /\ exn_kind e = "FileExistsError"
             /\ Dict.get "error_log.txt" (fs (bs_world bs'))
                = Some (File (Text (now ++ " - 收集指标时出错: " ++ str_exn e ++ nl)))
             /\ forall name,
                 name <> "error_log.txt" ->
                 Dict.get name (fs (bs_world bs')) = Dict.get name (fs (bs_world bs))).
Proof.
  intros now bs. unfold export_metrics, bind, gets. simpl. split.
  - intros H. now rewrite H.
  - intros c Htotal Hmetrics Hlog.
    apply Nat.eqb_neq in Htotal. rewrite Htotal.
    unfold try_except, lift_world, collect_and_save_metrics, bind, top_op, makedirs.
    rewrite Hmetrics. rewrite write_file_ok by exact Hlog.
    eexists _, (OSError "FileExistsError" "metrics").
    split; [reflexivity|]. simpl. split; [reflexivity|]. split; [reflexivity|].
    split; [apply dict_get_set_same|].
    intros name Hne. apply dict_get_set_other. congruence.
Qed.

(** ** Entries a computation leaves alone *)

Section KeepsEntry.

Context {S : Type} (dir : S -> entries) (name : string).

Lemma keeps_entry_ret {A} (a : A) : keeps_entry dir name (@ret S A a).
Proof. intros s. reflexivity. Qed.

Lemma keeps_entry_pure {A} (r : result A) : keeps_entry dir name (fun s : S => (r, s)).
Proof. intros s. reflexivity. Qed.

Lemma keeps_entry_bind {A B} (m : M S A) (k : A -> M S B) :
  keeps_entry dir name m -> (forall a, keeps_entry dir name (k a)) ->
  keeps_entry dir name (bind m k).
Proof.
  intros Hm Hk s. unfold bind. specialize (Hm s).
  destruct (m s) as [[a|e] s1]; simpl in *; [|exact Hm].
  now rewrite Hk.
Qed.

Lemma keeps_entry_try_except {A} (m : M S A) (h : exn -> M S A) :
  keeps_entry dir name m -> (forall e, keeps_entry dir name (h e)) ->
  keeps_entry dir name (try_except m h).
Proof.
  intros Hm Hh s. unfold try_except. specialize (Hm s).
  destruct (m s) as [[a|e] s1]; simpl in *; [exact Hm|].
  now rewrite Hh.
Qed.

Lemma keeps_entry_for_each {A} (l : list A) (body : A -> M S unit) :
  (forall a, In a l -> keeps_entry dir name (body a)) ->
  keeps_entry dir name (for_each l body).
Proof.
  induction l as [|a l IH]; intros H; simpl.
  - apply keeps_entry_ret.
  - apply keeps_entry_bind; [apply H; now left|intros _].
    apply IH. intros a' Hin. apply H. now right.
Qed.

End KeepsEntry.

Lemma keeps_top_op name (op : entries -> result entries) :
  (forall es es', op es = Ok es' -> Dict.get name es' = Dict.get name es) ->
  keeps_entry fs name (top_op op).
Proof.
  intros H w. unfold top_op. destruct (op (fs w)) eqn:E; simpl; [|reflexivity].
  now apply H.
Qed.

Lemma keeps_top_write name n c :
  n <> name -> keeps_entry fs name (top_op (write_file n c)).
Proof.
  intros Hne. apply keeps_top_op. intros es es' H. unfold write_file in H.
  destruct (Dict.get n es) as [[|]|]; inversion H; subst;
    now apply dict_get_set_other.
Qed.

Lemma keeps_top_append name n t :
  n <> name -> keeps_entry fs name (top_op (append_file n t)).
Proof.
  intros Hne. apply keeps_top_op. intros es es' H. unfold append_file in H.
  destruct (Dict.get n es) as [[|]|]; inversion H; subst;
    now apply dict_get_set_other.
Qed.

Lemma keeps_top_makedirs name n :
  n <> name -> keeps_entry fs name (top_op (makedirs n)).
Proof.
  intros Hne. apply keeps_top_op. intros es es' H.
  eapply makedirs_frame; eauto.
Qed.

Lemma keeps_top_subdir name n op :
  n <> name -> keeps_entry fs name (top_op (in_subdir n op)).
Proof.
  intros Hne. apply keeps_top_op. intros es es' H. unfold in_subdir in H.
  destruct (Dict.get n es) as [[|d]|]; try discriminate.
  destruct (op d); inversion H; subst. now apply dict_get_set_other.
Qed.

Lemma keeps_lift_world {A} name (m : M world A) :
  keeps_entry fs name m -> keeps_entry batch_fs name (lift_world m).
Proof.
  intros Hm bs. unfold lift_world, batch_fs. specialize (Hm (bs_world bs)).
  destruct (m (bs_world bs)) as [r w]. exact Hm.
Qed.

Lemma keeps_append_result name simple r :
  keeps_entry batch_fs name (append_result simple r).
Proof.
  intros bs. unfold append_result. destruct (Dict.get simple (bs_results bs)); reflexivity.
Qed.

Lemma keeps_save_metric name now all_results metric :
  name <> "metrics" -> name <> "error_log.txt" ->
  keeps_entry fs name (save_metric now all_results metric).
Proof.
  intros H1 H2. unfold save_metric. destruct metric as [metric_name metric_key].
  destruct (has_data metric_key all_results).
  - apply keeps_entry_try_except.
    + apply keeps_entry_bind; [|intros _]; apply keeps_top_subdir; congruence.
    + intros e. apply keeps_top_append. congruence.
  - apply keeps_top_subdir. congruence.
Qed.

Lemma keeps_collect name now all_results :
  name <> "metrics" -> name <> "error_log.txt" ->
  keeps_entry fs name (collect_and_save_metrics now all_results).
Proof.
  intros H1 H2. unfold collect_and_save_metrics.
  apply keeps_entry_bind; [apply keeps_top_makedirs; congruence|intros _].
  apply keeps_entry_bind.
  - apply keeps_entry_for_each. intros metric _. now apply keeps_save_metric.
  - intros _. apply keeps_entry_try_except.
    + apply keeps_top_subdir. congruence.
    + intros e. apply keeps_entry_ret.
Qed.

Lemma keeps_export name now :
  name <> "metrics" -> name <> "error_log.txt" ->
  keeps_entry batch_fs name (export_metrics now).
Proof.
  intros H1 H2. unfold export_metrics.
  apply keeps_entry_bind; [intros bs; reflexivity|intros all_results].
  destruct (Nat.eqb _ 0); [apply keeps_entry_ret|].
  apply keeps_entry_try_except.
  - apply keeps_lift_world. now apply keeps_collect.
  - intros e. apply keeps_lift_world. apply keeps_top_write. congruence.
Qed.

Lemma keeps_reconcile name engine_main now num_slots output_dir solver_name :
  ends_digit name = false ->
  keeps_entry batch_fs name (reconcile engine_main now num_slots output_dir solver_name).
Proof.
  intros Hd bs.
  assert (Hne : name <> simple_name solver_name ++ "_run_1").
  { intros ->. rewrite ends_digit_app in Hd by discriminate. discriminate. }
  unfold reconcile, batch_fs. cbv zeta.
  destruct (solver_executed _ _); [reflexivity|].
  destruct (makedirs _ _) as [fs1|e] eqn:Emk; [|reflexivity].
  destruct (direct_body _ _ _ _ _ _ _) as [[[]|e] st']; simpl;
    rewrite dict_get_set_other by congruence; eapply makedirs_frame; eauto.
Qed.

(** ** What a batch leaves in the output directory *)

Lemma summary_not_coordinator_file (simple simple' : string) :
  simple <> simple' ->
  ~ coordinator_file simple' (simple ++ "_summary.json").
Proof.
  intros Hne [H|[H|(n & H)]].
  - apply string_app_inv_tail in H. contradiction.
  - apply (f_equal last_char) in H.
    rewrite !last_char_app in H by discriminate. discriminate.
  - rewrite <- !string_app_assoc in H. apply (f_equal last_char) in H.
    rewrite !last_char_app in H by discriminate. discriminate.
Qed.

Lemma summary_not_config (simple : string) :
  simple ++ "_summary.json" <> "experiment_config.json".
Proof.
  intros H.
  change "experiment_config.json" with (("experiment_confi" ++ "g") ++ ".json") in H.
  change (simple ++ "_summary.json") with (simple ++ ("_summar" ++ "y") ++ ".json") in H.
  rewrite <- string_app_assoc in H. apply string_app_inv_tail in H.
  apply (f_equal last_char) in H.
  rewrite last_char_app in H by discriminate. discriminate.
Qed.

Local Open Scope list_scope.

Section BatchArtifacts.

Variable engine_main : namespace -> entries -> engine_result.
Variable now : string.
Variable execute : string -> Z -> string -> nat -> M world record.

Hypothesis execute_keeps_dir :
  forall solver_name num_slots output_dir run_idx w,
    batch_dir_ok (fs w) = true ->
    batch_dir_ok (fs (snd (execute solver_name num_slots output_dir run_idx w))) = true.

Hypothesis execute_nonempty :
  forall solver_name num_slots output_dir run_idx w r w',
    execute solver_name num_slots output_dir run_idx w = (Ok r, w') -> r <> [].

Hypothesis execute_frame :
  forall solver_name num_slots output_dir run_idx name,
    ends_digit name = false ->
    keeps_entry fs name (execute solver_name num_slots output_dir run_idx).

Lemma keeps_on_run_error name solver_name simple num_slots solver_results run_idx e :
  ~ coordinator_file simple name ->
  keeps_entry batch_fs name
    (on_run_error now solver_name simple num_slots solver_results run_idx e).
Proof.
  intros Hnot. unfold on_run_error. cbv zeta.
  apply keeps_entry_bind; [apply keeps_append_result|intros _].
  apply keeps_entry_bind.
  - apply keeps_lift_world. apply keeps_top_write.
    intros H. apply Hnot. right. right. exists (run_idx + 1)%nat. now symmetry.
  - intros _. apply keeps_entry_bind; [intros bs; reflexivity|intros _].
    apply keeps_entry_ret.
Qed.

Lemma keeps_run_once name solver_name simple num_slots output_dir solver_results run_idx :
  ends_digit name = false ->
  ~ coordinator_file simple name ->
  keeps_entry batch_fs name
    (run_once now execute solver_name simple num_slots output_dir solver_results run_idx).
Proof.
  intros Hd Hnot. unfold run_once.
  apply keeps_entry_try_except; [|intros e; now apply keeps_on_run_error].
  apply keeps_entry_bind; [apply keeps_lift_world; now apply execute_frame|].
  intros run_result. destruct (is_nil run_result); [apply keeps_entry_ret|].
  apply keeps_entry_bind; [apply keeps_entry_pure|intros r'].
  apply keeps_entry_bind; [apply keeps_append_result|intros _].
  apply keeps_entry_ret.
Qed.

Lemma keeps_run_loop name solver_name simple num_slots output_dir runs :
  ends_digit name = false ->
  ~ coordinator_file simple name ->
  forall solver_results,
    keeps_entry batch_fs name
      (run_loop now execute solver_name simple num_slots output_dir runs solver_results).
Proof.
  intros Hd Hnot. induction runs as [|i runs IH]; intros solver_results; simpl.
  - apply keeps_entry_ret.
  - apply keeps_entry_bind; [now apply keeps_run_once|intros rs]. apply IH.
Qed.

Lemma keeps_run_solver_block name num_runs num_slots output_dir solver_name :
  ends_digit name = false ->
  ~ coordinator_file (simple_name solver_name) name ->
  keeps_entry batch_fs name
    (run_solver_block now execute num_runs num_slots output_dir solver_name).
Proof.
  intros Hd Hnot. unfold run_solver_block. cbv zeta.
  apply keeps_entry_try_except.
  - apply keeps_entry_bind; [now apply keeps_run_loop|intros rs].
    destruct (is_nil rs); [apply keeps_entry_ret|].
    apply keeps_lift_world. apply keeps_top_write.
    intros H. apply Hnot. left. now symmetry.
  - intros e. unfold on_solver_error.
    apply keeps_entry_bind; [apply keeps_append_result|intros _].
    apply keeps_entry_bind.
    + apply keeps_lift_world. apply keeps_top_write.
      intros H. apply Hnot. right. left. now symmetry.
    + intros _. intros bs. reflexivity.
Qed.

Lemma run_solver_block_file num_runs num_slots output_dir solver_name bs :
  batch_dir_ok (batch_fs bs) = true ->
  Dict.get (simple_name solver_name) (bs_results bs) = Some [] ->
  exists rs bs',
    run_solver_block now execute num_runs num_slots output_dir solver_name bs
    = (Ok tt, bs')
    /\ bs_results bs' = Dict.set (simple_name solver_name) rs (bs_results bs)
    /\ solver_artifacts num_runs (batch_fs bs') solver_name (simple_name solver_name, rs)
    /\ batch_dir_ok (batch_fs bs') = true.
Proof.
  intros Hok Hget. unfold run_solver_block. cbv zeta.
  destruct (run_loop_ok now execute execute_keeps_dir execute_nonempty
              solver_name (simple_name solver_name) num_slots output_dir
              (seq 0 num_runs) [] bs [] Hok Hget)
    as (rs & bs1 & El & Hrs & Hres & Hok1).
  simpl in El, Hres.
  assert (Hlen : List.length rs = num_runs).
  { apply Forall2_length in Hrs. now rewrite length_seq in Hrs. }
  destruct (is_nil rs) eqn:En.
  - exists rs, bs1. split; [|split; [exact Hres|split; [|exact Hok1]]].
    + apply try_except_of_ok. erewrite bind_of_ok by exact El. now rewrite En.
    + split; [reflexivity|]. split; [exact Hlen|].
      simpl. destruct rs; [congruence|discriminate].
  - destruct (top_write_ok (simple_name solver_name ++ "_summary.json")%string
                (Json (VList (map VDict rs))) (bs_world bs1) Hok1
                (summary_json_name (simple_name solver_name))) as [Ew Hok'].
    exists rs. eexists. split; [|split; [|split]].
    + apply try_except_of_ok. erewrite bind_of_ok by exact El. rewrite En.
      unfold lift_world. rewrite Ew. reflexivity.
    + exact Hres.
    + split; [reflexivity|]. split; [exact Hlen|]. intros _.
      unfold summary_file_holds, batch_fs. simpl. apply dict_get_set_same.
    + exact Hok'.
Qed.

Lemma solver_loop_files num_runs num_slots output_dir solvers :
  forall done bs,
    NoDup (map simple_name solvers) ->
    (forall s, In s solvers -> Dict.get (simple_name s) done = None) ->
    bs_results bs = done ++ map (fun s => (simple_name s, @nil record)) solvers ->
    batch_dir_ok (batch_fs bs) = true ->
    exists sets bs',
      for_each solvers (run_solver_block now execute num_runs num_slots output_dir) bs
      = (Ok tt, bs')
      /\ Forall2 (solver_artifacts num_runs (batch_fs bs')) solvers sets
      /\ bs_results bs' = done ++ sets
      /\ batch_dir_ok (batch_fs bs') = true.
Proof.
  induction solvers as [|s solvers IH]; intros done bs Hnd Hdone Hres Hok; simpl.
  - exists [], bs. split; [reflexivity|]. split; [constructor|]. auto.
  - inversion Hnd as [|? ? Hnotin Hnd']; subst.
    assert (Hget : Dict.get (simple_name s) (bs_results bs) = Some []).
    { rewrite Hres, dict_get_app_notin by (apply Hdone; now left).
      simpl. now rewrite String.eqb_refl. }
    destruct (run_solver_block_file num_runs num_slots output_dir s bs Hok Hget)
      as (rs & bs1 & E1 & Hres1 & Hart & Hok1).
    destruct (IH (done ++ [(simple_name s, rs)]) bs1 Hnd')
      as (sets & bs2 & E2 & Hsets & Hres2 & Hok2).
    + intros s' Hs'. apply dict_get_snoc_other; [apply Hdone; now right|].
      intros Heq. apply Hnotin. rewrite <- Heq. now apply in_map.
    + rewrite Hres1, Hres. simpl map.
      rewrite dict_set_app_notin by (apply Hdone; now left).
      simpl. rewrite String.eqb_refl. now rewrite <- app_assoc.
    + exact Hok1.
    + exists ((simple_name s, rs) :: sets), bs2.
      split; [|split; [|split]].
      * erewrite bind_of_ok by exact E1. exact E2.
      * constructor; [|exact Hsets].
        destruct Hart as (Hname & Hlen & Hfile).
        split; [exact Hname|]. split; [exact Hlen|].
        intros Hne. specialize (Hfile Hne). unfold summary_file_holds in *.
        rewrite <- Hfile.
        assert (Ebs : bs2 = snd (for_each solvers
                                   (run_solver_block now execute num_runs num_slots
                                                     output_dir) bs1))
          by now rewrite E2.
        rewrite Ebs. apply keeps_entry_for_each.
        intros s' Hs'. apply keeps_run_solver_block.
        -- apply summary_json_name.
        -- apply summary_not_coordinator_file.
           intros Heq. apply Hnotin. rewrite Heq. now apply in_map.
      * rewrite Hres2. now rewrite <- app_assoc.
      * exact Hok2.
Qed.

Lemma artifacts_kept num_runs es es' solvers sets :
  (forall name, ends_digit name = false -> name <> "metrics"%string ->
                name <> "error_log.txt"%string ->
                name <> "experiment_config.json"%string ->
                Dict.get name es' = Dict.get name es) ->
  Forall2 (solver_artifacts num_runs es) solvers sets ->
  Forall2 (solver_artifacts num_runs es') solvers sets.
Proof.
  intros Hkeep H. induction H as [|s sr solvers sets (Hname & Hlen & Hfile) _ IH];
    constructor; [|exact IH].
  split; [exact Hname|]. split; [exact Hlen|].
  intros Hne. specialize (Hfile Hne). unfold summary_file_holds in *.
  rewrite <- Hfile. apply Hkeep.
  - apply summary_json_name.
  - apply summary_json_name.
  - intros H. apply (f_equal last_char) in H.
    rewrite last_char_app in H by discriminate. discriminate.
  - apply summary_not_config.
Qed.

Lemma artifacts_total num_runs es solvers sets :
  Forall2 (solver_artifacts num_runs es) solvers sets ->
  total_results sets = (List.length solvers * num_runs)%nat.
Proof.
  induction 1 as [|s sr solvers sets (_ & Hlen & _) _ IH]; [reflexivity|].
  unfold total_results. simpl. rewrite total_results_acc, IH. lia.
Qed.

Lemma main_with_artifacts solvers num_runs num_slots output_dir w :
  NoDup (map simple_name solvers) ->
  batch_dir_ok (fs w) = true ->
  exists bs',
    main_with engine_main now execute solvers num_runs num_slots output_dir (start w)
    = (Ok tt, bs')
    /\ Forall2 (solver_artifacts (Z.to_nat num_runs) (batch_fs bs'))
               solvers (bs_results bs')
    /\ Dict.get "experiment_config.json"%string (batch_fs bs')
       = Some (File (Json (experiment_config now solvers num_runs num_slots output_dir
                             (List.length solvers * Z.to_nat num_runs)))).
Proof.
  intros Hnd Hok. unfold main_with, solver_loop.
  set (bs0 := set_results (init_results solvers) (start w)).
  assert (E0 : modify (set_results (init_results solvers)) (start w) = (Ok tt, bs0))
    by reflexivity.
  erewrite bind_of_ok by exact E0.
  destruct (solver_loop_files (Z.to_nat num_runs) num_slots output_dir solvers [] bs0 Hnd)
    as (sets & bs1 & E1 & Hsets & Hres1 & Hok1).
  { intros; reflexivity. }
  { unfold bs0. simpl. now apply init_results_nodup. }
  { exact Hok. }
  simpl in Hres1.
  erewrite bind_of_ok by exact E1.
  destruct (reconcile_all_ok engine_main now num_slots output_dir solvers bs1 Hok1)
    as (bs2 & E2 & Hres2 & Hok2).
  assert (K2 : forall name, ends_digit name = false ->
                            Dict.get name (batch_fs bs2) = Dict.get name (batch_fs bs1)).
  { intros name Hd.
    assert (Ebs : bs2 = snd (for_each solvers
                               (reconcile engine_main now num_slots output_dir) bs1))
      by now rewrite E2.
    rewrite Ebs. apply keeps_entry_for_each. intros s _. now apply keeps_reconcile. }
  erewrite bind_of_ok by exact E2.
  destruct (export_metrics_ok now bs2 Hok2) as (bs3 & E3 & Hres3 & Hok3 & _).
  assert (K3 : forall name, name <> "metrics"%string -> name <> "error_log.txt"%string ->
                            Dict.get name (batch_fs bs3) = Dict.get name (batch_fs bs2)).
  { intros name H1 H2.
    assert (Ebs : bs3 = snd (export_metrics now bs2)) by now rewrite E3.
    rewrite Ebs. now apply keeps_export. }
  erewrite bind_of_ok by exact E3.
  unfold bind at 1, gets. cbv beta iota.
  rewrite Hres1 in Hres2. rewrite Hres2 in Hres3. rewrite Hres3.
  match goal with
  | |- context [write_file "experiment_config.json"%string ?c] =>
      destruct (top_write_ok "experiment_config.json"%string c (bs_world bs3) Hok3)
        as [Ew Hok4]
  end.
  { split; [reflexivity|discriminate]. }
  eexists. split; [unfold lift_world; rewrite Ew; reflexivity|].
  unfold batch_fs. simpl. rewrite Hres3.
  split.
  - eapply artifacts_kept; [|exact Hsets].
    intros name Hd H1 H2 H3.
    rewrite dict_get_set_other by congruence.
    fold (batch_fs bs3). rewrite K3, K2 by assumption. reflexivity.
  - rewrite dict_get_set_same.
    now rewrite (artifacts_total _ _ _ _ Hsets).
Qed.

End BatchArtifacts.

Local Open Scope string_scope.

Lemma run_experiment_keeps_entry engine_main py_str now
      solver_name num_slots output_dir run_idx name :
  ends_digit name = false ->
  keeps_entry fs name
    (run_experiment_for_solver engine_main py_str now solver_name num_slots output_dir
                               run_idx).
Proof.
  intros Hd w.
  assert (Hne : name <> run_dir_name (simple_name solver_name) run_idx).
  { intros ->. now rewrite run_dir_name_ends_digit in Hd. }
  unfold run_experiment_for_solver.
  destruct (makedirs _ (fs w)) as [fs1|e0] eqn:Emk; [|reflexivity].
  destruct (run_body _ _ _ _ _ _ _ _) as [r st']. simpl.
  rewrite dict_get_set_other by congruence.
  eapply makedirs_frame; eauto.
Qed.





(** ** The sibling entry point [run_solver] *)

Lemma replace_dots_dot_free (s : string) : dot_free (replace_dots s) = true.
Proof.
  induction s as [|c s IH]; simpl; [reflexivity|].
  rewrite IH, andb_true_r.
  destruct (Ascii.eqb c ".") eqn:E; [reflexivity|]. now rewrite E.
Qed.

Lemma replace_dots_not (s name : string) :
  dot_free name = false -> name <> replace_dots s.
Proof. intros H ->. now rewrite replace_dots_dot_free in H. Qed.

Lemma keeps_fs_op name (op : entries -> result entries) :
  (forall es es', op es = Ok es' -> Dict.get name es' = Dict.get name es) ->
  keeps_entry rs_dir name (fs_op op).
Proof.
  intros H st. unfold fs_op. destruct (op (rs_dir st)) eqn:E; simpl; [|reflexivity].
  now apply H.
Qed.

Lemma keeps_fs_write name n c :
  n <> name -> keeps_entry rs_dir name (fs_op (write_file n c)).
Proof.
  intros Hne. apply keeps_fs_op. intros es es' H. unfold write_file in H.
  destruct (Dict.get n es) as [[|]|]; inversion H; subst;
    now apply dict_get_set_other.
Qed.

Lemma keeps_log_append name t :
  name <> "experiment_log.txt" -> keeps_entry rs_dir name (log_append t).
Proof.
  intros Hne. apply keeps_fs_op. intros es es' H. unfold append_file in H.
  destruct (Dict.get _ es) as [[|]|]; inversion H; subst;
    apply dict_get_set_other; congruence.
Qed.

Lemma log_append_keeps_capture t st :
  rs_capture (snd (log_append t st)) = rs_capture st.
Proof.
  unfold log_append, fs_op. destruct (append_file _ t (rs_dir st)); reflexivity.
Qed.

Section RunSolver.

Variable engine_main : namespace -> entries -> engine_result.
Variable py_str : value -> string.
Variable now : string.
Variable elapsed : Q.

Lemma guarded_call_state solver_name st ns :
  rs_mod st = Some ns ->
  rs_capture st = Some ("", "") ->
  let res := engine_main ns (rs_dir st) in
  exists r s1,
    try_except
      (call_engine engine_main ;; print "  Main function executed successfully")
      (fun e =>
         let error_msg := "  Error executing main function: " ++ str_exn e in
         print error_msg ;;
         log_append (nl ++ now ++ " - " ++ error_msg ++ nl
                     ++ nl ++ "Traceback:" ++ nl ++ format_exc e)) st
    = (r, s1)
    /\ rs_capture s1 = Some (er_out res ++ run_solver_line res, er_err res)
    /\ Dict.get (replace_dots solver_name) (rs_dir s1)
       = Dict.get (replace_dots solver_name) (er_dir res)
    /\ rs_mod s1 = Some (er_ns res).
Proof.
  intros Hmod Hcap. cbv zeta.
  assert (Hlog : replace_dots solver_name <> "experiment_log.txt")
    by (intros H; symmetry in H; revert H; now apply replace_dots_not).
  unfold try_except, bind at 1, call_engine.
  rewrite Hmod, Hcap. unfold run_solver_line.
  destruct (er_raised (engine_main ns (rs_dir st))) as [e|].
  - unfold bind, print at 1, modify. cbn [rs_capture set_capture].
    match goal with
    | |- context [log_append ?t ?s] =>
        pose proof (keeps_log_append (replace_dots solver_name) t Hlog s) as Hk;
        pose proof (keeps_mod_log_append t s) as Hm;
        pose proof (log_append_keeps_capture t s) as Hc;
        destruct (log_append t s) as [r1 s1]
    end.
    simpl in Hk, Hm, Hc. exists r1, s1. split; [reflexivity|].
    rewrite Hc, Hk, Hm. simpl. auto.
  - unfold print, modify. cbn [rs_capture set_capture].
    eexists _, _. split; [reflexivity|]. simpl. auto.
Qed.

Lemma save_capture_ok solver_name s1 d captured :
  rs_capture s1 = captured ->
  Dict.get (replace_dots solver_name) (rs_dir s1) = Some (Dir d) ->
  is_dir (simple_name solver_name ++ "_output.txt") d = false ->
  exists s2,
    (captured <- gets rs_capture ;;
     modify (set_capture None) ;;
     try_except
       (fs_op (in_subdir (replace_dots solver_name)
                 (write_file (simple_name solver_name ++ "_output.txt")
                    (Text (capture_text captured)))))
       (fun _ => ret tt)) s1
    = (Ok tt, s2)
    /\ Dict.get (replace_dots solver_name) (rs_dir s2)
       = Some (Dir (Dict.set (simple_name solver_name ++ "_output.txt")
                      (File (Text (capture_text captured))) d))
    /\ rs_mod s2 = rs_mod s1
    /\ rs_capture s2 = None.
Proof.
  intros Hcap Hdir Hout.
  unfold bind, gets, modify, try_except, fs_op, in_subdir.
  cbn [rs_dir set_capture]. rewrite Hdir, Hcap.
  rewrite write_file_ok by exact Hout.
  eexists. split; [reflexivity|]. simpl.
  split; [apply dict_get_set_same|]. auto.
Qed.

Lemma try_finally_of {S A} (body : M S A) (final : M S unit) s r s1 s2 :
  body s = (r, s1) -> final s1 = (Ok tt, s2) -> try_finally body final s = (r, s2).
Proof. intros Hb Hf. unfold try_finally. now rewrite Hb, Hf. Qed.

Lemma capture_session_saves solver_name st ns d :
  rs_mod st = Some ns ->
  Dict.get (replace_dots solver_name) (er_dir (engine_main ns (rs_dir st)))
  = Some (Dir d) ->
  is_dir (simple_name solver_name ++ "_output.txt") d = false ->
  let res := engine_main ns (rs_dir st) in
  exists r st',
    capture_session engine_main now solver_name st = (r, st')
    /\ Dict.get (replace_dots solver_name) (rs_dir st')
       = Some (Dir (Dict.set (simple_name solver_name ++ "_output.txt")
                      (File (Text (capture_text
                                     (Some (er_out res ++ run_solver_line res,
                                            er_err res)))))
                      d))
    /\ rs_mod st' = Some (er_ns res)
    /\ rs_capture st' = None.
Proof.
  intros Hmod Hdir Hout. cbv zeta.
  unfold capture_session. cbv zeta.
  erewrite bind_of_ok by reflexivity.
  destruct (guarded_call_state solver_name (set_capture (Some ("", "")) st) ns Hmod eq_refl)
    as (r & s1 & Eb & Hcap & Hk & Hm).
  cbn [rs_dir set_capture] in Hcap, Hk, Hm.
  rewrite Hdir in Hk.
  destruct (save_capture_ok solver_name s1 d _ Hcap Hk Hout) as (s2 & Ef & Hd2 & Hm2 & Hc2).
  exists r, s2. split; [|split; [exact Hd2|split; [congruence|exact Hc2]]].
  eapply try_finally_of; [exact Eb|].
  rewrite <- Ef. unfold bind, gets. now rewrite Hcap.
Qed.

Lemma try_except_state {S A} (body : M S A) (h : exn -> M S A) s r s1 :
  body s = (r, s1) ->
  snd (try_except body h s) = match r with
                              | Ok _ => s1
                              | Raise e => snd (h e s1)
                              end.
Proof. intros H. unfold try_except. rewrite H. destruct r; reflexivity. Qed.

Lemma bind_state {S A B} (m : M S A) (k : A -> M S B) s r s1 :
  m s = (r, s1) ->
  snd (bind m k s) = match r with
                     | Ok a => snd (k a s1)
                     | Raise e => s1
                     end.
Proof. intros H. unfold bind. rewrite H. destruct r; reflexivity. Qed.

Lemma makedirs_dir name es :
  (forall c, Dict.get name es <> Some (File c)) ->
  exists es', makedirs name es = Ok es'
              /\ Dict.get name es' = Some (Dir (subdir name es)).
Proof.
  intros H. unfold makedirs, subdir.
  destruct (Dict.get name es) as [[c|d]|] eqn:E.
  - exfalso. now apply (H c).
  - exists es. auto.
  - eexists. split; [reflexivity|]. apply dict_get_set_same.
Qed.

Lemma run_solver_body_session solver_name num_slots output_dir run_idx st ns :
  rs_mod st = Some ns ->
  is_dir "experiment_config.json" (rs_dir st) = false ->
  is_dir "experiment_log.txt" (rs_dir st) = false ->
  (forall c, Dict.get (replace_dots solver_name) (rs_dir st) <> Some (File c)) ->
  is_dir (simple_name solver_name ++ "_output.txt")
         (subdir (replace_dots solver_name) (rs_dir st)) = false ->
  (forall ns0 es,
      is_dir (simple_name solver_name ++ "_output.txt")
             (subdir (replace_dots solver_name) es) = false ->
      is_dir (replace_dots solver_name) es = true ->
      exists d,
        Dict.get (replace_dots solver_name) (er_dir (engine_main ns0 es)) = Some (Dir d)
        /\ is_dir (simple_name solver_name ++ "_output.txt") d = false) ->
  exists es d,
    let res := engine_main
                 (acquired (path_join output_dir
                                      (run_dir_name (simple_name solver_name) run_idx))
                           num_slots solver_name ns) es in
    let st' := snd (run_solver_body engine_main py_str now elapsed solver_name num_slots
                                    output_dir run_idx st) in
    Dict.get (replace_dots solver_name) (rs_dir st')
    = Some (Dir (Dict.set (simple_name solver_name ++ "_output.txt")
                   (File (Text (capture_text
                                  (Some (er_out res ++ run_solver_line res,
                                         er_err res)))))
                   d))
    /\ rs_mod st' = Some (er_ns res).
Proof.
  intros Hmod Hcfg Hlog Hsd Hod Hengine.
  assert (Nsum : "summary.json" <> replace_dots solver_name)
    by (now apply replace_dots_not).
  assert (Nerr : "error.txt" <> replace_dots solver_name)
    by (now apply replace_dots_not).
  assert (Ncfg : "experiment_config.json" <> replace_dots solver_name)
    by (now apply replace_dots_not).
  assert (Nlog : "experiment_log.txt" <> replace_dots solver_name)
    by (now apply replace_dots_not).
  unfold run_solver_body. cbv zeta.
  match goal with
  | |- context [try_except ?body ?h st] =>
      set (handler := h);
      assert (Hh : forall e s,
                 Dict.get (replace_dots solver_name) (rs_dir (snd (handler e s)))
                 = Dict.get (replace_dots solver_name) (rs_dir s)
                 /\ rs_mod (snd (handler e s)) = rs_mod s)
  end.
  { intros e s. unfold handler. split.
    - apply (keeps_entry_bind rs_dir); [now apply keeps_fs_write|intros _].
      apply keeps_entry_ret.
    - apply keeps_mod_bind; [apply keeps_mod_fs_op|intros _]. apply keeps_mod_ret. }
  (* the steps before the call *)
  set (es1 := Dict.set "experiment_config.json" (File (Json
                (VDict [ ("solver", VStr solver_name);
                         ("num_slots", VInt num_slots);
                         ("run_idx", VNat run_idx);
                         ("start_time", VStr now);
                         ("main_config",
                          VDict [ ("OUT_DIR", getattr ns "OUT_DIR" (VStr "logs"));
                                  ("SLOTS", getattr ns "SLOTS" (VInt num_slots));
                                  ("SOLVERS_TO_RUN",
                                   getattr ns "SOLVERS_TO_RUN" (VList [])) ]) ])))
                (rs_dir st)).
  assert (Hlog1 : is_dir "experiment_log.txt" es1 = false)
    by (unfold es1; rewrite is_dir_set_file; simpl; exact Hlog).
  set (es2 := Dict.set "experiment_log.txt"
                (File (Text (now ++ " - Starting solver " ++ solver_name ++ nl
                             ++ "Run index: " ++ str_nat (run_idx + 1) ++ nl
                             ++ "Number of slots: " ++ str_Z num_slots ++ nl
                             ++ "Main module config: "
                             ++ py_str (VDict [ ("OUT_DIR", getattr ns "OUT_DIR" (VStr "logs"));
                                                ("SLOTS", getattr ns "SLOTS" (VInt num_slots));
                                                ("SOLVERS_TO_RUN",
                                                 getattr ns "SOLVERS_TO_RUN" (VList [])) ])
                             ++ nl)))
                es1).
  assert (Hsame : Dict.get (replace_dots solver_name) es2
                  = Dict.get (replace_dots solver_name) (rs_dir st))
    by (unfold es2, es1; now rewrite !dict_get_set_other by congruence).
  destruct (makedirs_dir (replace_dots solver_name) es2) as (es3 & Emk & Hget3).
  { intros c. rewrite Hsame. apply Hsd. }
  assert (Hsub3 : subdir (replace_dots solver_name) es3
                  = subdir (replace_dots solver_name) (rs_dir st))
    by (unfold subdir at 1; rewrite Hget3; unfold subdir; now rewrite Hsame).
  assert (Hdir3 : is_dir (replace_dots solver_name) es3 = true)
    by (unfold is_dir; now rewrite Hget3).
  set (ns3 := acquired (path_join output_dir
                                  (run_dir_name (simple_name solver_name) run_idx))
                       num_slots solver_name ns).
  set (st3 := set_dir es3 (set_mod (Some ns3) st)).
  destruct (Hengine ns3 es3) as (d & Hd & Hout);
    [now rewrite Hsub3|exact Hdir3|].
  destruct (capture_session_saves solver_name st3 ns3 d eq_refl Hd Hout)
    as (r & st4 & Ec & Hd4 & Hm4 & _).
  exists es3, d. cbv zeta.
  match goal with
  | |- context [try_except ?body handler st] =>
      assert (Eb : exists r5 st5,
                 body st = (r5, st5)
                 /\ Dict.get (replace_dots solver_name) (rs_dir st5)
                    = Dict.get (replace_dots solver_name) (rs_dir st4)
                 /\ rs_mod st5 = rs_mod st4)
  end.
  { erewrite bind_of_ok by (unfold import_main; rewrite Hmod; reflexivity).
    erewrite bind_of_ok by (apply fs_op_write_ok; exact Hcfg).
    erewrite bind_of_ok by (apply fs_op_write_ok; cbn [rs_dir set_dir]; exact Hlog1).
    erewrite bind_of_ok
      by (apply setattr_eq; cbn [rs_mod set_dir set_mod]; exact Hmod).
    erewrite bind_of_ok by (apply setattr_eq; reflexivity).
    erewrite bind_of_ok by (apply setattr_eq; reflexivity).
    erewrite bind_of_ok
      by (unfold fs_op; cbn [rs_dir set_dir set_mod]; fold es1; fold es2;
          rewrite Emk; reflexivity).
    match goal with
    | |- context [bind (capture_session _ _ _) ?k ?s] =>
        change s with st3
    end.
    destruct r as [[]|e].
    - erewrite bind_of_ok by exact Ec.
      match goal with
      | |- context [bind (gets rs_dir) ?k st4] =>
          assert (Hk : keeps_entry rs_dir (replace_dots solver_name) (bind (gets rs_dir) k));
          [|assert (Hkm : keeps_mod (bind (gets rs_dir) k));
            [|specialize (Hk st4); specialize (Hkm st4);
              destruct (bind (gets rs_dir) k st4) as [r5 st5]]]
      end.
      + apply keeps_entry_bind; [intros s; reflexivity|intros es].
        destruct (find _ _).
        * apply keeps_entry_bind; [apply keeps_entry_pure|intros c].
          apply keeps_entry_bind; [apply keeps_entry_pure|intros v].
          apply keeps_entry_bind; [now apply keeps_fs_write|intros _].
          apply keeps_entry_ret.
        * apply keeps_entry_bind; [now apply keeps_fs_write|intros _].
          apply keeps_entry_ret.
      + keeps_mod.
      + exists r5, st5. auto.
    - exists (Raise e), st4. split; [|auto].
      apply bind_of_raise. exact Ec. }
  destruct Eb as (r5 & st5 & Eb & Hd5 & Hm5).
  rewrite (try_except_state _ _ _ _ _ Eb).
  destruct r5 as [v|e].
  - rewrite Hd5, Hm5. auto.
  - destruct (Hh e st5) as [Hhd Hhm]. rewrite Hhd, Hhm, Hd5, Hm5. auto.
Qed.

Lemma run_solver_session solver_name num_slots output_dir run_idx w ns es0 :
  emod w = Some ns ->
  run_dir_state (run_dir_name (simple_name solver_name) run_idx) (fs w) = Some es0 ->
  is_dir "experiment_config.json" es0 = false ->
  is_dir "experiment_log.txt" es0 = false ->
  (forall c, Dict.get (replace_dots solver_name) es0 <> Some (File c)) ->
  is_dir (simple_name solver_name ++ "_output.txt")
         (subdir (replace_dots solver_name) es0) = false ->
  (forall ns0 es,
      is_dir (simple_name solver_name ++ "_output.txt")
             (subdir (replace_dots solver_name) es) = false ->
      is_dir (replace_dots solver_name) es = true ->
      exists d,
        Dict.get (replace_dots solver_name) (er_dir (engine_main ns0 es)) = Some (Dir d)
        /\ is_dir (simple_name solver_name ++ "_output.txt") d = false) ->
  exists es,
    let res := engine_main
                 (acquired (path_join output_dir
                                      (run_dir_name (simple_name solver_name) run_idx))
                           num_slots solver_name ns) es in
    let w' := snd (run_solver engine_main py_str now elapsed solver_name num_slots
                              output_dir run_idx w) in
    Dict.get (simple_name solver_name ++ "_output.txt")
      (subdir (replace_dots solver_name)
         (subdir (run_dir_name (simple_name solver_name) run_idx) (fs w')))
    = Some (File (Text (capture_text
                          (Some (er_out res ++ run_solver_line res, er_err res)))))
    /\ emod w' = Some (er_ns res).
Proof.
  intros Hmod Hdir Hcfg Hlog Hsd Hod Hengine.
  unfold run_solver.
  destruct (makedirs_run_dir _ _ _ Hdir) as (fs1 & Emk & Esub & Hsub).
  rewrite Emk. cbv zeta. rewrite Esub.
  match goal with
  | |- context [run_solver_body _ _ _ _ _ _ _ _ ?st] =>
      destruct (run_solver_body_session solver_name num_slots output_dir run_idx st ns)
        as (es & d & Hd & Hm); cbn [rs_mod rs_dir]; auto;
      destruct (run_solver_body engine_main py_str now elapsed solver_name num_slots
                                output_dir run_idx st) as [r st']
  end.
  exists es. cbv zeta. cbn [snd fs emod] in *. rewrite Hsub.
  split; [|exact Hm].
  unfold subdir at 1. rewrite Hd. apply dict_get_set_same.
Qed.


(** X14.  [run_solver] does not give the engine module its configuration
    back.  It overwrites [OUT_DIR], [SLOTS] and [SOLVERS_TO_RUN] before
    the call and never writes to the module again: after the run the
    module's attributes are those the engine's call left, so with an
    engine that does not touch them the three fields still hold the run
    directory, the slot count and the one-solver list of the run. *)
Theorem run_solver_keeps_overwritten_config :
  forall solver_name num_slots output_dir run_idx w ns es0,
    emod w = Some ns ->
    run_dir_state (run_dir_name (simple_name solver_name) run_idx) (fs w) = Some es0 ->
    is_dir "experiment_config.json" es0 = false ->
    is_dir "experiment_log.txt" es0 = false ->
    (forall c, Dict.get (replace_dots solver_name) es0 <> Some (File c)) ->
    is_dir (simple_name solver_name ++ "_output.txt")
           (subdir (replace_dots solver_name) es0) = false ->
    (forall ns0 es,
        is_dir (simple_name solver_name ++ "_output.txt")
               (subdir (replace_dots solver_name) es) = false ->
        is_dir (replace_dots solver_name) es = true ->
        exists d,
          Dict.get (replace_dots solver_name) (er_dir (engine_main ns0 es))
          = Some (Dir d)
          /\ is_dir (simple_name solver_name ++ "_output.txt") d = false) ->
    let run_dir := path_join output_dir (run_dir_name (simple_name solver_name) run_idx) in
    let w' := snd (run_solver engine_main py_str now elapsed solver_name num_slots
                              output_dir run_idx w) in
    (exists es,
        emod w' = Some (er_ns (engine_main (acquired run_dir num_slots solver_name ns) es)))
    /\ ((forall ns0 es, er_ns (engine_main ns0 es) = ns0) ->
        exists ns',
          emod w' = Some ns'
          /\ Dict.get "OUT_DIR" ns' = Some (VStr run_dir)
          /\ Dict.get "SLOTS" ns' = Some (VInt num_slots)
          /\ Dict.get "SOLVERS_TO_RUN" ns' = Some (VList [VStr solver_name])).
Proof.
  intros solver_name num_slots output_dir run_idx w ns es0
         Hmod Hdir Hcfg Hlog Hsd Hod Heng.
  cbv zeta.
  destruct (run_solver_session solver_name num_slots output_dir run_idx w ns es0
              Hmod Hdir Hcfg Hlog Hsd Hod Heng) as (es & _ & Hm).
  cbv zeta in Hm. split; [eauto|].
  intros Hid. rewrite Hid in Hm. eexists. split; [exact Hm|].
  unfold acquired.
  rewrite dict_get_set_same.
  rewrite (dict_get_set_other "SOLVERS_TO_RUN" "SLOTS") by discriminate.
  rewrite dict_get_set_same.
  rewrite (dict_get_set_other "SOLVERS_TO_RUN" "OUT_DIR") by discriminate.
  rewrite (dict_get_set_other "SLOTS" "OUT_DIR") by discriminate.
  rewrite dict_get_set_same. auto.
Qed.

End RunSolver.

Lemma engine_keeps_solver_dir (engine_main : namespace -> entries -> engine_result)
      solver_name :
  (forall ns0 es, er_dir (engine_main ns0 es) = es) ->
  forall ns0 es,
    is_dir (simple_name solver_name ++ "_output.txt")
           (subdir (replace_dots solver_name) es) = false ->
    is_dir (replace_dots solver_name) es = true ->
    exists d,
      Dict.get (replace_dots solver_name) (er_dir (engine_main ns0 es)) = Some (Dir d)
      /\ is_dir (simple_name solver_name ++ "_output.txt") d = false.
Proof.
  intros Hsame ns0 es Hout Hdir. rewrite Hsame.
  unfold is_dir in Hdir. unfold subdir in Hout.
  destruct (Dict.get (replace_dots solver_name) es) as [[c|d]|]; try discriminate.
  exists d. auto.
Qed.


Lemma run_solver_keeps_overwritten_config_witness :
  exists ns',
    emod (snd (run_solver Samples.quiet_engine Samples.plain_str Samples.clock
                          1 "solvers.A.A" 5 "out" 0 Samples.fresh_world)) = Some ns'
    /\ Dict.get "OUT_DIR" ns' = Some (VStr "out/A_run_1")
    /\ Dict.get "SLOTS" ns' = Some (VInt 5)
    /\ Dict.get "SOLVERS_TO_RUN" ns' = Some (VList [VStr "solvers.A.A"]).
Proof.
  apply (run_solver_keeps_overwritten_config Samples.quiet_engine Samples.plain_str
           Samples.clock 1%Q "solvers.A.A" 5%Z "out" 0%nat Samples.fresh_world
           Samples.configured []);
    try reflexivity.
  - discriminate.
  - apply engine_keeps_solver_dir. reflexivity.
Defined.

Section RunSolverEnvelope.

Variable engine_main : namespace -> entries -> engine_result.
Variable py_str : value -> string.
Variable now : string.
Variable elapsed : Q.


End RunSolverEnvelope.


(** ** Unconditional restoration in the single-solver scripts *)

Lemma written_back_given_back (ns after : namespace) :
  config_given_back ns (written_back (snapshot ns) after).
Proof.
  intros k Hk. unfold written_back, snapshot, getattr.
  assert (Hcase : forall v, (match Dict.get k ns with Some v' => v' | None => VNone end = v) ->
                            Some v = Dict.get k ns
                            \/ (Dict.get k ns = None /\ Some v = Some VNone)).
  { intros v Hv. destruct (Dict.get k ns); subst; auto. }
  destruct Hk as [<-|[<-|[<-|[]]]].
  - rewrite dict_get_set_other, dict_get_set_other, dict_get_set_same by discriminate.
    now apply Hcase.
  - rewrite dict_get_set_other, dict_get_set_same by discriminate. now apply Hcase.
  - rewrite dict_get_set_same. now apply Hcase.
Qed.

Lemma config_given_back_refl (ns : namespace) : config_given_back ns ns.
Proof. intros k _. now left. Qed.

Lemma has_module_keeps {A} (m : M run_state A) :
  keeps_mod m -> preserves has_module m.
Proof. intros Hm st [ns H]. exists ns. now rewrite Hm. Qed.

Lemma has_module_call_engine engine_main : preserves has_module (call_engine engine_main).
Proof.
  intros st [ns H]. unfold call_engine. rewrite H. simpl. eexists. reflexivity.
Qed.

Lemma has_module_setattr k v : preserves has_module (setattr k v).
Proof.
  intros st [ns H]. unfold setattr. rewrite H. simpl. eexists. reflexivity.
Qed.

Lemma write_back_ok originals st :
  has_module st ->
  exists ns,
    rs_mod st = Some ns
    /\ (let '(o1, o2, o3) := originals in
        setattr "OUT_DIR" o1 ;; setattr "SLOTS" o2 ;; setattr "SOLVERS_TO_RUN" o3) st
       = (Ok tt, set_mod (Some (written_back originals ns)) st).
Proof.
  intros [ns H]. exists ns. split; [exact H|].
  destruct originals as [[o1 o2] o3].
  erewrite bind_of_ok by (apply setattr_eq; exact H).
  erewrite bind_of_ok by (apply setattr_eq; reflexivity).
  erewrite setattr_eq by reflexivity. reflexivity.
Qed.

Section OoraaRestores.

Variable engine_main : namespace -> entries -> engine_result.
Variable now : string.

Lemma ooraa_session_restores run_dir originals st :
  has_module st ->
  exists r st' ns',
    ooraa_session engine_main run_dir originals st = (r, st')
    /\ rs_mod st' = Some (written_back originals ns').
Proof.
  intros Hmod. unfold ooraa_session.
  destruct originals as [[o1 o2] o3].
  erewrite bind_of_ok by reflexivity.
  match goal with
  | |- context [try_finally ?body ?final ?s] =>
      assert (Hb : preserves has_module body);
      [|assert (Hs : has_module s) by (destruct Hmod as [ns H]; exists ns; exact H);
        specialize (Hb s Hs); destruct (body s) as [r s1] eqn:Eb]
  end.
  - apply preserves_try_except.
    + apply preserves_bind; [apply has_module_keeps, keeps_mod_print|intros _].
      apply preserves_bind; [apply has_module_call_engine|intros _].
      apply has_module_keeps, keeps_mod_print.
    + intros e. apply has_module_keeps. keeps_mod.
  - simpl in Hb.
    match goal with
    | |- context [try_finally _ ?final _] =>
        assert (Ef : exists s2 ns', final s1 = (Ok tt, s2)
                                    /\ rs_mod s2 = Some (written_back (o1, o2, o3) ns'))
    end.
    { unfold bind at 1, gets. unfold bind at 1, modify.
      match goal with
      | |- context [bind (try_except ?m ?h) ?k ?s] =>
          assert (Hk : keeps_mod (try_except m h)) by keeps_mod;
          specialize (Hk s);
          assert (Eo : exists s3, try_except m h s = (Ok tt, s3))
      end.
      { unfold try_except. destruct (fs_op _ _) as [[[]|e] s3]; eexists; reflexivity. }
      destruct Eo as (s3 & Eo). rewrite Eo in Hk. simpl in Hk.
      erewrite bind_of_ok by exact Eo.
      destruct (write_back_ok (o1, o2, o3) s3) as (ns' & Hns & Ew).
      { destruct Hb as [ns H]. exists ns. now rewrite Hk. }
      rewrite Ew. eexists _, ns'. split; reflexivity. }
    destruct Ef as (s2 & ns' & Ef & Hm).
    exists r, s2, ns'. split; [|exact Hm].
    eapply try_finally_of; eauto.
Qed.

Lemma ooraa_guarded_restores run_dir st ns :
  rs_mod st = Some ns ->
  exists ns', rs_mod (snd (ooraa_guarded engine_main run_dir st)) = Some ns'
              /\ config_given_back ns ns'.
Proof.
  intros Hmod. unfold ooraa_guarded.
  match goal with
  | |- context [try_except ?body ?h st] =>
      assert (Eb : exists r st' after,
                 body st = (r, st')
                 /\ rs_mod st' = Some (written_back (snapshot ns) after))
  end.
  { erewrite bind_of_ok by (unfold import_main; rewrite Hmod; reflexivity).
    erewrite bind_of_ok by (apply setattr_eq; exact Hmod).
    erewrite bind_of_ok by (apply setattr_eq; reflexivity).
    erewrite bind_of_ok by (apply setattr_eq; reflexivity).
    match goal with
    | |- context [ooraa_session _ _ ?o ?s] =>
        destruct (ooraa_session_restores run_dir o s) as (r & st' & after & E & Hm);
        [eexists; reflexivity|]
    end.
    exists r, st', after. split; [exact E|exact Hm]. }
  destruct Eb as (r & st' & after & Eb & Hm).
  rewrite (try_except_state _ _ _ _ _ Eb).
  exists (written_back (snapshot ns) after).
  split; [destruct r; exact Hm|apply written_back_given_back].
Qed.

Lemma ooraa_body_restores st ns :
  rs_mod st = Some ns ->
  exists ns', rs_mod (snd (ooraa_body engine_main now st)) = Some ns'
              /\ config_given_back ns ns'.
Proof.
  intros Hmod. unfold ooraa_body. cbv zeta.
  match goal with
  | |- context [bind ?m1 (fun _ => bind ?m2 (fun _ => bind ?g ?k)) st] =>
      pose proof (keeps_mod_fs_op (makedirs ooraa_solver_dir) st) as H1;
      destruct (m1 st) as [[[]|e1] s1] eqn:E1; simpl in H1
  end.
  2:{ erewrite bind_of_raise by exact E1. simpl. exists ns.
      split; [congruence|apply config_given_back_refl]. }
  erewrite bind_of_ok by exact E1.
  match goal with
  | |- context [bind ?m2 (fun _ => bind ?g ?k) s1] =>
      pose proof ((ltac:(apply keeps_mod_fs_op) : keeps_mod m2) s1) as H2;
      destruct (m2 s1) as [[[]|e2] s2] eqn:E2; simpl in H2
  end.
  2:{ erewrite bind_of_raise by exact E2. simpl. exists ns.
      split; [congruence|apply config_given_back_refl]. }
  erewrite bind_of_ok by exact E2.
  destruct (ooraa_guarded_restores
              (path_join "test_results" (ooraa_simple ++ "_run_1")) s2 ns)
    as (ns' & Hm & Hback); [congruence|].
  match goal with
  | |- context [bind (ooraa_guarded _ ?rd) ?k s2] =>
      assert (Eg : exists s3, ooraa_guarded engine_main rd s2 = (Ok tt, s3))
  end.
  { unfold ooraa_guarded, try_except.
    match goal with |- context [match ?x with _ => _ end] => destruct x as [[[]|e] s3] end;
      eexists; reflexivity. }
  destruct Eg as (s3 & Eg). rewrite Eg in Hm. simpl in Hm.
  erewrite bind_of_ok by exact Eg.
  exists ns'. split; [|exact Hback].
  rewrite <- Hm.
  match goal with
  | |- rs_mod (snd (?m s3)) = _ => assert (Hk : keeps_mod m); [|apply Hk]
  end.
  unfold redump_summary. keeps_mod.
Qed.

(** X17.  The OORAA script always gives the engine module its
    configuration back.  Whatever the engine does, and wherever the
    script stops, each of [OUT_DIR], [SLOTS] and [SOLVERS_TO_RUN] holds
    afterwards what it held before the script ran; the write-back is
    unconditional, so a field the module did not define exists afterwards
    with the value [None]. *)
Theorem ooraa_restores_config :
  forall w ns,
    emod w = Some ns ->
    exists ns',
      emod (snd (ooraa_main engine_main now w)) = Some ns'
      /\ config_given_back ns ns'.
Proof.
  intros w ns Hmod. unfold ooraa_main, in_run_dir.
  destruct (makedirs _ (fs w)) as [fs1|e]; simpl.
  - match goal with
    | |- context [ooraa_body _ _ ?st] =>
        destruct (ooraa_body_restores st ns Hmod) as (ns' & Hm & Hback);
        destruct (ooraa_body engine_main now st) as [r st']
    end.
    simpl in *. eauto.
  - exists ns. split; [exact Hmod|apply config_given_back_refl].
Qed.

End OoraaRestores.

Lemma ooraa_restores_config_witness :
  emod Samples.bare_world = Some []
  /\ emod (snd (ooraa_main Samples.raising_engine Samples.clock Samples.bare_world))
     = Some [ ("OUT_DIR", VNone); ("SLOTS", VNone); ("SOLVERS_TO_RUN", VNone) ]
  /\ exists ns',
      emod (snd (ooraa_main Samples.raising_engine Samples.clock Samples.bare_world))
      = Some ns'
      /\ config_given_back [] ns'.
Proof.
  split; [reflexivity|]. split; [vm_compute; reflexivity|].
  apply (ooraa_restores_config Samples.raising_engine Samples.clock
           Samples.bare_world []).
  reflexivity.
Defined.

(** ** What the OORAA script leaves behind *)

Lemma first_summary_root run_dir es c :
  Dict.get "summary.json" es = Some (File c) ->
  exists found, first_summary run_dir es = Some found.
Proof.
  intros H. unfold first_summary.
  destruct (find _ _) as [found|] eqn:E; [eauto|].
  exfalso.
  pose proof (find_none _ _ E {| w_comps := []; w_root := run_dir;
                                 w_file := "summary.json" |}) as Hn.
  simpl in Hn. discriminate Hn.
  apply in_or_app. left. unfold files_here. apply in_flat_map.
  exists ("summary.json", File c). split; [now apply dict_get_in|].
  simpl. now left.
Qed.

Lemma redump_summary_state found st :
  exists st',
    redump_summary found st = (Ok tt, st')
    /\ (st' = st
        \/ exists v, rs_dir st' = Dict.set "summary.json" (File (Json v)) (rs_dir st)).
Proof.
  unfold redump_summary, bind at 1, gets, try_except, bind, lift_result.
  destruct (open_read _ _ _) as [c|e]; [|eexists; split; [reflexivity|now left]].
  destruct (json_load c) as [v|e]; [|eexists; split; [reflexivity|now left]].
  unfold fs_op, write_file.
  destruct (Dict.get "summary.json" (rs_dir st)) as [[|]|];
    eexists; (split; [reflexivity|]); simpl;
      first [now left | right; eexists; reflexivity].
Qed.

Section OoraaOutcome.

Variable engine_main : namespace -> entries -> engine_result.
Variable now : string.

Lemma ooraa_body_outcome st :
  (forall e st',
      ooraa_body engine_main now st = (Raise e, st') ->
      e = OSError "FileExistsError" ooraa_solver_dir
      \/ blocked_by_dir ["experiment_config.json"; "summary.json"] e)
  /\ (forall st',
         ooraa_body engine_main now st = (Ok tt, st') ->
         exists found,
           first_summary (path_join "test_results" (ooraa_simple ++ "_run_1"))
                         (rs_dir st') = Some found).
Proof.
  unfold ooraa_body. cbv zeta.
  set (run_dir := path_join "test_results" (ooraa_simple ++ "_run_1")).
  destruct (fs_op (makedirs ooraa_solver_dir) st) as [[[]|e1] s1] eqn:E1.
  2:{ rewrite (bind_of_raise _ _ _ _ _ E1).
      split; [|discriminate]. intros e st' H. inversion H; subst. left.
      unfold fs_op in E1.
      destruct (makedirs _ (rs_dir st)) eqn:Em; inversion E1; subst.
      now apply makedirs_raise in Em. }
  rewrite (bind_of_ok _ _ _ _ _ E1).
  match goal with
  | |- context [bind (fs_op (write_file "experiment_config.json" ?c)) _ s1] =>
      destruct (fs_op (write_file "experiment_config.json" c) s1)
        as [[[]|e2] s2] eqn:E2
  end.
  2:{ rewrite (bind_of_raise _ _ _ _ _ E2).
      split; [|discriminate]. intros e st' H. inversion H; subst. right.
      eapply (raises_only_fs_write _ "experiment_config.json"); [|exact E2].
      simpl. auto. }
  rewrite (bind_of_ok _ _ _ _ _ E2).
  assert (Eg : exists s3, ooraa_guarded engine_main run_dir s2 = (Ok tt, s3)).
  { unfold ooraa_guarded, try_except.
    match goal with |- context [match ?x with _ => _ end] => destruct x as [[[]|e] s3] end;
      eexists; reflexivity. }
  destruct Eg as (s3 & Eg). rewrite (bind_of_ok _ _ _ _ _ Eg).
  unfold bind at 1, gets. unfold bind at 1, gets.
  destruct (first_summary run_dir (rs_dir s3)) as [found|] eqn:Ef.
  - destruct (redump_summary_state found s3) as (s4 & Er & Hs4).
    rewrite Er. split; [discriminate|].
    intros st' H. inversion H; subst st'.
    destruct Hs4 as [->|(v & Hv)]; [eauto|].
    rewrite Hv. eapply first_summary_root. apply dict_get_set_same.
  - split.
    + intros e st' H. right.
      eapply (raises_only_fs_write _ "summary.json"); [|exact H]. simpl. auto.
    + intros st' H. unfold fs_op in H.
      destruct (write_file _ _ (rs_dir s3)) as [es|e] eqn:Ew; inversion H; subst.
      unfold write_file in Ew.
      destruct (Dict.get "summary.json" (rs_dir s3)) as [[|]|]; inversion Ew; subst;
        simpl; eapply first_summary_root; apply dict_get_set_same.
Qed.


End OoraaOutcome.

(** ** The test script *)

Lemma module_is_keeps {A} ns (m : M run_state A) :
  keeps_mod m -> preserves (module_is ns) m.
Proof. intros Hm st H. unfold module_is. now rewrite Hm. Qed.

Lemma test_inv_lift_run {A} bound (P : run_state -> Prop) (m : M run_state A) :
  preserves P m -> preserves (test_inv bound P) (lift_run m).
Proof.
  intros Hm ts [Hb HP]. unfold lift_run. specialize (Hm _ HP).
  destruct (m (ts_run ts)) as [r st]. split; [exact Hb|exact Hm].
Qed.

Lemma keeps_mod_debug_append t : keeps_mod (debug_append t).
Proof. apply keeps_mod_fs_op. Qed.

Lemma keeps_mod_redump found : keeps_mod (redump_summary found).
Proof. unfold redump_summary. keeps_mod. Qed.

Section TestRestores.

Variable engine_main : namespace -> entries -> engine_result.
Variable now : string.
Variable solver_module : result namespace.

Lemma keeps_mod_check_solver : keeps_mod (test_check_solver solver_module).
Proof.
  unfold test_check_solver.
  apply keeps_mod_try_except.
  - apply keeps_mod_bind; [apply keeps_mod_lift_result|intros attrs].
    destruct (Dict.mem _ _); [apply keeps_mod_ret|].
    apply keeps_mod_bind; [apply keeps_mod_debug_append|intros _]. apply keeps_mod_ret.
  - intros e. apply keeps_mod_bind; [apply keeps_mod_debug_append|intros _].
    apply keeps_mod_ret.
Qed.

Lemma has_module_copy_summary run_dir :
  preserves has_module (test_copy_summary run_dir).
Proof.
  apply has_module_keeps. unfold test_copy_summary.
  apply keeps_mod_bind; [apply keeps_mod_gets|intros es].
  destruct (first_summary _ _); [apply keeps_mod_redump|apply keeps_mod_ret].
Qed.

Lemma test_run_engine_bound run_dir ts ns :
  test_inv None (module_is ns) ts ->
  test_inv (Some (snapshot ns)) has_module
           (snd (test_run_engine engine_main run_dir ts)).
Proof.
  intros [Hb Hm]. unfold test_run_engine.
  erewrite bind_state
    by (unfold lift_run, import_main; rewrite Hm; reflexivity).
  cbv beta iota.
  erewrite bind_state by reflexivity. cbv beta iota.
  match goal with
  | |- test_inv ?b ?P (snd (?m ?s)) =>
      assert (Hp : preserves (test_inv b P) m); [|apply Hp]
  end.
  - apply preserves_bind;
      [apply test_inv_lift_run, has_module_setattr|intros _].
    apply preserves_bind;
      [apply test_inv_lift_run, has_module_setattr|intros _].
    apply preserves_bind;
      [apply test_inv_lift_run, has_module_setattr|intros _].
    apply preserves_bind;
      [apply test_inv_lift_run, has_module_keeps, keeps_mod_fs_op|intros _].
    apply preserves_bind;
      [apply test_inv_lift_run, has_module_call_engine|intros _].
    apply test_inv_lift_run, has_module_copy_summary.
  - split; [reflexivity|]. exists ns. exact Hm.
Qed.

Lemma test_restore_gives_back ns ts :
  test_inv None (module_is ns) ts
  \/ test_inv (Some (snapshot ns)) has_module ts ->
  exists ts' ns',
    test_restore ts = (Ok tt, ts')
    /\ rs_mod (ts_run ts') = Some ns'
    /\ config_given_back ns ns'.
Proof.
  unfold test_restore, bind at 1, gets.
  intros [[Hb Hm]|[Hb Hm]]; rewrite Hb.
  - exists ts, ns. split; [reflexivity|]. split; [exact Hm|apply config_given_back_refl].
  - unfold snapshot.
    destruct (write_back_ok (snapshot ns) (ts_run ts) Hm) as (after & Ha & Ew).
    unfold snapshot in Ew.
    eexists _, (written_back (snapshot ns) after). split; [|split].
    + unfold bind, lift_run in *.
      rewrite (setattr_eq _ _ _ _ Ha). cbn [ts_run].
      erewrite setattr_eq by reflexivity. cbn [ts_run].
      erewrite setattr_eq by reflexivity. reflexivity.
    + reflexivity.
    + apply written_back_given_back.
Qed.

Lemma test_body_restores ts ns :
  test_inv None (module_is ns) ts ->
  exists ns',
    rs_mod (ts_run (snd (test_body engine_main now solver_module ts))) = Some ns'
    /\ config_given_back ns ns'.
Proof.
  intros Hinv. unfold test_body. cbv zeta.
  match goal with
  | |- context [bind ?m1 ?k ts] =>
      assert (H1 : preserves (test_inv None (module_is ns)) m1)
        by (apply test_inv_lift_run, module_is_keeps, keeps_mod_fs_op);
      specialize (H1 ts Hinv);
      destruct (m1 ts) as [[[]|e1] ts1] eqn:E1; simpl in H1
  end.
  2:{ rewrite (bind_of_raise _ _ _ _ _ E1). simpl. exists ns.
      split; [apply H1|apply config_given_back_refl]. }
  rewrite (bind_of_ok _ _ _ _ _ E1).
  match goal with
  | |- context [try_finally ?body ?final ts1] =>
      assert (Hb : test_inv None (module_is ns) (snd (body ts1))
                   \/ test_inv (Some (snapshot ns)) has_module (snd (body ts1)))
  end.
  { match goal with
    | |- context [try_except ?A ?H ts1] =>
        assert (HA : test_inv None (module_is ns) (snd (A ts1))
                     \/ test_inv (Some (snapshot ns)) has_module (snd (A ts1)));
        [|destruct (A ts1) as [rA tsA] eqn:EA;
          rewrite (try_except_state _ _ _ _ _ EA); simpl in HA;
          destruct rA as [[]|e]; [exact HA|]]
    end.
    - pose proof (test_inv_lift_run None (module_is ns) _
                    (module_is_keeps ns _ keeps_mod_check_solver) ts1 H1) as Hc.
      destruct (lift_run (test_check_solver solver_module) ts1) as [[proceed|e] ts2] eqn:Ec;
        simpl in Hc.
      + rewrite (bind_of_ok _ _ _ _ _ Ec).
        destruct proceed; [|now left].
        right. now apply test_run_engine_bound.
      + rewrite (bind_of_raise _ _ _ _ _ Ec). now left.
    - destruct HA as [HA|HA]; [left|right];
        (eapply test_inv_lift_run; [|exact HA]);
        [apply module_is_keeps|apply has_module_keeps]; apply keeps_mod_debug_append. }
  match goal with
  | |- context [try_finally ?body ?final ts1] =>
      destruct (body ts1) as [r ts2] eqn:Eb; simpl in Hb;
      destruct (test_restore_gives_back ns ts2 Hb) as (ts3 & ns' & Ef & Hm & Hback);
      rewrite (try_finally_of _ _ _ _ _ _ Eb Ef)
  end.
  simpl. eauto.
Qed.

(** X20.  The test script gives the engine module its configuration
    back on every path: when the solver module cannot be imported or
    lacks the class (the engine module is then not touched), when the
    solver's directory cannot be created, when the engine raises, and
    when it returns.  Each of [OUT_DIR], [SLOTS] and [SOLVERS_TO_RUN]
    holds afterwards what it held before; the [finally] block writes back
    without a guard, so a field the module did not define exists
    afterwards with the value [None]. *)
Theorem test_script_restores_config :
  forall w ns,
    emod w = Some ns ->
    exists ns',
      emod (snd (test_main engine_main now solver_module w)) = Some ns'
      /\ config_given_back ns ns'.
Proof.
  intros w ns Hmod. unfold test_main, in_run_dir.
  destruct (makedirs _ (fs w)) as [fs1|e]; simpl.
  - match goal with
    | |- context [test_body _ _ _ ?ts] =>
        destruct (test_body_restores ts ns) as (ns' & Hm & Hback);
        [split; [reflexivity|exact Hmod]|];
        destruct (test_body engine_main now solver_module ts) as [r ts']
    end.
    simpl in *. eauto.
  - exists ns. split; [exact Hmod|apply config_given_back_refl].
Qed.

End TestRestores.

Lemma test_script_restores_config_witness :
  emod Samples.bare_world = Some []
  /\ emod (snd (test_main Samples.raising_engine Samples.clock
                          (Ok [("BARGAIN_MATCH_Solver", VNone)]) Samples.bare_world))
     = Some [ ("OUT_DIR", VNone); ("SLOTS", VNone); ("SOLVERS_TO_RUN", VNone) ]
  /\ exists ns',
      emod (snd (test_main Samples.raising_engine Samples.clock
                           (Ok [("BARGAIN_MATCH_Solver", VNone)]) Samples.bare_world))
      = Some ns'
      /\ config_given_back [] ns'.
Proof.
  split; [reflexivity|]. split; [vm_compute; reflexivity|].
  apply (test_script_restores_config Samples.raising_engine Samples.clock
           (Ok [("BARGAIN_MATCH_Solver", VNone)]) Samples.bare_world []).
  reflexivity.
Defined.

Lemma module_reads_keeps {A} m0 (m : M run_state A) :
  keeps_mod m -> preserves (module_reads m0) m.
Proof. intros Hm st H. unfold module_reads. now rewrite Hm. Qed.

Lemma bind_ext {S A B} (m : M S A) (k k' : A -> M S B) s :
  (forall a s1, k a s1 = k' a s1) -> bind m k s = bind m k' s.
Proof. intros H. unfold bind. destruct (m s) as [[a|e] s1]; [apply H|reflexivity]. Qed.

Lemma bind_ext_on {S A B} (m : M S A) (k k' : A -> M S B) s :
  (forall a s1, m s = (Ok a, s1) -> k a s1 = k' a s1) -> bind m k s = bind m k' s.
Proof.
  intros H. unfold bind. destruct (m s) as [[a|e] s1]; [now apply H|reflexivity].
Qed.

Lemma try_except_ext {S A} (m m' : M S A) (h : exn -> M S A) s :
  (forall s0, m s0 = m' s0) -> try_except m h s = try_except m' h s.
Proof. intros H. unfold try_except. now rewrite H. Qed.

Lemma try_finally_ext {S A} (m m' : M S A) (f : M S unit) s :
  (forall s0, m s0 = m' s0) -> try_finally m f s = try_finally m' f s.
Proof. intros H. unfold try_finally. now rewrite H. Qed.

Section TestGuard.

Variable now : string.
Variable solver_module : result namespace.

Hypothesis unusable : solver_unusable solver_module.

Lemma check_solver_gives_up st :
  is_dir "debug_log.txt" (rs_dir st) = false ->
  exists c,
    test_check_solver solver_module st
    = (Ok false, set_dir (Dict.set "debug_log.txt" (File (Text c)) (rs_dir st)) st)
    /\ forall t0, Dict.get "debug_log.txt" (rs_dir st) = Some (File (Text t0)) ->
                  c = t0 ++ solver_unusable_line solver_module.
Proof.
  intros Hlog. unfold test_check_solver, debug_append, try_except, bind, lift_result, fs_op.
  unfold solver_unusable in unusable. unfold solver_unusable_line.
  destruct solver_module as [attrs|e].
  - rewrite unusable.
    destruct (append_file_ok "debug_log.txt"
                ("ERROR: " ++ test_simple ++ " class not found" ++ nl) _ Hlog)
      as (c & Ea & _ & Hc).
    rewrite Ea. exists c. split; [reflexivity|exact Hc].
  - destruct (append_file_ok "debug_log.txt" ("Import error: " ++ str_exn e ++ nl) _ Hlog)
      as (c & Ea & _ & Hc).
    rewrite Ea. exists c. split; [reflexivity|exact Hc].
Qed.

Lemma check_solver_never_proceeds st st' :
  test_check_solver solver_module st <> (Ok true, st').
Proof.
  unfold test_check_solver, debug_append, try_except, bind, lift_result, fs_op.
  unfold solver_unusable in unusable.
  destruct solver_module as [attrs|e].
  - rewrite unusable. destruct (append_file _ _ _); [|destruct (append_file _ _ _)];
      discriminate.
  - destruct (append_file _ _ _); discriminate.
Qed.

Lemma test_body_engine_free engine_main ts :
  test_body engine_main now solver_module ts
  = test_body (fun ns es => {| er_dir := es; er_ns := ns; er_out := ""; er_err := "";
                               er_raised := None |})
              now solver_module ts.
Proof.
  unfold test_body. cbv zeta.
  apply bind_ext. intros _ ts1.
  apply try_finally_ext. intros ts2.
  apply try_except_ext. intros ts3.
  apply bind_ext_on. intros proceed ts4 Hc.
  destruct proceed; [|reflexivity].
  exfalso. unfold lift_run in Hc.
  destruct (test_check_solver solver_module (ts_run ts3)) as [r st'] eqn:E.
  inversion Hc; subst. now apply check_solver_never_proceeds in E.
Qed.

Lemma test_body_gives_up engine_main st :
  is_dir "debug_log.txt" (rs_dir st) = false ->
  test_body engine_main now solver_module {| ts_run := st; ts_originals := None |}
  = (Ok tt,
     {| ts_run :=
          set_dir (Dict.set "debug_log.txt"
                     (File (Text (("Testing " ++ test_solver ++ nl
                                   ++ "Start time: " ++ now ++ nl)
                                  ++ solver_unusable_line solver_module)))
                     (rs_dir st)) st;
        ts_originals := None |}).
Proof.
  intros Hlog. unfold test_body. cbv zeta.
  erewrite bind_of_ok
    by (unfold lift_run; cbn [ts_run]; rewrite (fs_op_write_ok _ _ _ Hlog); reflexivity).
  match goal with
  | |- context [try_finally _ _ ?ts1] =>
      destruct (check_solver_gives_up (ts_run ts1)) as (c & Ec & Hc)
  end.
  { cbn [ts_run rs_dir set_dir]. now rewrite is_dir_set_file, String.eqb_refl. }
  cbn [ts_run rs_dir set_dir] in Ec, Hc.
  specialize (Hc _ (dict_get_set_same _ _ _)). subst c.
  rewrite dict_set_set_same in Ec.
  erewrite try_finally_of;
    [|apply try_except_of_ok;
      erewrite bind_of_ok by (unfold lift_run; cbn [ts_run]; rewrite Ec; reflexivity);
      reflexivity
     |reflexivity].
  reflexivity.
Qed.


End TestGuard.


(** ** The entry point of [run_bargain_match.py] *)

Section BargainOutcome.

Variable engine_main : namespace -> entries -> engine_result.
Variable py_str : value -> string.
Variable now : string.
Variable elapsed : Q.

Lemma run_solver_raise_cases solver_name num_slots output_dir run_idx w e w' :
  run_solver engine_main py_str now elapsed solver_name num_slots output_dir run_idx w
  = (Raise e, w') ->
  e = OSError "FileExistsError" (run_dir_name (simple_name solver_name) run_idx)
  \/ e = OSError "IsADirectoryError" "error.txt".
Proof.
  unfold run_solver.
  destruct (makedirs _ (fs w)) as [fs1|e0] eqn:Emk.
  - destruct (run_solver_body _ _ _ _ _ _ _ _ _) as [r st'] eqn:Eb.
    intros H. inversion H; subst. right.
    unfold run_solver_body in Eb. cbv zeta in Eb.
    apply try_except_raise in Eb. destruct Eb as (e0 & s1 & _ & Eh).
    apply bind_raise in Eh. destruct Eh as [Eh|(a & s2 & _ & Eh)]; [|discriminate].
    unfold fs_op in Eh.
    destruct (write_file _ _ (rs_dir s1)) eqn:Ew; inversion Eh; subst.
    eapply write_file_raise; eauto.
  - intros H. inversion H; subst. left.
    apply makedirs_raise in Emk. now destruct Emk as [-> _].
Qed.


End BargainOutcome.

(** ** The re-execution of the reconciliation pass *)

Lemma readattr_eq k st ns v :
  rs_mod st = Some ns -> Dict.get k ns = Some v -> readattr k st = (Ok v, st).
Proof. intros Hm Hk. unfold readattr. now rewrite Hm, Hk. Qed.

Lemma acquire_direct_eq run_dir num_slots solver_name st ns v1 v2 v3 :
  rs_mod st = Some ns ->
  Dict.get "OUT_DIR" ns = Some v1 ->
  Dict.get "SLOTS" ns = Some v2 ->
  Dict.get "SOLVERS_TO_RUN" ns = Some v3 ->
  acquire_direct run_dir num_slots solver_name st
  = (Ok (v1, v2, v3),
     set_mod (Some (acquired run_dir num_slots solver_name ns)) st).
Proof.
  intros Hm H1 H2 H3. unfold acquire_direct.
  erewrite bind_of_ok by (eapply readattr_eq; eauto).
  erewrite bind_of_ok by (eapply readattr_eq; eauto).
  erewrite bind_of_ok by (eapply readattr_eq; eauto).
  erewrite bind_of_ok by (apply setattr_eq; exact Hm).
  erewrite bind_of_ok by (apply setattr_eq; reflexivity).
  erewrite bind_of_ok by (apply setattr_eq; reflexivity).
  reflexivity.
Qed.

Section ReexecutionFailures.

Variable engine_main : namespace -> entries -> engine_result.
Variable now : string.

Lemma direct_body_blocked solver_name num_slots output_dir traceback_bound
      st ns v1 v2 v3 c :
  rs_mod st = Some ns ->
  Dict.get "OUT_DIR" ns = Some v1 ->
  Dict.get "SLOTS" ns = Some v2 ->
  Dict.get "SOLVERS_TO_RUN" ns = Some v3 ->
  is_dir "direct_execution_log.txt" (rs_dir st) = false ->
  Dict.get (replace_dots solver_name) (rs_dir st) = Some (File c) ->
  exists st',
    direct_body engine_main now solver_name num_slots output_dir traceback_bound st
    = (Raise (OSError "FileExistsError" (replace_dots solver_name)), st')
    /\ rs_mod st'
       = Some (acquired (path_join output_dir (simple_name solver_name ++ "_run_1"))
                        num_slots solver_name ns).
Proof.
  intros Hm H1 H2 H3 Hlog Hfile. unfold direct_body. cbv zeta.
  erewrite bind_of_ok by (apply fs_op_write_ok; exact Hlog).
  erewrite bind_of_ok by (unfold import_main; cbn [rs_mod set_dir]; rewrite Hm; reflexivity).
  erewrite bind_of_ok by (eapply acquire_direct_eq; eauto).
  eexists. split.
  - apply bind_of_raise. unfold fs_op, makedirs. cbn [rs_dir set_dir set_mod].
    rewrite dict_get_set_other
      by (apply replace_dots_not; reflexivity).
    rewrite Hfile. reflexivity.
  - reflexivity.
Qed.

(** X21.  The re-execution of the reconciliation pass restores the
    configuration only from inside its [try ... finally]; the solver's
    directory is created after the three fields are overwritten and
    before that block is entered.  So when a regular file has the name of
    the solver's directory, the reconciliation of the solver still ends
    normally, but the engine module is left with [OUT_DIR], [SLOTS] and
    [SOLVERS_TO_RUN] of the re-execution. *)
Theorem reconcile_leaves_overwritten_config :
  forall num_slots output_dir solver_name bs ns v1 v2 v3 es0 c,
    solver_executed (simple_name solver_name) (batch_fs bs) = false ->
    emod (bs_world bs) = Some ns ->
    Dict.get "OUT_DIR" ns = Some v1 ->
    Dict.get "SLOTS" ns = Some v2 ->
    Dict.get "SOLVERS_TO_RUN" ns = Some v3 ->
    run_dir_state (simple_name solver_name ++ "_run_1") (batch_fs bs) = Some es0 ->
    is_dir "direct_execution_log.txt" es0 = false ->
    Dict.get (replace_dots solver_name) es0 = Some (File c) ->
    exists bs',
      reconcile engine_main now num_slots output_dir solver_name bs = (Ok tt, bs')
      /\ emod (bs_world bs')
         = Some (acquired (path_join output_dir (simple_name solver_name ++ "_run_1"))
                          num_slots solver_name ns).
Proof.
  intros num_slots output_dir solver_name bs ns v1 v2 v3 es0 c
         Hex Hm H1 H2 H3 Hdir Hlog Hfile.
  unfold reconcile, batch_fs in *. cbv zeta. rewrite Hex.
  destruct (makedirs_run_dir _ _ _ Hdir) as (fs1 & Emk & Esub & _).
  rewrite Emk, Esub.
  match goal with
  | |- context [direct_body _ _ _ _ _ _ ?st] =>
      destruct (direct_body_blocked solver_name num_slots output_dir (bs_traceback bs)
                  st ns v1 v2 v3 c Hm H1 H2 H3 Hlog Hfile) as (st' & Eb & Hm')
  end.
  rewrite Eb. eexists. split; [reflexivity|]. exact Hm'.
Qed.

Lemma direct_final_ok solver_name originals s1 :
  has_module s1 ->
  exists s2,
    (let '(original_out_dir, original_slots, original_solvers) := originals in
     captured <- gets rs_capture ;;
     modify (set_capture None) ;;
     setattr "OUT_DIR" original_out_dir ;;
     setattr "SLOTS" original_slots ;;
     setattr "SOLVERS_TO_RUN" original_solvers ;;
     try_except
       (fs_op (in_subdir (replace_dots solver_name)
                 (write_file (simple_name solver_name ++ "_output.txt")
                    (Text (capture_text captured)))))
       (fun _ => ret tt)) s1 = (Ok tt, s2).
Proof.
  intros [ns Hm]. destruct originals as [[o1 o2] o3].
  unfold bind at 1, gets. unfold bind at 1, modify.
  erewrite bind_of_ok by (apply setattr_eq; exact Hm).
  erewrite bind_of_ok by (apply setattr_eq; reflexivity).
  erewrite bind_of_ok by (apply setattr_eq; reflexivity).
  unfold try_except. destruct (fs_op _ _) as [[[]|e] s2]; eexists; reflexivity.
Qed.

Lemma direct_session_result solver_name traceback_bound originals st ns e0 :
  rs_mod st = Some ns ->
  er_raised (engine_main ns (rs_dir st)) = Some e0 ->
  is_dir "direct_execution_log.txt" (er_dir (engine_main ns (rs_dir st))) = false ->
  fst (direct_session engine_main solver_name traceback_bound originals st)
  = if traceback_bound then Ok tt
    else Raise (Exn "UnboundLocalError" "traceback").
Proof.
  intros Hm Hraise Hlog. unfold direct_session. cbv zeta.
  destruct originals as [[o1 o2] o3].
  erewrite bind_of_ok by reflexivity.
  match goal with
  | |- context [try_finally ?body ?final ?s] =>
      assert (Eb : exists s1,
                 body s = (if traceback_bound then Ok tt
                           else Raise (Exn "UnboundLocalError" "traceback"), s1)
                 /\ has_module s1)
  end.
  { unfold try_except, bind at 1, call_engine.
    cbn [rs_mod rs_dir rs_capture set_capture]. rewrite Hm, Hraise.
    unfold bind at 1, print, modify. cbn [rs_capture set_capture].
    destruct traceback_bound.
    - unfold fs_op, set_capture. cbn [rs_dir rs_mod rs_capture].
      destruct (append_file_ok "direct_execution_log.txt"
                  ("错误: " ++ str_exn e0 ++ nl ++ "Traceback:" ++ nl ++ format_exc e0)
                  _ Hlog) as (c & Ea & _).
      rewrite Ea. eexists. split; [reflexivity|]. eexists. reflexivity.
    - unfold bind, fs_op, set_capture. cbn [rs_dir rs_mod rs_capture].
      destruct (append_file_ok "direct_execution_log.txt"
                  ("错误: " ++ str_exn e0 ++ nl ++ "Traceback:" ++ nl)
                  _ Hlog) as (c & Ea & _).
      rewrite Ea. eexists. split; [reflexivity|]. eexists. reflexivity. }
  destruct Eb as (s1 & Eb & Hs1).
  destruct (direct_final_ok solver_name (o1, o2, o3) s1 Hs1) as (s2 & Ef).
  erewrite try_finally_of; [reflexivity|exact Eb|exact Ef].
Qed.

Lemma copy_first_summary_ok st :
  exists st', copy_first_summary st = (Ok tt, st').
Proof.
  unfold copy_first_summary, bind at 1, gets.
  destruct (find _ _); [|eexists; reflexivity].
  unfold try_except.
  match goal with |- context [match ?x with _ => _ end] => destruct x as [[[]|e] s1] end;
    eexists; reflexivity.
Qed.


End ReexecutionFailures.

Lemma reconcile_leaves_overwritten_config_witness :
  exists bs',
    reconcile Samples.good_engine Samples.clock 5 "out" "solvers.A.A"
              (start {| fs := [("A_run_1", Dir [("solvers_A_A", File (Text "stale"))])];
                        emod := Some Samples.configured |})
    = (Ok tt, bs')
    /\ emod (bs_world bs')
       = Some (acquired (path_join "out" (simple_name "solvers.A.A" ++ "_run_1"))
                        5 "solvers.A.A" Samples.configured).
Proof.
  eapply (reconcile_leaves_overwritten_config Samples.good_engine Samples.clock
            5%Z "out" "solvers.A.A"
            (start {| fs := [("A_run_1", Dir [("solvers_A_A", File (Text "stale"))])];
                      emod := Some Samples.configured |})
            Samples.configured);
    reflexivity.
Defined.


(** ** A second run over the same run directory *)

Lemma find_summary_root run_dir es c :
  Dict.get "summary.json" es = Some (File c) ->
  find (fun f => String.eqb (w_file f) "summary.json") (walk [] run_dir (Dir es))
  = Some {| w_comps := []; w_root := run_dir; w_file := "summary.json" |}.
Proof.
  intros H. cbn [walk].
  assert (Hin : In {| w_comps := []; w_root := run_dir; w_file := "summary.json" |}
                   (files_here [] run_dir es)).
  { unfold files_here. apply in_flat_map.
    exists ("summary.json", File c). split; [now apply dict_get_in|].
    simpl. now left. }
  assert (Hall : forall f, In f (files_here [] run_dir es) ->
                           w_comps f = [] /\ w_root f = run_dir).
  { intros f Hf. unfold files_here in Hf. apply in_flat_map in Hf.
    destruct Hf as ([k [c0|d]] & _ & Hf); simpl in Hf; [|contradiction].
    destruct Hf as [<-|[]]. split; reflexivity. }
  generalize dependent (flat_map
    (fun e : string * node => walk ([] ++ [fst e]) (path_join run_dir (fst e)) (snd e)) es).
  induction (files_here [] run_dir es) as [|f l IH]; intros rest; [contradiction|].
  simpl. destruct (String.eqb (w_file f) "summary.json") eqn:Ef.
  - apply String.eqb_eq in Ef. destruct (Hall f (or_introl eq_refl)) as [Hc Hr].
    destruct f as [fc fr ff]. simpl in *. now subst.
  - destruct Hin as [->|Hin]; [simpl in Ef; discriminate|].
    apply IH; [exact Hin|]. intros g Hg. apply Hall. now right.
Qed.

Lemma keeps_entry_try_finally {S A} (dir : S -> entries) name
      (body : M S A) (final : M S unit) :
  keeps_entry dir name body -> keeps_entry dir name final ->
  keeps_entry dir name (try_finally body final).
Proof.
  intros Hb Hf s. unfold try_finally. specialize (Hb s).
  destruct (body s) as [r s1]. specialize (Hf s1).
  destruct (final s1) as [[[]|e] s2]; simpl in *; congruence.
Qed.

Lemma keeps_modify_capture name (f : run_state -> run_state) :
  (forall st, rs_dir (f st) = rs_dir st) -> keeps_entry rs_dir name (modify f).
Proof. intros H st. unfold modify. simpl. now rewrite H. Qed.

Lemma keeps_print name t : keeps_entry rs_dir name (print t).
Proof.
  apply keeps_modify_capture. intros st.
  destruct (rs_capture st) as [[out err]|]; reflexivity.
Qed.

Section SecondRun.

Variable engine_main : namespace -> entries -> engine_result.
Variable py_str : value -> string.
Variable now : string.
Variable elapsed : Q.

Hypothesis engine_keeps_summary :
  forall ns es,
    Dict.get "summary.json" (er_dir (engine_main ns es)) = Dict.get "summary.json" es.

Hypothesis engine_keeps_log :
  forall ns es,
    is_dir "experiment_log.txt" es = false ->
    is_dir "experiment_log.txt" (er_dir (engine_main ns es)) = false.

Lemma keeps_summary_call_engine :
  keeps_entry rs_dir "summary.json" (call_engine engine_main).
Proof.
  intros st. unfold call_engine. destruct (rs_mod st); [|reflexivity].
  simpl. apply engine_keeps_summary.
Qed.

Lemma keeps_summary_capture_session solver_name :
  keeps_entry rs_dir "summary.json" (capture_session engine_main now solver_name).
Proof.
  unfold capture_session. cbv zeta.
  apply keeps_entry_bind; [apply keeps_modify_capture; reflexivity|intros _].
  apply keeps_entry_try_finally.
  - apply keeps_entry_try_except.
    + apply keeps_entry_bind; [apply keeps_summary_call_engine|intros _].
      apply keeps_print.
    + intros e. apply keeps_entry_bind; [apply keeps_print|intros _].
      apply keeps_log_append. discriminate.
  - apply keeps_entry_bind; [intros s; reflexivity|intros captured].
    apply keeps_entry_bind; [apply keeps_modify_capture; reflexivity|intros _].
    apply keeps_entry_try_except; [|intros e; apply keeps_entry_ret].
    apply keeps_fs_op. intros es es' H. unfold in_subdir in H.
    destruct (Dict.get (replace_dots solver_name) es) as [[|d]|]; try discriminate.
    destruct (write_file _ _ d); inversion H; subst.
    apply dict_get_set_other. apply not_eq_sym. apply replace_dots_not. reflexivity.
Qed.

Lemma capture_session_returns solver_name st ns :
  rs_mod st = Some ns ->
  is_dir "experiment_log.txt" (rs_dir st) = false ->
  exists st', capture_session engine_main now solver_name st = (Ok tt, st').
Proof.
  intros Hm Hlog. unfold capture_session. cbv zeta.
  erewrite bind_of_ok by reflexivity.
  match goal with
  | |- context [try_finally ?body ?final ?s] =>
      assert (Eb : exists s1, body s = (Ok tt, s1))
  end.
  { unfold try_except, bind at 1, call_engine.
    cbn [rs_mod rs_dir rs_capture set_capture]. rewrite Hm.
    destruct (er_raised (engine_main ns (rs_dir st))) as [e0|] eqn:Er.
    - unfold bind at 1, print, modify, log_append, fs_op, set_capture.
      cbn [rs_dir rs_mod rs_capture].
      match goal with
      | |- context [append_file ?n ?t ?es] =>
          destruct (append_file_ok n t es (engine_keeps_log _ _ Hlog)) as (c & Ea & _)
      end.
      rewrite Ea. eexists. reflexivity.
    - eexists. reflexivity. }
  destruct Eb as (s1 & Eb).
  match goal with
  | |- context [try_finally ?body ?final ?s] =>
      assert (Ef : exists s2, final s1 = (Ok tt, s2))
  end.
  { unfold bind at 1, gets. unfold bind at 1, modify. unfold try_except.
    destruct (fs_op _ _) as [[[]|e] s2]; eexists; reflexivity. }
  destruct Ef as (s2 & Ef).
  exists s2. erewrite try_finally_of; [reflexivity|exact Eb|exact Ef].
Qed.

Lemma run_solver_body_second solver_name num_slots output_dir run_idx st ns v :
  rs_mod st = Some ns ->
  Dict.get "summary.json" (rs_dir st) = Some (File (Json v)) ->
  is_dir "experiment_config.json" (rs_dir st) = false ->
  is_dir "experiment_log.txt" (rs_dir st) = false ->
  (forall c, Dict.get (replace_dots solver_name) (rs_dir st) <> Some (File c)) ->
  exists st',
    run_solver_body engine_main py_str now elapsed solver_name num_slots output_dir
                    run_idx st = (Ok v, st')
    /\ Dict.get "summary.json" (rs_dir st') = Some (File (Json v)).
Proof.
  intros Hm Hsum Hcfg Hlog Hsd.
  assert (Nsd : forall n, dot_free n = false -> n <> replace_dots solver_name)
    by (intros n Hn; now apply replace_dots_not).
  unfold run_solver_body. cbv zeta.
  match goal with
  | |- exists st', try_except ?body ?h st = _ /\ _ =>
      assert (Eb : exists st', body st = (Ok v, st')
                               /\ Dict.get "summary.json" (rs_dir st')
                                  = Some (File (Json v)))
  end.
  { erewrite bind_of_ok by (unfold import_main; rewrite Hm; reflexivity).
    erewrite bind_of_ok by (apply fs_op_write_ok; exact Hcfg).
    erewrite bind_of_ok
      by (apply fs_op_write_ok; cbn [rs_dir set_dir]; unfold is_dir;
          rewrite dict_get_set_other by discriminate; exact Hlog).
    erewrite bind_of_ok by (apply setattr_eq; exact Hm).
    erewrite bind_of_ok by (apply setattr_eq; reflexivity).
    erewrite bind_of_ok by (apply setattr_eq; reflexivity).
    match goal with
    | |- context [bind (fs_op (makedirs ?n)) _ ?s] =>
        destruct (makedirs_dir n (rs_dir s)) as (es3 & Emk & _)
    end.
    { intros c. cbn [rs_dir set_dir set_mod].
      rewrite !dict_get_set_other by (apply Nsd; reflexivity).
      apply Hsd. }
    erewrite bind_of_ok by (unfold fs_op; rewrite Emk; reflexivity).
    assert (Hlog3 : is_dir "experiment_log.txt" es3 = false).
    { unfold is_dir.
      rewrite (makedirs_frame _ _ _ "experiment_log.txt" Emk) by (apply Nsd; reflexivity).
      cbn [rs_dir set_dir set_mod]. now rewrite dict_get_set_same. }
    assert (Hsum3 : Dict.get "summary.json" es3 = Some (File (Json v))).
    { rewrite (makedirs_frame _ _ _ "summary.json" Emk) by (apply Nsd; reflexivity).
      cbn [rs_dir set_dir set_mod].
      rewrite !dict_get_set_other by discriminate. exact Hsum. }
    match goal with
    | |- context [bind (capture_session _ _ _) _ ?s] =>
        destruct (capture_session_returns solver_name s _ eq_refl Hlog3) as (s4 & Ec);
        pose proof (keeps_summary_capture_session solver_name s) as Hk
    end.
    rewrite Ec in Hk. cbn [snd rs_dir set_dir] in Hk. rewrite Hsum3 in Hk.
    erewrite bind_of_ok by exact Ec.
    unfold bind at 1, gets.
    rewrite (find_summary_root _ _ _ Hk). cbn [w_comps w_file].
    unfold bind at 1, lift_result, open_read. cbn [lookup_dir]. rewrite Hk.
    unfold bind at 1, json_load.
    unfold bind, fs_op, write_file, ret. rewrite Hk.
    eexists. split; [reflexivity|]. cbn [rs_dir set_dir]. apply dict_get_set_same. }
  destruct Eb as (st' & Eb & Hst'). exists st'. split; [|exact Hst'].
  now apply try_except_of_ok.
Qed.


End SecondRun.



(** ** The columns of an exported table *)

Lemma in_dict_get {V} (k : string) (v : V) (d : list (string * V)) :
  NoDup (Dict.keys d) -> In (k, v) d -> Dict.get k d = Some v.
Proof.
  unfold Dict.keys. induction d as [|[k' v'] d IH]; simpl; [contradiction|].
  intros Hnd Hin. inversion Hnd as [|? ? Hnot Hnd']; subst.
  destruct Hin as [E|Hin].
  - inversion E; subst. now rewrite String.eqb_refl.
  - destruct (String.eqb k k') eqn:E; [|now apply IH].
    apply String.eqb_eq in E. subst. exfalso. apply Hnot.
    apply in_map_iff. exists (k', v). split; [reflexivity|exact Hin].
Qed.

(** X24.  The table exported for a metric has a column for exactly the
    solvers with at least one value of the metric, next to the column of
    run numbers, as soon as some solver has a value: a solver all of whose
    runs lack the metric gets no column, not a blank one.  When no solver
    has a value, the table has no data row and its header names every
    solver of the corpus. *)
Theorem metric_table_columns :
  forall metric_key (all_results : corpus),
    NoDup (Dict.keys all_results) ->
    (has_data metric_key all_results = true ->
     forall solver,
       solver <> run_count_column ->
       (In solver (table_header (metric_table metric_key all_results))
        <-> exists runs,
             Dict.get solver all_results = Some runs
             /\ metric_values metric_key runs <> []))
    /\ (has_data metric_key all_results = false ->
        table_rows (metric_table metric_key all_results) = 0%nat
        /\ forall solver,
            solver <> run_count_column ->
            (In solver (table_header (metric_table metric_key all_results))
             <-> exists runs, Dict.get solver all_results = Some runs)).
Proof.
  intros metric_key all_results Hnd. split; intros Hd; unfold metric_table; rewrite Hd.
  - intros solver Hcol. cbn [table_header]. rewrite collect_metric_filter by exact Hnd.
    unfold Dict.keys. rewrite map_map. cbn [fst]. split.
    + intros [E|Hin]; [now elim Hcol|].
      apply in_map_iff in Hin. destruct Hin as ([s runs] & <- & Hin).
      apply filter_In in Hin. destruct Hin as [Hin Hv]. cbn [fst snd] in *.
      exists runs. split; [now apply in_dict_get|].
      intros E. rewrite E in Hv. discriminate.
    + intros (runs & Hget & Hv). right.
      apply in_map_iff. exists (solver, runs). split; [reflexivity|].
      apply filter_In. split; [now apply dict_get_in|].
      cbn [snd]. destruct (metric_values metric_key runs); [congruence|reflexivity].
  - split; [reflexivity|]. intros solver Hcol. cbn [table_header]. split.
    + intros [E|Hin]; [now elim Hcol|].
      apply dict_mem_in_keys in Hin. unfold Dict.mem in Hin.
      destruct (Dict.get solver all_results) as [runs|]; [eauto|discriminate].
    + intros (runs & Hget). right. apply dict_mem_in_keys.
      unfold Dict.mem. now rewrite Hget.
Qed.

Lemma metric_table_columns_witness :
  (has_data "C_mean" [("A", [[("C_mean", VNum 1)]]); ("B", [[("status", VStr "failed")]])]
   = true ->
   forall solver,
     solver <> run_count_column ->
     (In solver (table_header
                   (metric_table "C_mean"
                      [("A", [[("C_mean", VNum 1)]]); ("B", [[("status", VStr "failed")]])]))
      <-> exists runs,
           Dict.get solver
             [("A", [[("C_mean", VNum 1)]]); ("B", [[("status", VStr "failed")]])]
           = Some runs
           /\ metric_values "C_mean" runs <> []))
  /\ (has_data "C_mean" [("A", [[("C_mean", VNum 1)]]); ("B", [[("status", VStr "failed")]])]
      = false ->
      table_rows (metric_table "C_mean"
                    [("A", [[("C_mean", VNum 1)]]); ("B", [[("status", VStr "failed")]])])
      = 0%nat
      /\ forall solver,
          solver <> run_count_column ->
          (In solver (table_header
                        (metric_table "C_mean"
                           [("A", [[("C_mean", VNum 1)]]);
                            ("B", [[("status", VStr "failed")]])]))
           <-> exists runs,
                Dict.get solver
                  [("A", [[("C_mean", VNum 1)]]); ("B", [[("status", VStr "failed")]])]
                = Some runs)).
Proof.
  apply (metric_table_columns "C_mean"
           [("A", [[("C_mean", VNum 1)]]); ("B", [[("status", VStr "failed")]])]).
  repeat constructor; simpl; intuition discriminate.
Defined.
